(** * OneClick-Checkout: endpoint failover, balance discovery and the receipt ledger

    A shallow embedding of the TypeScript sources

      - [src/app/api/solana-pay/route.ts]       (initiate-payment, health check)
      - [src/app/api/confirm-payment/route.ts]  (confirm-payment)
      - [api/get-transaction/[signature]]       (get-transaction)
      - [api/dashboard]                         (dashboard read)
      - [src/lib/db.ts]                         (the in-memory ledger)
      - [src/app/page.tsx]                      (client-side selector and
                                                 balance/mint resolver)

    Asynchronous code is written in a small state-and-exception monad.  The
    outside world (RPC nodes, the image service) is an oracle indexed by a
    logical clock that advances at every [await]; every call that leaves the
    process is recorded in a trace. *)

From Stdlib Require Import String Ascii List Bool Arith ZArith QArith Lia.
Import ListNotations.
Local Open Scope string_scope.
Local Open Scope list_scope.
Local Open Scope nat_scope.

Set Implicit Arguments.

(* ===================================================================== *)
(** ** JavaScript values *)
(* ===================================================================== *)

(** Values that [JSON.parse] can produce, plus [undefined], which is what
    reading a missing property gives.  A number is an IEEE 754 double:
    [JNumber q] is the double whose value is [q].  (Arithmetic rounds its
    operands with [binary64] first, which leaves a double as it is, so that
    an example may write a decimal such as 0.1 for the double nearest to
    it.)  A string is represented by its UTF-8 encoding, the way a string
    literal of this file is read: a character above U+007F is a sequence
    of two to four bytes. *)
#[warnings="-register-all"]
Inductive jsval : Type :=
| JUndefined
| JNull
| JBool (b : bool)
| JNumber (q : Q)
| JString (s : string)
| JArray (items : list jsval)
| JObject (fields : list (string * jsval)).

(** [v.k] for the property names the handlers read ([account], [product],
    [usdcMint], [signature], [price], [name]): none of them exists on a
    primitive or on an array. *)
Fixpoint assoc (k : string) (fields : list (string * jsval)) : jsval :=
  match fields with
  | [] => JUndefined
  | (k', v) :: rest => if String.eqb k k' then v else assoc k rest
  end.

Definition get_prop (v : jsval) (k : string) : jsval :=
  match v with
  | JObject fields => assoc k fields
  | _ => JUndefined
  end.

(** [!!v]. *)
Definition truthy (v : jsval) : bool :=
  match v with
  | JUndefined | JNull => false
  | JBool b => b
  | JNumber q => negb (Qeq_bool q 0)
  | JString s => negb (String.eqb s EmptyString)
  | JArray _ | JObject _ => true
  end.

(** A number or a string that arithmetic has produced: the value of
    [db.totalSales], which starts as the number 0 and is only ever changed
    by [+=], and the value of [transferAmount].  [TNumber q] is the double
    whose value is [q].  [TText t v] is the string that [+] builds when an
    operand is not numeric: the text of [t] followed by the text of [v]. *)
#[warnings="-register-all"]
Inductive total : Type :=
| TNumber (q : Q)
| TInfinity (negative : bool)
| TNaN
| TText (t : total) (v : jsval).

(** [floor (log2 (n / d))]. *)
Definition floor_log2 (n d : positive) : Z :=
  let e := (Z.log2 (Zpos n) - Z.log2 (Zpos d))%Z in
  if (Zpos n * 2 ^ Z.max 0 (- e) <? Zpos d * 2 ^ Z.max 0 e)%Z
  then (e - 1)%Z else e.

(** The integer nearest to [n / d], the even one of two that are equally
    near. *)
Definition nearest_even (n d : Z) : Z :=
  let q := (n / d)%Z in
  let r := (n mod d)%Z in
  if (2 * r <? d)%Z then q
  else if (d <? 2 * r)%Z then (q + 1)%Z
  else if Z.even q then q else (q + 1)%Z.

(** The double nearest to [n / d], ties to even: 53 significant bits from
    [2 ^ -1022] on, multiples of [2 ^ -1074] below; [None] when the result
    is beyond the largest double. *)
Definition nearest_double (n d : positive) : option Q :=
  let e := Z.max (floor_log2 n d) (-1022) in
  let k := (52 - e)%Z in
  let m := nearest_even (Zpos n * 2 ^ Z.max 0 k) (Zpos d * 2 ^ Z.max 0 (- k)) in
  if (1023 <? e)%Z || ((e =? 1023)%Z && (m =? 2 ^ 53)%Z) then None
  else Some (Qred (Qmake (m * 2 ^ Z.max 0 (- k)) (Z.to_pos (2 ^ Z.max 0 k)))).

(** The double that the real number [q] is rounded to. *)
Definition binary64 (q : Q) : total :=
  match Qnum q with
  | Z0 => TNumber 0
  | Zpos n =>
      match nearest_double n (Qden q) with
      | Some m => TNumber m
      | None => TInfinity false
      end
  | Zneg n =>
      match nearest_double n (Qden q) with
      | Some m => TNumber (Qred (- m))
      | None => TInfinity true
      end
  end.

(** [seconds * 1000] for a whole number of seconds: the product of
    doubles, rounded to the nearest double.  It is the exact product up to
    [2 ^ 53]; it stays finite for every time that fits 64 bits. *)
Definition milliseconds (seconds : nat) : nat :=
  match binary64 (inject_Z (Z.of_nat seconds)) with
  | TNumber s =>
      match binary64 (s * 1000) with
      | TNumber ms => Z.to_nat (Qnum ms)
      | _ => seconds * 1000
      end
  | _ => seconds * 1000
  end.

(** [Number(v)] for the operands that [+] treats as numbers. *)
Definition to_number (v : jsval) : total :=
  match v with
  | JNumber q => binary64 q
  | JNull => TNumber 0
  | JBool b => TNumber (if b then 1 else 0)
  | _ => TNaN
  end.

(** [x + y] on numbers: the exact sum rounded to the nearest double. *)
Definition number_plus (x y : total) : total :=
  match x, y with
  | TNumber a, TNumber b => binary64 (a + b)
  | TInfinity s, TInfinity s' => if Bool.eqb s s' then TInfinity s else TNaN
  | TInfinity s, TNumber _ | TNumber _, TInfinity s => TInfinity s
  | _, _ => TNaN
  end.

(** [t + v] in JavaScript: string concatenation as soon as one operand is a
    string (objects and arrays convert to strings), addition of doubles
    otherwise, with [undefined] read as NaN, [null] as 0 and booleans as
    0 or 1. *)
Definition js_plus (t : total) (v : jsval) : total :=
  match t, v with
  | TText _ _, _ => TText t v
  | _, JString _ | _, JArray _ | _, JObject _ => TText t v
  | TNumber a, _ => number_plus (binary64 a) (to_number v)
  | _, _ => number_plus t (to_number v)
  end.

(** An [Error] object: its [name] and [message]. *)
Record jsError : Type := mkError { err_name : string; err_message : string }.

Definition TypeError (msg : string) : jsError := mkError "TypeError" msg.

(* ===================================================================== *)
(** ** The world outside the process *)
(* ===================================================================== *)

(** A public key, identified by its base58 text. *)
Record PublicKey : Type := mkKey { toBase58 : string }.

Record Connection : Type := mkConnection { rpcEndpoint : string }.

Record AccountInfo : Type := mkAccountInfo { data : list Byte.byte }.

Record TokenAmount : Type := mkTokenAmount { uiAmount : option Q; decimals : nat }.

(** What the handlers read of a parsed transaction. *)
Record ParsedTransaction : Type := mkParsedTx {
  accountKeys : list PublicKey;
  blockTime : option nat;
  slot : nat;
  meta_err : bool
}.

Record GeneratedImage : Type := mkImage { dataUrl : string; base64 : string }.

Inductive rpc : Type :=
| getSlot
| getVersion
| getParsedTransaction (signature : string)
| getAccountInfo (address : PublicKey)
| getTokenAccountBalance (address : PublicKey)
| getBalance (owner : PublicKey)
| getTokenAccountsByOwner (owner : PublicKey)
| getProgramAccounts (owner : PublicKey)
| getAccount (address : PublicKey)
| getLatestBlockhash.

(** What leaves the process.  [Rpc t e c] is the call [c] sent to endpoint
    [e] at clock [t]; calls issued together carry the same clock. *)
Inductive event : Type :=
| NewConnection (endpoint : string)
| Rpc (at_clock : nat) (endpoint : string) (call : rpc)
| GenerateImage (at_clock : nat) (productName : jsval)
| Log (text : string).

(** The replies of the network: [inl] is a rejected promise. *)
Record network : Type := mkNetwork {
  net_getSlot : nat -> string -> jsError + nat;
  net_getVersion : nat -> string -> jsError + string;
  net_getParsedTransaction : nat -> string -> string -> jsError + option ParsedTransaction;
  net_getAccountInfo : nat -> string -> PublicKey -> jsError + option AccountInfo;
  net_getTokenAccountBalance : nat -> string -> PublicKey -> jsError + TokenAmount;
  net_getBalance : nat -> string -> PublicKey -> jsError + nat;
  net_getTokenAccountsByOwner : nat -> string -> PublicKey -> jsError + list (PublicKey * AccountInfo);
  net_getProgramAccounts : nat -> string -> PublicKey -> jsError + list (PublicKey * AccountInfo);
  net_getAccount : nat -> string -> PublicKey -> jsError + unit;
  net_getLatestBlockhash : nat -> string -> jsError + (string * nat);
  net_generateImage : nat -> jsval -> jsError + GeneratedImage;
  net_Date_now : nat -> nat
}.

Inductive Instruction : Type :=
| CreateAssociatedTokenAccount (payer associatedToken owner mint : PublicKey)
| Transfer (source destination owner : PublicKey) (amount : total).

Record SolanaTransaction : Type := mkSolanaTransaction {
  instructions : list Instruction;
  recentBlockhash : string;
  feePayer : PublicKey
}.

(** The pure functions of [@solana/web3.js], [@solana/spl-token] and
    [bignumber.js] that the code calls; they are parameters of the model.
    [inl] is a thrown error.  [BigNumber_shiftedBy_toNumber x n] is
    [new BigNumber(x).shiftedBy(n).toNumber()] for a number [x]. *)
Record solana_sdk : Type := mkSdk {
  new_PublicKey : jsval -> jsError + PublicKey;
  PublicKey_of_bytes : list Byte.byte -> jsError + PublicKey;
  getAssociatedTokenAddress : PublicKey -> PublicKey -> bool -> jsError + PublicKey;
  createTransferInstruction :
    PublicKey -> PublicKey -> PublicKey -> total -> jsError + Instruction;
  serialize : SolanaTransaction -> jsError + string;
  BigNumber_shiftedBy_toNumber : total -> nat -> total
}.

(* ===================================================================== *)
(** ** The monad of asynchronous code *)
(* ===================================================================== *)

Inductive outcome (A : Type) : Type :=
| Ok (a : A)
| Throw (e : jsError).
Arguments Ok {A} a.
Arguments Throw {A} e.

(** The clock, the trace, and the module-level variables [mem]. *)
Record world (St : Type) : Type := mkWorld {
  clock : nat;
  trace : list event;
  mem : St
}.

Definition M (St A : Type) : Type := world St -> outcome A * world St.

Definition ret {St A} (a : A) : M St A := fun w => (Ok a, w).

Definition throw {St A} (e : jsError) : M St A := fun w => (Throw e, w).

Definition bind {St A B} (m : M St A) (f : A -> M St B) : M St B :=
  fun w =>
    match m w with
    | (Ok a, w') => f a w'
    | (Throw e, w') => (Throw e, w')
    end.

(** [try { m } catch (e) { h e }]. *)
Definition try_catch {St A} (m : M St A) (h : jsError -> M St A) : M St A :=
  fun w =>
    match m w with
    | (Ok a, w') => (Ok a, w')
    | (Throw e, w') => h e w'
    end.

Declare Scope js_scope.
Delimit Scope js_scope with js.
Notation "x <- m ;; k" := (bind m (fun x => k))
  (at level 61, m at next level, right associativity) : js_scope.
Notation "m ;;; k" := (bind m (fun _ => k))
  (at level 61, right associativity) : js_scope.
Local Open Scope js_scope.

Definition emit {St} (ev : event) : M St unit :=
  fun w => (Ok tt, mkWorld (clock w) (trace w ++ [ev]) (mem w)).

Definition tick {St} : M St unit :=
  fun w => (Ok tt, mkWorld (S (clock w)) (trace w) (mem w)).

Definition now {St} : M St nat := fun w => (Ok (clock w), w).

Definition get_mem {St} : M St St := fun w => (Ok (mem w), w).

Definition set_mem {St} (s : St) : M St unit :=
  fun w => (Ok tt, mkWorld (clock w) (trace w) s).

Definition settle {St A} (r : jsError + A) : M St A :=
  match r with
  | inl e => throw e
  | inr a => ret a
  end.

(** [await connection.call(...)]: the call is sent, the clock advances, and
    the promise settles with the reply of the network. *)
Definition await_rpc {St A} (c : Connection) (call : rpc)
    (reply : nat -> string -> jsError + A) : M St A :=
  t <- now ;;
  emit (Rpc t (rpcEndpoint c) call) ;;;
  tick ;;;
  settle (reply t (rpcEndpoint c)).

(** [await Promise.all([connection.a(), connection.b()])]: both calls are
    sent before either reply is looked at, and the result is rejected as
    soon as one of them is. *)
Definition await_all2 {St A B} (c : Connection)
    (call1 : rpc) (reply1 : nat -> string -> jsError + A)
    (call2 : rpc) (reply2 : nat -> string -> jsError + B) : M St (A * B) :=
  t <- now ;;
  emit (Rpc t (rpcEndpoint c) call1) ;;;
  emit (Rpc t (rpcEndpoint c) call2) ;;;
  tick ;;;
  a <- settle (reply1 t (rpcEndpoint c)) ;;
  b <- settle (reply2 t (rpcEndpoint c)) ;;
  ret (a, b).

(** [new Connection(endpoint, ...)]: web3.js rejects an endpoint that does
    not start with [http:] or [https:]. *)
Definition assertEndpointUrl (endpoint : string) : bool :=
  String.prefix "http:" endpoint || String.prefix "https:" endpoint.

Definition new_Connection {St} (endpoint : string) : M St Connection :=
  emit (NewConnection endpoint) ;;;
  if assertEndpointUrl endpoint then ret (mkConnection endpoint)
  else throw (TypeError "Endpoint URL must start with `http:` or `https:`.").

Definition console_log {St} (text : string) : M St unit := emit (Log text).

(* ===================================================================== *)
(** ** The ledger ([src/lib/db.ts]) *)
(* ===================================================================== *)

(** [interface Transaction] of the ledger.  [amount] holds [product.price]
    and [product] holds [product.name] as the request gave them. *)
Record Transaction : Type := mkTransaction {
  buyer : string;
  product : jsval;
  amount : jsval;
  signature : string;
  timestamp : nat;
  imageUrl : option string
}.

Record Db : Type := mkDb {
  transactions : list Transaction;
  totalSales : total;
  nftReceiptsIssued : nat
}.

(** [export const db = { transactions: [], totalSales: 0, nftReceiptsIssued: 0 }]. *)
Definition db_initial : Db := mkDb [] (TNumber 0) 0.

(** The module-level variables of a route: its connection cache, and the
    ledger it imports. *)
Record route_state : Type := mkRoute {
  cachedConnection : option Connection;
  cachedEndpoint : option string;
  db : Db
}.

Definition set_cache (c : option Connection) (e : option string) : M route_state unit :=
  s <- get_mem ;;
  set_mem (mkRoute c e (db s)).

(** [clusterApiUrl('devnet')] is the devnet URL itself. *)
Definition clusterApiUrl_devnet : string := "https://api.devnet.solana.com".

Definition RPC_ENDPOINTS : list string :=
  [ clusterApiUrl_devnet;
    "https://api.devnet.solana.com";
    "https://rpc.ankr.com/solana_devnet";
    "https://devnet.helius-rpc.com/?api-key=your-api-key" ].

Definition POTENTIAL_USDC_MINTS : list string :=
  [ "4zMMC9srt5Ri5X14GAgXhaHii3GnPAEERYPJgZJDncDU";
    "Gh9ZwEmdLJ8DscKNTkTqPbNwLNNBjuSzaG9Vp2KGtKJr";
    "EPjFWdd5AufqSSqeM2qN1xzybapC8G4wEGGkZwyTDt1v" ].

(* ===================================================================== *)
(** ** The endpoint selector of the three API routes *)
(* ===================================================================== *)

(** The three routes carry textually the same [getWorkingConnection]; they
    differ in the test applied to a freshly built connection.  The shared
    text is [Selector], the tests are given per route below. *)
Module Selector.
Section WithTest.

(** The statements of the [try] block between [new Connection] and the
    cache update. *)
Variable probe : Connection -> M route_state unit.
Variable endpoints : list string.

(** The body of the [try] block of one loop iteration. *)
Definition testEndpoint (endpoint : string) : M route_state Connection :=
  connection <- new_Connection endpoint ;;
  probe connection ;;;
  set_cache (Some connection) (Some endpoint) ;;;
  ret connection.

(** [for (const endpoint of RPC_ENDPOINTS) { try {...; return connection}
    catch { continue } }  return null]. *)
Fixpoint tryEndpoints (l : list string) : M route_state (option Connection) :=
  match l with
  | [] => ret None
  | endpoint :: rest =>
      r <- try_catch (c <- testEndpoint endpoint ;; ret (Some c))
                     (fun _ => ret None) ;;
      match r with
      | Some c => ret (Some c)
      | None => tryEndpoints rest
      end
  end.

Definition cache_is_set (s : route_state) : option Connection :=
  match cachedConnection s, cachedEndpoint s with
  | Some c, Some e => if String.eqb e EmptyString then None else Some c
  | _, _ => None
  end.

Definition getWorkingConnection (net : network) : M route_state (option Connection) :=
  s <- get_mem ;;
  match cache_is_set s with
  | Some c =>
      r <- try_catch (await_rpc c getSlot (net_getSlot net) ;;; ret (Some c))
                     (fun _ => set_cache None None ;;; ret None) ;;
      match r with
      | Some c => ret (Some c)
      | None => tryEndpoints endpoints
      end
  | None => tryEndpoints endpoints
  end.

End WithTest.
End Selector.

(** [solana-pay/route.ts] and [confirm-payment/route.ts]:
    [await Promise.all([connection.getSlot(), connection.getVersion()])]. *)
Definition probe_slot_and_version (net : network) (c : Connection) : M route_state unit :=
  await_all2 c getSlot (net_getSlot net) getVersion (net_getVersion net) ;;; ret tt.

(** [get-transaction]: [await connection.getSlot()]. *)
Definition probe_slot (net : network) (c : Connection) : M route_state unit :=
  await_rpc c getSlot (net_getSlot net) ;;; ret tt.

(* ===================================================================== *)
(** ** Requests and responses *)
(* ===================================================================== *)

(** The body of a POST request, as far as the handlers tell bodies apart:
    blank text, text that [JSON.parse] rejects, or a parsed value. *)
Inductive request_body : Type :=
| BodyBlank
| BodyNotJson
| BodyJson (body : jsval).

(** [const { a, b } = body] throws on [null] and [undefined]. *)
Definition destructure {St} (body : jsval) : M St unit :=
  match body with
  | JNull | JUndefined => throw (TypeError "Cannot destructure property of null")
  | _ => ret tt
  end.

(** The string of the given bytes. *)
Definition utf8 (bytes : list nat) : string :=
  fold_right (fun b s => String (ascii_of_nat b) s) EmptyString bytes.

(** The characters that [String.prototype.trim] strips, WhiteSpace and
    LineTerminator of ECMAScript, in UTF-8: U+0009 to U+000D, U+0020,
    U+00A0, U+1680, U+2000 to U+200A, U+2028, U+2029, U+202F, U+205F,
    U+3000 and U+FEFF. *)
Definition white_space : list string :=
  map utf8
    [ [9]; [10]; [11]; [12]; [13]; [32];
      [194; 160];
      [225; 154; 128];
      [226; 128; 128]; [226; 128; 129]; [226; 128; 130]; [226; 128; 131];
      [226; 128; 132]; [226; 128; 133]; [226; 128; 134]; [226; 128; 135];
      [226; 128; 136]; [226; 128; 137]; [226; 128; 138];
      [226; 128; 168]; [226; 128; 169]; [226; 128; 175];
      [226; 129; 159];
      [227; 128; 128];
      [239; 187; 191] ].

(** [s] is one white space character. *)
Definition is_space (s : string) : bool := existsb (String.eqb s) white_space.

Fixpoint trim_start (s : string) : string :=
  match s with
  | String a rest =>
      if is_space (String a EmptyString) then trim_start rest
      else
        match rest with
        | String b rest2 =>
            if is_space (String a (String b EmptyString)) then trim_start rest2
            else
              match rest2 with
              | String c rest3 =>
                  if is_space (String a (String b (String c EmptyString)))
                  then trim_start rest3
                  else s
              | EmptyString => s
              end
        | EmptyString => s
        end
  | EmptyString => EmptyString
  end.

(** What is left of [String c rest] once [rest] has been trimmed to
    [rest']: nothing when it is one white space character. *)
Fixpoint trim_end (s : string) : string :=
  match s with
  | String c rest =>
      let kept := String c (trim_end rest) in
      if is_space kept then EmptyString else kept
  | EmptyString => EmptyString
  end.

(** [s.trim()]. *)
Definition trim (s : string) : string := trim_end (trim_start s).

(** [s.includes(sub)]. *)
Definition includes (sub s : string) : bool :=
  match String.index 0 sub s with
  | Some _ => true
  | None => false
  end.

Record PayDetails : Type := mkPayDetails {
  userAccount : string;
  merchantAccount : string;
  pay_amount : total;
  userAccountExists : bool;
  merchantAccountExists : bool;
  lastValidBlockHeight : nat;
  instructionCount : nat;
  usdcMint : string;
  pay_rpcEndpoint : option string
}.

Inductive response : Type :=
| ErrorResponse (status : nat) (error : string) (details : string)
| PayResponse (transaction : string) (built : SolanaTransaction) (details : PayDetails)
| HealthResponse (currentSlot : nat) (rpc_endpoint : option string)
| ConfirmResponse (imageGenerated : bool) (rpc_endpoint : option string)
| LocalTransaction (tx : Transaction)
| NetworkTransaction (sig buyer_ : string) (timestamp_ : nat) (blockHeight : nat)
    (failed : bool) (rpc_endpoint : option string)
| DashboardData (transactions_ : list Transaction) (totalSales_ : total)
    (nftReceiptsIssued_ : nat)
| ImageResponse (image : GeneratedImage).

Definition status_of (r : response) : nat :=
  match r with
  | ErrorResponse status _ _ => status
  | _ => 200
  end.

Definition error_of (r : response) : string :=
  match r with
  | ErrorResponse _ error _ => error
  | _ => EmptyString
  end.

(** The outermost [catch] of a handler. *)
Definition InternalServerError {St} (e : jsError) : M St response :=
  ret (ErrorResponse 500 "Internal Server Error" (err_message e)).

(* ===================================================================== *)
(** ** [src/app/api/solana-pay/route.ts] *)
(* ===================================================================== *)

Module SolanaPay.

Definition getWorkingConnection (net : network) (endpoints : list string)
  : M route_state (option Connection) :=
  Selector.getWorkingConnection (probe_slot_and_version net) endpoints net.

Definition tokenAccountExists (net : network) (connection : Connection)
    (address : PublicKey) : M route_state bool :=
  try_catch
    (await_rpc connection (getAccount address)
               (fun t e => net_getAccount net t e address) ;;;
     ret true)
    (fun error =>
       if String.eqb (err_name error) "TokenAccountNotFoundError"
          || String.eqb (err_name error) "TokenInvalidAccountOwnerError"
          || includes "could not find account" (err_message error)
       then ret false
       else throw error).

Definition isValidSolanaAddress (sdk : solana_sdk) (address : jsval) : bool :=
  match new_PublicKey sdk address with
  | inr _ => true
  | inl _ => false
  end.

Definition defaultMint : string := nth 0 POTENTIAL_USDC_MINTS EmptyString.

Definition getUsdcMint (sdk : solana_sdk) (providedMint : jsval)
  : M route_state PublicKey :=
  if truthy providedMint && isValidSolanaAddress sdk providedMint
  then settle (new_PublicKey sdk providedMint)
  else settle (new_PublicKey sdk (JString defaultMint)).

Definition invalid_price : response :=
  ErrorResponse 400 "Invalid product price"
                "Product must have a valid price greater than 0.".

(** From [getAssociatedTokenAddress] to the response: the part of the
    handler that builds the transaction. *)
Definition buildTransaction (sdk : solana_sdk) (net : network)
    (MERCHANT_WALLET userPublicKey USDC_MINT : PublicKey) (price : Q)
    (connection : Connection) : M route_state response :=
  userUsdcAddress <-
    settle (getAssociatedTokenAddress sdk USDC_MINT userPublicKey true) ;;
  merchantUsdcAddress <-
    settle (getAssociatedTokenAddress sdk USDC_MINT MERCHANT_WALLET true) ;;
  u <- try_catch (b <- tokenAccountExists net connection userUsdcAddress ;;
                  ret (inr b))
                 (fun _ => ret (inl (ErrorResponse 500
                    "Error checking user token account"
                    "Failed to verify user USDC account status"))) ;;
  match u with
  | inl resp => ret resp
  | inr userExists =>
  m <- try_catch (b <- tokenAccountExists net connection merchantUsdcAddress ;;
                  ret (inr b))
                 (fun _ => ret (inl (ErrorResponse 500
                    "Error checking merchant token account"
                    "Failed to verify merchant USDC account status"))) ;;
  match m with
  | inl resp => ret resp
  | inr merchantExists =>
  let create_user :=
    if userExists then []
    else [CreateAssociatedTokenAccount userPublicKey userUsdcAddress
                                       userPublicKey USDC_MINT] in
  let create_merchant :=
    if merchantExists then []
    else [CreateAssociatedTokenAccount userPublicKey merchantUsdcAddress
                                       MERCHANT_WALLET USDC_MINT] in
  let transferAmount := BigNumber_shiftedBy_toNumber sdk (binary64 price) 6 in
  transfer <- settle (createTransferInstruction sdk userUsdcAddress
                        merchantUsdcAddress userPublicKey transferAmount) ;;
  let instrs := create_user ++ create_merchant ++ [transfer] in
  b <- try_catch (r <- await_rpc connection getLatestBlockhash
                                 (net_getLatestBlockhash net) ;;
                  ret (inr r))
                 (fun _ => ret (inl (ErrorResponse 503
                    "Failed to get latest blockhash"
                    "Could not retrieve current blockchain state"))) ;;
  match b with
  | inl resp => ret resp
  | inr (blockhash, height) =>
  let transaction := mkSolanaTransaction instrs blockhash userPublicKey in
  match serialize sdk transaction with
  | inl _ => ret (ErrorResponse 500 "Failed to serialize transaction"
                                "Could not prepare transaction for signing")
  | inr serialized =>
      s <- get_mem ;;
      ret (PayResponse serialized transaction
             (mkPayDetails (toBase58 userUsdcAddress)
                           (toBase58 merchantUsdcAddress)
                           transferAmount userExists merchantExists height
                           (List.length instrs) (toBase58 USDC_MINT)
                           (cachedEndpoint s)))
  end end end end.

(** The [try] block of [POST] once [account], [product] and [usdcMint]
    have been read from the body. *)
Definition POST_fields (sdk : solana_sdk) (net : network)
    (endpoints : list string) (MERCHANT_WALLET : PublicKey)
    (account product usdcMint : jsval) : M route_state response :=
  if negb (truthy account) || negb (truthy product) then
    ret (ErrorResponse 400 "Missing account or product parameter"
           "Request must include account and product fields.")
  else
  match get_prop product "price" with
  | JNumber price =>
      if Qle_bool price 0 then ret invalid_price else
      match account with
      | JString account =>
          let trimmedAccount := trim account in
          if String.eqb trimmedAccount EmptyString then
            ret (ErrorResponse 400 "Empty account parameter"
                   "Account parameter cannot be empty or whitespace only")
          else if negb (isValidSolanaAddress sdk (JString trimmedAccount)) then
            ret (ErrorResponse 400 "Invalid Solana address format"
                   "Account must be a valid base58-encoded Solana public key")
          else
            userPublicKey <- settle (new_PublicKey sdk (JString trimmedAccount)) ;;
            USDC_MINT <- getUsdcMint sdk usdcMint ;;
            connection <- getWorkingConnection net endpoints ;;
            match connection with
            | None =>
                ret (ErrorResponse 503 "Failed to connect to Solana network"
                       "All RPC endpoints are currently unavailable")
            | Some connection =>
                buildTransaction sdk net MERCHANT_WALLET userPublicKey
                                 USDC_MINT price connection
            end
      | _ =>
          ret (ErrorResponse 400 "Invalid account parameter type"
                 "Account must be a string representing a Solana wallet address")
      end
  | _ => ret invalid_price
  end.

(** The [try] block of [POST]. *)
Definition POST_try (sdk : solana_sdk) (net : network)
    (endpoints : list string) (MERCHANT_WALLET : PublicKey)
    (req : request_body) : M route_state response :=
  match req with
  | BodyBlank =>
      ret (ErrorResponse 400 "Empty request body"
             "Request body must contain JSON with account parameter")
  | BodyNotJson =>
      ret (ErrorResponse 400 "Invalid JSON in request body"
             "Please ensure request body contains valid JSON")
  | BodyJson body =>
      destructure body ;;;
      POST_fields sdk net endpoints MERCHANT_WALLET
                  (get_prop body "account") (get_prop body "product")
                  (get_prop body "usdcMint")
  end.

Definition POST (sdk : solana_sdk) (net : network) (endpoints : list string)
    (MERCHANT_WALLET : PublicKey) (req : request_body) : M route_state response :=
  try_catch (POST_try sdk net endpoints MERCHANT_WALLET req) InternalServerError.

(** The health check. *)
Definition GET (net : network) (endpoints : list string) : M route_state response :=
  try_catch
    (connection <- getWorkingConnection net endpoints ;;
     match connection with
     | None => throw (mkError "Error" "No working RPC endpoints available")
     | Some connection =>
         slot <- await_rpc connection getSlot (net_getSlot net) ;;
         s <- get_mem ;;
         ret (HealthResponse slot (cachedEndpoint s))
     end)
    (fun error =>
       ret (ErrorResponse 503 "Cannot connect to Solana network" (err_message error))).

End SolanaPay.

(* ===================================================================== *)
(** ** [src/app/api/confirm-payment/route.ts] *)
(* ===================================================================== *)

Definition maxRetries : nat := 3.

(** How one turn of a transaction-fetch loop ends. *)
Inductive turn (A : Type) : Type :=
| Found (tx : A)
| Break
| NextAttempt.
Arguments Found {A} tx.
Arguments Break {A}.
Arguments NextAttempt {A}.

(** The fetch loop of confirm-payment and of get-transaction, which differ
    in the selector they call:

      while (attempt < maxRetries) {
        try { tx = await connection.getParsedTransaction(signature);
              if (tx) break; }
        catch { if (attempt < maxRetries - 1) {
                  cachedConnection = null; cachedEndpoint = null;
                  const newConnection = await getWorkingConnection();
                  if (!newConnection) break; } }
        attempt++;
      }

    [connection] is the handle obtained before the loop: the loop never
    rebinds it.  A [while] loop is run on fuel; [None] is a run that used up
    its fuel with the loop condition still true. *)
Section FetchLoop.

Variable getWorkingConnection : M route_state (option Connection).
Variable net : network.
Variable connection : Connection.
Variable signature : string.

Definition fetchTurn (attempt : nat) : M route_state (turn ParsedTransaction) :=
  try_catch
    (tx <- await_rpc connection (getParsedTransaction signature)
                     (fun t e => net_getParsedTransaction net t e signature) ;;
     match tx with
     | Some tx => ret (Found tx)
     | None => ret NextAttempt
     end)
    (fun _ =>
       if attempt <? maxRetries - 1 then
         set_cache None None ;;;
         newConnection <- getWorkingConnection ;;
         match newConnection with
         | None => ret Break
         | Some _ => ret NextAttempt
         end
       else ret NextAttempt).

Fixpoint fetchLoop (fuel attempt : nat)
  : M route_state (option (option ParsedTransaction)) :=
  match fuel with
  | 0 => ret None
  | S fuel' =>
      if attempt <? maxRetries then
        r <- fetchTurn attempt ;;
        match r with
        | Found tx => ret (Some (Some tx))
        | Break => ret (Some None)
        | NextAttempt => fetchLoop fuel' (S attempt)
        end
      else ret (Some None)
  end.

End FetchLoop.

Module ConfirmPayment.

Definition getWorkingConnection (net : network) (endpoints : list string)
  : M route_state (option Connection) :=
  Selector.getWorkingConnection (probe_slot_and_version net) endpoints net.

(** [signature.substring(0, 12)] is evaluated right after the presence
    check; it exists on strings only. *)
Definition as_string {St} (v : jsval) : M St string :=
  match v with
  | JString s => ret s
  | _ => throw (TypeError "signature.substring is not a function")
  end.

(** The image step: any failure leaves [imageUrl] null. *)
Definition generateImage (net : network) (productName : jsval)
  : M route_state (option string) :=
  try_catch
    (t <- now ;;
     emit (GenerateImage t productName) ;;;
     tick ;;;
     generatedImage <- settle (net_generateImage net t productName) ;;
     ret (Some (dataUrl generatedImage)))
    (fun _ => ret None).

Definition merchantIncluded (MERCHANT_WALLET : PublicKey) (tx : ParsedTransaction) : bool :=
  existsb (String.eqb (toBase58 MERCHANT_WALLET)) (map toBase58 (accountKeys tx)).

(** [db.transactions.push(t); db.totalSales += price; db.nftReceiptsIssued += 1]. *)
Definition record_sale (newTransaction : Transaction) (price : jsval) : M route_state unit :=
  s <- get_mem ;;
  set_mem (mkRoute (cachedConnection s) (cachedEndpoint s)
             (mkDb (transactions (db s) ++ [newTransaction])
                   (js_plus (totalSales (db s)) price)
                   (S (nftReceiptsIssued (db s))))).

Definition not_valid : response := ErrorResponse 400 "Transaction not valid" EmptyString.

(** From [if (tx)] to the end of the [try] block. *)
Definition settle_payment (net : network) (MERCHANT_WALLET : PublicKey)
    (signature : string) (product : jsval) (tx : option ParsedTransaction)
  : M route_state response :=
  match tx with
  | Some tx =>
      if merchantIncluded MERCHANT_WALLET tx then
        imageUrl <- generateImage net (get_prop product "name") ;;
        match accountKeys tx with
        | [] => throw (TypeError "Cannot read properties of undefined")
        | payer :: _ =>
            t <- now ;;
            let newTransaction :=
              mkTransaction (toBase58 payer)
                (get_prop product "name")
                (get_prop product "price")
                signature
                (match blockTime tx with
                 | Some (S b) => milliseconds (S b)
                 | _ => net_Date_now net t
                 end)
                imageUrl in
            record_sale newTransaction (get_prop product "price") ;;;
            s <- get_mem ;;
            ret (ConfirmResponse
                   (match imageUrl with
                    | Some url => negb (String.eqb url EmptyString)
                    | None => false
                    end)
                   (cachedEndpoint s))
        end
      else ret not_valid
  | None => ret not_valid
  end.

Definition POST_try (net : network) (endpoints : list string)
    (MERCHANT_WALLET : PublicKey) (fuel : nat) (req : request_body)
  : M route_state (option response) :=
  match req with
  | BodyBlank | BodyNotJson =>
      throw (mkError "SyntaxError" "Unexpected end of JSON input")
  | BodyJson body =>
      destructure body ;;;
      let signature := get_prop body "signature" in
      let product := get_prop body "product" in
      if negb (truthy signature) || negb (truthy product) then
        ret (Some (ErrorResponse 400 "Missing signature or product" EmptyString))
      else
        signature <- as_string signature ;;
        connection <- getWorkingConnection net endpoints ;;
        match connection with
        | None =>
            ret (Some (ErrorResponse 503 "Failed to connect to Solana network"
                                     EmptyString))
        | Some connection =>
            tx <- fetchLoop (getWorkingConnection net endpoints) net
                            connection signature fuel 0 ;;
            match tx with
            | None => ret None
            | Some tx =>
                r <- settle_payment net MERCHANT_WALLET signature product tx ;;
                ret (Some r)
            end
        end
  end.

(** [None] only when the fetch loop was given too little fuel. *)
Definition POST_fuel (net : network) (endpoints : list string)
    (MERCHANT_WALLET : PublicKey) (fuel : nat) (req : request_body)
  : M route_state (option response) :=
  try_catch (POST_try net endpoints MERCHANT_WALLET fuel req)
            (fun e => r <- InternalServerError e ;; ret (Some r)).

Definition POST (net : network) (endpoints : list string)
    (MERCHANT_WALLET : PublicKey) (req : request_body)
  : M route_state (option response) :=
  POST_fuel net endpoints MERCHANT_WALLET (S maxRetries) req.

End ConfirmPayment.

(* ===================================================================== *)
(** ** The get-transaction route *)
(* ===================================================================== *)

Module GetTransaction.

Definition getWorkingConnection (net : network) (endpoints : list string)
  : M route_state (option Connection) :=
  Selector.getWorkingConnection (probe_slot net) endpoints net.

Definition GET_try (net : network) (endpoints : list string) (fuel : nat)
    (param : option string) : M route_state (option response) :=
  match param with
  | None =>
      ret (Some (ErrorResponse 400 "Missing signature parameter"
             "Signature is required to fetch transaction details"))
  | Some sig =>
      if String.eqb sig EmptyString then
        ret (Some (ErrorResponse 400 "Missing signature parameter"
               "Signature is required to fetch transaction details"))
      else if String.eqb (trim sig) EmptyString then
        ret (Some (ErrorResponse 400 "Invalid signature parameter"
               "Signature must be a non-empty string"))
      else
        let trimmedSignature := trim sig in
        s <- get_mem ;;
        match find (fun tx => String.eqb (signature tx) trimmedSignature)
                   (transactions (db s)) with
        | Some localTransaction => ret (Some (LocalTransaction localTransaction))
        | None =>
            connection <- getWorkingConnection net endpoints ;;
            match connection with
            | None =>
                ret (Some (ErrorResponse 503 "Failed to connect to Solana network"
                       "All RPC endpoints are currently unavailable"))
            | Some connection =>
                r <- fetchLoop (getWorkingConnection net endpoints) net
                               connection trimmedSignature fuel 0 ;;
                match r with
                | None => ret None
                | Some (Some solanaTransaction) =>
                    t <- now ;;
                    s <- get_mem ;;
                    ret (Some (NetworkTransaction trimmedSignature
                           (match accountKeys solanaTransaction with
                            | key :: _ =>
                                if String.eqb (toBase58 key) EmptyString
                                then "Unknown" else toBase58 key
                            | [] => "Unknown"
                            end)
                           (match blockTime solanaTransaction with
                            | Some (S b) => milliseconds (S b)
                            | _ => net_Date_now net t
                            end)
                           (slot solanaTransaction)
                           (meta_err solanaTransaction)
                           (cachedEndpoint s)))
                | Some None =>
                    ret (Some (ErrorResponse 404 "Transaction not found"
                           "Transaction was not found in local database or on Solana network"))
                end
            end
        end
  end.

Definition GET_fuel (net : network) (endpoints : list string) (fuel : nat)
    (param : option string) : M route_state (option response) :=
  try_catch (GET_try net endpoints fuel param)
            (fun e => r <- InternalServerError e ;; ret (Some r)).

Definition GET (net : network) (endpoints : list string)
    (param : option string) : M route_state (option response) :=
  GET_fuel net endpoints (S maxRetries) param.

End GetTransaction.

(* ===================================================================== *)
(** ** The dashboard and image routes *)
(* ===================================================================== *)

Module Dashboard.

Definition GET : M route_state response :=
  s <- get_mem ;;
  ret (DashboardData (transactions (db s)) (totalSales (db s))
                     (nftReceiptsIssued (db s))).

End Dashboard.

Module GenerateNftImage.

(** [STABILITY_API_KEY] is configuration: [configured] tells whether it is
    set. *)
Definition POST (net : network) (configured : bool) (req : request_body)
  : M route_state response :=
  try_catch
    (if negb configured then
       ret (ErrorResponse 500 "Stability AI API key not configured" EmptyString)
     else
       match req with
       | BodyBlank | BodyNotJson =>
           throw (mkError "SyntaxError" "Unexpected end of JSON input")
       | BodyJson body =>
           destructure body ;;;
           let productName := get_prop body "productName" in
           if negb (truthy productName) then
             ret (ErrorResponse 400 "Product name is required" EmptyString)
           else
             t <- now ;;
             emit (GenerateImage t productName) ;;;
             tick ;;;
             generatedImage <- settle (net_generateImage net t productName) ;;
             ret (ImageResponse generatedImage)
       end)
    (fun e => ret (ErrorResponse 500 "Failed to generate image" (err_message e))).

End GenerateNftImage.

(* ===================================================================== *)
(** ** [src/app/page.tsx]: client-side selector and balance/mint resolver *)
(* ===================================================================== *)

Module Page.

(** The React state the selector reads and writes. *)
Record page_state : Type := mkPage { workingRpc : option string }.

Definition remembered (s : page_state) : option string :=
  match workingRpc s with
  | Some e => if String.eqb e EmptyString then None else Some e
  | None => None
  end.

Fixpoint tryEndpoints (net : network) (l : list string)
  : M page_state (option Connection) :=
  match l with
  | [] => ret None
  | endpoint :: rest =>
      r <- try_catch
             (connection <- new_Connection endpoint ;;
              await_rpc connection getVersion (net_getVersion net) ;;;
              set_mem (mkPage (Some endpoint)) ;;;
              ret (Some connection))
             (fun _ => ret None) ;;
      match r with
      | Some c => ret (Some c)
      | None => tryEndpoints net rest
      end
  end.

Definition getWorkingConnection (net : network) (endpoints : list string)
  : M page_state (option Connection) :=
  s <- get_mem ;;
  match remembered s with
  | Some e => c <- new_Connection e ;; ret (Some c)
  | None => tryEndpoints net endpoints
  end.

Definition TOKEN_PROGRAM : string := "TokenkegQfeZyiNwAJbNbGKPFXCWuBvf9Ss623VQ5DA".

(** [amount && amount > 0]. *)
Definition positive (amount : option Q) : option Q :=
  match amount with
  | Some q => if Qle_bool q 0 then None else Some q
  | None => None
  end.

Record DebugResult : Type := mkDebug {
  debug_balance : Q;
  debug_mint : option string;
  tokenAccount : option string
}.

Record Detected : Type := mkDetected { balance : Q; mint : option string }.

Definition NotFound : Detected := mkDetected 0 None.

(** Of the console output the model keeps the three phase banners and the
    lines written by [catch] blocks. *)
Section Resolver.

Context {St : Type}.
Variable sdk : solana_sdk.
Variable net : network.
Variable connection : Connection.

(** The body of the inner [try] of [debugWalletTokens], for one account. *)
Definition debugAccount (pubkey : PublicKey) : M St (option DebugResult) :=
  try_catch
    (balance <- await_rpc connection (getTokenAccountBalance pubkey)
                  (fun t e => net_getTokenAccountBalance net t e pubkey) ;;
     match positive (uiAmount balance) with
     | Some amount =>
         try_catch
           (accountInfo <- await_rpc connection (getAccountInfo pubkey)
                             (fun t e => net_getAccountInfo net t e pubkey) ;;
            match accountInfo with
            | Some info =>
                if 32 <=? List.length (data info) then
                  mintKey <- settle (PublicKey_of_bytes sdk (firstn 32 (data info))) ;;
                  ret (Some (mkDebug amount (Some (toBase58 mintKey))
                                     (Some (toBase58 pubkey))))
                else ret None
            | None => ret None
            end)
           (fun _ => console_log "Could not get mint info" ;;; ret None)
     | None => ret None
     end)
    (fun _ => console_log "Error getting balance" ;;; ret None).

Fixpoint debugAccounts (accounts : list (PublicKey * AccountInfo))
  : M St (option DebugResult) :=
  match accounts with
  | [] => ret None
  | (pubkey, _) :: rest =>
      r <- debugAccount pubkey ;;
      match r with
      | Some found => ret (Some found)
      | None => debugAccounts rest
      end
  end.

Definition debugWalletTokens (userAddress : string) : M St DebugResult :=
  try_catch
    (userPublicKey <- settle (new_PublicKey sdk (JString userAddress)) ;;
     await_rpc connection (getBalance userPublicKey)
       (fun t e => net_getBalance net t e userPublicKey) ;;;
     settle (new_PublicKey sdk (JString TOKEN_PROGRAM)) ;;;
     tokenAccounts <- await_rpc connection (getTokenAccountsByOwner userPublicKey)
                        (fun t e => net_getTokenAccountsByOwner net t e userPublicKey) ;;
     r <- debugAccounts tokenAccounts ;;
     match r with
     | Some found => ret found
     | None => ret (mkDebug 0 None None)
     end)
    (fun _ => console_log "Debug wallet tokens failed" ;;;
              ret (mkDebug 0 None None)).

Variable userPublicKey : PublicKey.

(** Method 1, one turn of the loop over [POTENTIAL_USDC_MINTS]. *)
Definition checkMint (mintAddress : string) : M St (option Detected) :=
  try_catch
    (mint <- settle (new_PublicKey sdk (JString mintAddress)) ;;
     ata <- settle (getAssociatedTokenAddress sdk mint userPublicKey false) ;;
     accountInfo <- await_rpc connection (getAccountInfo ata)
                      (fun t e => net_getAccountInfo net t e ata) ;;
     match accountInfo with
     | Some info =>
         if 0 <? List.length (data info) then
           try_catch
             (balance <- await_rpc connection (getTokenAccountBalance ata)
                           (fun t e => net_getTokenAccountBalance net t e ata) ;;
              match positive (uiAmount balance) with
              | Some amount => ret (Some (mkDetected amount (Some mintAddress)))
              | None => ret None
              end)
             (fun _ => console_log ("Error getting balance for " ++ mintAddress) ;;;
                       ret None)
         else ret None
     | None => ret None
     end)
    (fun _ => console_log ("Error with mint " ++ mintAddress) ;;; ret None).

Fixpoint checkKnownMints (mints : list string) : M St (option Detected) :=
  match mints with
  | [] => ret None
  | mintAddress :: rest =>
      r <- checkMint mintAddress ;;
      match r with
      | Some found => ret (Some found)
      | None => checkKnownMints rest
      end
  end.

(** Method 2: the scan of [debugWalletTokens], kept when
    [debugResult.balance > 0 && debugResult.mint]. *)
Definition scanAllTokenAccounts : M St (option Detected) :=
  debugResult <- debugWalletTokens (toBase58 userPublicKey) ;;
  match positive (Some (debug_balance debugResult)), debug_mint debugResult with
  | Some _, Some m =>
      if String.eqb m EmptyString then ret None
      else ret (Some (mkDetected (debug_balance debugResult) (Some m)))
  | _, _ => ret None
  end.

(** Method 3, one turn of the loop over the program accounts. *)
Definition checkProgramAccount (entry : PublicKey * AccountInfo)
  : M St (option Detected) :=
  let (pubkey, account) := entry in
  try_catch
    (balance <- await_rpc connection (getTokenAccountBalance pubkey)
                  (fun t e => net_getTokenAccountBalance net t e pubkey) ;;
     match positive (uiAmount balance) with
     | Some amount =>
         mintKey <- settle (PublicKey_of_bytes sdk (firstn 32 (data account))) ;;
         ret (Some (mkDetected amount (Some (toBase58 mintKey))))
     | None => ret None
     end)
    (fun _ => console_log ("Error checking program account " ++ toBase58 pubkey) ;;;
              ret None).

Fixpoint checkProgramAccounts (accounts : list (PublicKey * AccountInfo))
  : M St (option Detected) :=
  match accounts with
  | [] => ret None
  | entry :: rest =>
      r <- checkProgramAccount entry ;;
      match r with
      | Some found => ret (Some found)
      | None => checkProgramAccounts rest
      end
  end.

Definition queryProgramAccounts : M St (option Detected) :=
  try_catch
    (settle (new_PublicKey sdk (JString TOKEN_PROGRAM)) ;;;
     programAccounts <- await_rpc connection (getProgramAccounts userPublicKey)
                          (fun t e => net_getProgramAccounts net t e userPublicKey) ;;
     checkProgramAccounts programAccounts)
    (fun _ => console_log "Program accounts method failed" ;;; ret None).

Definition banner1 : string := "Method 1: Checking known USDC mints...".
Definition banner2 : string := "Method 2: Scanning all token accounts...".
Definition banner3 : string := "Method 3: Alternative token account scanning...".

(** The outer [try] block of [detectUsdcBalanceAndMint]. *)
Definition detect_try (mints : list string) : M St Detected :=
  console_log banner1 ;;;
  r1 <- checkKnownMints mints ;;
  match r1 with
  | Some found => ret found
  | None =>
      console_log banner2 ;;;
      r2 <- scanAllTokenAccounts ;;
      match r2 with
      | Some found => ret found
      | None =>
          console_log banner3 ;;;
          r3 <- queryProgramAccounts ;;
          match r3 with
          | Some found => ret found
          | None => ret NotFound
          end
      end
  end.

Definition detect_with (mints : list string) : M St Detected :=
  try_catch (detect_try mints)
            (fun _ => console_log "Error detecting USDC balance" ;;; ret NotFound).

Definition detectUsdcBalanceAndMint : M St Detected :=
  detect_with POTENTIAL_USDC_MINTS.

End Resolver.

End Page.

(* ===================================================================== *)
(** ** The server: one ledger, one connection cache per route module *)
(* ===================================================================== *)

Module Server.

Definition cache : Type := (option Connection * option string)%type.

Record server : Type := mkServer {
  pay_cache : cache;
  confirm_cache : cache;
  get_cache : cache;
  ledger : Db
}.

Inductive route : Type := PayRoute | ConfirmRoute | GetRoute | PlainRoute.

Definition load (r : route) (s : server) : route_state :=
  match r with
  | PayRoute => mkRoute (fst (pay_cache s)) (snd (pay_cache s)) (ledger s)
  | ConfirmRoute => mkRoute (fst (confirm_cache s)) (snd (confirm_cache s)) (ledger s)
  | GetRoute => mkRoute (fst (get_cache s)) (snd (get_cache s)) (ledger s)
  | PlainRoute => mkRoute None None (ledger s)
  end.

Definition store (r : route) (rs : route_state) (s : server) : server :=
  let c := (cachedConnection rs, cachedEndpoint rs) in
  match r with
  | PayRoute => mkServer c (confirm_cache s) (get_cache s) (db rs)
  | ConfirmRoute => mkServer (pay_cache s) c (get_cache s) (db rs)
  | GetRoute => mkServer (pay_cache s) (confirm_cache s) c (db rs)
  | PlainRoute => mkServer (pay_cache s) (confirm_cache s) (get_cache s) (db rs)
  end.

(** Run the handler of a route module on its own variables. *)
Definition on_route {A} (r : route) (m : M route_state A) : M server A :=
  fun w =>
    match m (mkWorld (clock w) (trace w) (load r (mem w))) with
    | (o, w') => (o, mkWorld (clock w') (trace w') (store r (mem w') (mem w)))
    end.

Inductive api_request : Type :=
| PostSolanaPay (req : request_body)
| GetSolanaPay
| PostConfirmPayment (req : request_body)
| GetTransactionBySignature (param : option string)
| GetDashboard
| PostGenerateNftImage (configured : bool) (req : request_body).

Definition serve (sdk : solana_sdk) (net : network) (endpoints : list string)
    (MERCHANT_WALLET : PublicKey) (op : api_request) : M server (option response) :=
  match op with
  | PostSolanaPay req =>
      on_route PayRoute
        (r <- SolanaPay.POST sdk net endpoints MERCHANT_WALLET req ;; ret (Some r))
  | GetSolanaPay =>
      on_route PayRoute (r <- SolanaPay.GET net endpoints ;; ret (Some r))
  | PostConfirmPayment req =>
      on_route ConfirmRoute (ConfirmPayment.POST net endpoints MERCHANT_WALLET req)
  | GetTransactionBySignature param =>
      on_route GetRoute (GetTransaction.GET net endpoints param)
  | GetDashboard =>
      on_route PlainRoute (r <- Dashboard.GET ;; ret (Some r))
  | PostGenerateNftImage configured req =>
      on_route PlainRoute
        (r <- GenerateNftImage.POST net configured req ;; ret (Some r))
  end.



End Server.

(* ===================================================================== *)
(** ** Vocabulary of the statements *)
(* ===================================================================== *)

Definition is_new_connection (ev : event) : bool :=
  match ev with
  | NewConnection _ => true
  | _ => false
  end.

Definition is_fetch (ev : event) : bool :=
  match ev with
  | Rpc _ _ (getParsedTransaction _) => true
  | _ => false
  end.

Definition count (p : event -> bool) (tr : list event) : nat :=
  List.length (filter p tr).

(** [product.price] of a request body, [undefined] when there is none. *)
Definition price_of (req : request_body) : jsval :=
  match req with
  | BodyJson body => get_prop (get_prop body "product") "price"
  | _ => JUndefined
  end.

(** The address of the merchant wallet is among the account keys of the
    transaction [tx]. *)
Definition names_merchant (MERCHANT_WALLET : PublicKey) (tx : ParsedTransaction) : Prop :=
  In (toBase58 MERCHANT_WALLET) (map toBase58 (accountKeys tx)).

(** [typeof v === 'number' && v > 0]. *)
Definition positive_number (v : jsval) : bool :=
  match v with
  | JNumber q => negb (Qle_bool q 0)
  | _ => false
  end.

Definition is_null (req : request_body) : bool :=
  match req with
  | BodyJson JNull | BodyJson JUndefined => true
  | _ => false
  end.

(** The world after [await connection.call] was sent at [clock w]. *)
Definition sent {St} (w : world St) (c : Connection) (calls : list rpc) : world St :=
  mkWorld (S (clock w))
          (trace w ++ map (Rpc (clock w) (rpcEndpoint c)) calls)
          (mem w).

Definition logged {St} (w : world St) (text : string) : world St :=
  mkWorld (clock w) (trace w ++ [Log text]) (mem w).

Definition with_mem {St St'} (w : world St) (s : St') : world St' :=
  mkWorld (clock w) (trace w) s.

Definition constructed {St} (w : world St) (endpoint : string) : world St :=
  mkWorld (clock w) (trace w ++ [NewConnection endpoint]) (mem w).

Definition clear_cache (s : route_state) : route_state := mkRoute None None (db s).

Definition cache_endpoint (endpoint : string) (s : route_state) : route_state :=
  mkRoute (Some (mkConnection endpoint)) (Some endpoint) (db s).




(** [w'] differs from [w] by neither the ledger nor a transaction fetch. *)
Definition quiet (w w' : world route_state) : Prop :=
  db (mem w') = db (mem w)
  /\ count is_fetch (trace w') = count is_fetch (trace w).

(* ===================================================================== *)
(** ** Concrete inputs used by the examples *)
(* ===================================================================== *)

Module Examples.

Definition devnet : string := "https://api.devnet.solana.com".
Definition merchant : PublicKey := mkKey "86xCnPeV69n6t3DnyGkfpPEX4kuT3t6eJ5iAbPGYATcp".
Definition shopper : PublicKey := mkKey "7YttLkHDoNj9wyDur5pM1ejNaAvT9X4eqaYcHQqtj2G5".
Definition stranger : PublicKey := mkKey "9xQeWvG816bUx9EPjHmaT23yvVM2ZWbrrpZb9PusVFin".
Definition circle_usdc : string := "4zMMC9srt5Ri5X14GAgXhaHii3GnPAEERYPJgZJDncDU".
Definition alt_usdc : string := "Gh9ZwEmdLJ8DscKNTkTqPbNwLNNBjuSzaG9Vp2KGtKJr".

Definition offline : jsError := mkError "Error" "fetch failed".

(** A toy SDK: a key is valid when its text has 32 to 44 characters; the
    associated token address of an owner for a mint is written
    [owner/mint]; a number is shifted by multiplying it with the power of
    ten and rounding the product. *)
Definition toy_sdk : solana_sdk :=
  mkSdk
    (fun v => match v with
              | JString s =>
                  if (32 <=? String.length s) && (String.length s <=? 44)
                  then inr (mkKey s)
                  else inl (mkError "Error" "Invalid public key input")
              | _ => inl (mkError "Error" "Invalid public key input")
              end)
    (fun _ => inr (mkKey circle_usdc))
    (fun mint owner _ => inr (mkKey (toBase58 owner ++ "/" ++ toBase58 mint)))
    (fun source destination owner amount =>
       inr (Transfer source destination owner amount))
    (fun _ => inr "AQAAAA==")
    (fun x n => match x with
                | TNumber q => binary64 (q * inject_Z (10 ^ Z.of_nat n))
                | _ => x
                end).

Definition paid (accounts : list PublicKey) : ParsedTransaction :=
  mkParsedTx accounts (Some 17) 42 false.

Definition nothing (tokenAccount : string) : Q := 0.

(** Every node answers; a fetched transaction names [accounts]; the token
    account [a] holds [held a]. *)
Definition net_up (accounts : list PublicKey) (held : string -> Q) : network :=
  mkNetwork
    (fun _ _ => inr 42)
    (fun _ _ => inr "1.18.0")
    (fun _ _ _ => inr (Some (paid accounts)))
    (fun _ _ _ => inr (Some (mkAccountInfo (repeat Byte.x01 165))))
    (fun _ _ a => inr (mkTokenAmount (Some (held (toBase58 a))) 6))
    (fun _ _ _ => inr 1000)
    (fun _ _ _ => inr [])
    (fun _ _ _ => inr [])
    (fun _ _ _ => inr tt)
    (fun _ _ => inr ("EkSnNWid2cvwEVnVx9aBqawnmiCNiDgp3gUdkDPTKN1N", 100))
    (fun _ _ => inr (mkImage "data:image/png;base64,AAAA" "AAAA"))
    (fun t => 1700 + t).

(** No node answers. *)
Definition net_down : network :=
  mkNetwork
    (fun _ _ => inl offline) (fun _ _ => inl offline) (fun _ _ _ => inl offline)
    (fun _ _ _ => inl offline) (fun _ _ _ => inl offline) (fun _ _ _ => inl offline)
    (fun _ _ _ => inl offline) (fun _ _ _ => inl offline) (fun _ _ _ => inl offline)
    (fun _ _ => inl offline) (fun _ _ => inl offline)
    (fun t => t).

(** Nodes answer the probes but reject every transaction fetch. *)
Definition net_no_fetch : network :=
  mkNetwork
    (fun _ _ => inr 42) (fun _ _ => inr "1.18.0") (fun _ _ _ => inl offline)
    (fun _ _ _ => inl offline) (fun _ _ _ => inl offline) (fun _ _ _ => inl offline)
    (fun _ _ _ => inl offline) (fun _ _ _ => inl offline) (fun _ _ _ => inl offline)
    (fun _ _ => inl offline) (fun _ _ => inl offline)
    (fun t => t).

(** Nodes report the chain height but not their version. *)
Definition net_no_version : network :=
  mkNetwork
    (fun _ _ => inr 42) (fun _ _ => inl offline) (fun _ _ _ => inl offline)
    (fun _ _ _ => inl offline) (fun _ _ _ => inl offline) (fun _ _ _ => inl offline)
    (fun _ _ _ => inl offline) (fun _ _ _ => inl offline) (fun _ _ _ => inl offline)
    (fun _ _ => inl offline) (fun _ _ => inl offline)
    (fun t => t).

(** The shopper holds 3 of the second known mint and 9 of the third. *)
Definition two_holdings (tokenAccount : string) : Q :=
  if String.eqb tokenAccount
       (toBase58 shopper ++ "/" ++ "Gh9ZwEmdLJ8DscKNTkTqPbNwLNNBjuSzaG9Vp2KGtKJr")
  then 3
  else if String.eqb tokenAccount
       (toBase58 shopper ++ "/" ++ "EPjFWdd5AufqSSqeM2qN1xzybapC8G4wEGGkZwyTDt1v")
  then 9
  else 0.

Definition fresh_route : world route_state :=
  mkWorld 0 [] (mkRoute None None db_initial).

Definition cached_route : world route_state :=
  mkWorld 0 [] (mkRoute (Some (mkConnection devnet)) (Some devnet) db_initial).

Definition fresh_page : world Page.page_state := mkWorld 0 [] (Page.mkPage None).

Definition widget (price : jsval) : jsval :=
  JObject [("name", JString "Widget"); ("price", price)].

Definition confirm_request (price : jsval) : request_body :=
  BodyJson (JObject [("signature", JString "5VERv8NMvzbJMEkV8xnrLkEaWRtSz9CosKDYjCJjBRnb");
                     ("product", widget price)]).

Definition pay_request (price : jsval) (mint : jsval) : request_body :=
  BodyJson (JObject [("account", JString (toBase58 shopper));
                     ("product", widget price);
                     ("usdcMint", mint)]).

End Examples.

(* ===================================================================== *)
(** ** [src/app/page.tsx]: key derivation and the balance effect *)
(* ===================================================================== *)

Module Home.

(** The functions of [bs58] and of [Keypair] that the page calls; they are
    parameters of the model.  A key pair is represented by its public
    key. *)
Record keypair_sdk : Type := mkKeypairSdk {
  bs58_decode : string -> jsError + list Byte.byte;
  Keypair_fromSeed : list Byte.byte -> jsError + PublicKey;
  Keypair_fromSecretKey : list Byte.byte -> jsError + PublicKey
}.

(** [parseInt(c, 16)] for one hexadecimal digit. *)
Definition hex_value (c : ascii) : option N :=
  let n := N_of_ascii c in
  if ((48 <=? n) && (n <=? 57))%N then Some (n - 48)%N
  else if ((65 <=? n) && (n <=? 70))%N then Some (n - 55)%N
  else if ((97 <=? n) && (n <=? 102))%N then Some (n - 87)%N
  else None.

Definition digit (c : ascii) : N :=
  match hex_value c with
  | Some v => v
  | None => 0%N
  end.

Fixpoint all_hex (s : string) : bool :=
  match s with
  | EmptyString => true
  | String c rest =>
      match hex_value c with
      | Some _ => all_hex rest
      | None => false
      end
  end.

(** [/^[0-9A-Fa-f]{64,}$/.test(privateKey)]. *)
Definition is_hex_key (privateKey : string) : bool :=
  all_hex privateKey && (64 <=? String.length privateKey).

Definition to_byte (v : N) : Byte.byte := byte_of_ascii (ascii_of_N v).

(** [privateKey.match(/.{1,2}/g).map(byte => parseInt(byte, 16))] on a
    string of hexadecimal digits: the digits are taken two by two, a last
    single digit stands for itself. *)
Fixpoint hex_bytes (s : string) : list Byte.byte :=
  match s with
  | String a (String b rest) => to_byte (16 * digit a + digit b) :: hex_bytes rest
  | String a EmptyString => [to_byte (digit a)]
  | EmptyString => []
  end.

(** [derivePublicKeyFromPrivateKey].  The message of the error thrown for
    an unexpected length also spells the length out. *)
Definition derivePublicKeyFromPrivateKey {St} (ksdk : keypair_sdk)
    (privateKey : string) : M St string :=
  try_catch
    (privateKeyBytes <-
       (if is_hex_key privateKey then ret (hex_bytes privateKey)
        else settle (bs58_decode ksdk privateKey)) ;;
     keypair <-
       (if List.length privateKeyBytes =? 32 then
          settle (Keypair_fromSeed ksdk privateKeyBytes)
        else if List.length privateKeyBytes =? 64 then
          settle (Keypair_fromSecretKey ksdk privateKeyBytes)
        else throw (mkError "Error" "Unexpected private key length")) ;;
     ret (toBase58 keypair))
    (fun _ => console_log "Failed to derive Solana keypair:" ;;; ret EmptyString).

(** The React state of the page that the balance effect reads and
    writes. *)
Record home_state : Type := mkHome {
  solanaAddress : string;
  usdcBalance : option Q;
  detectedUsdcMint : option string;
  isBalanceLoading : bool;
  statusMessage : string;
  rpc : Page.page_state
}.

Definition setUsdcBalance (b : option Q) : M home_state unit :=
  s <- get_mem ;;
  set_mem (mkHome (solanaAddress s) b (detectedUsdcMint s) (isBalanceLoading s)
                  (statusMessage s) (rpc s)).

Definition setDetectedUsdcMint (m : option string) : M home_state unit :=
  s <- get_mem ;;
  set_mem (mkHome (solanaAddress s) (usdcBalance s) m (isBalanceLoading s)
                  (statusMessage s) (rpc s)).

Definition setIsBalanceLoading (b : bool) : M home_state unit :=
  s <- get_mem ;;
  set_mem (mkHome (solanaAddress s) (usdcBalance s) (detectedUsdcMint s) b
                  (statusMessage s) (rpc s)).

Definition setStatusMessage (text : string) : M home_state unit :=
  s <- get_mem ;;
  set_mem (mkHome (solanaAddress s) (usdcBalance s) (detectedUsdcMint s)
                  (isBalanceLoading s) text (rpc s)).

(** Run the selector of the page on [workingRpc]. *)
Definition on_page {A} (m : M Page.page_state A) : M home_state A :=
  fun w =>
    match m (mkWorld (clock w) (trace w) (rpc (mem w))) with
    | (o, w') =>
        (o, mkWorld (clock w') (trace w')
                    (mkHome (solanaAddress (mem w)) (usdcBalance (mem w))
                            (detectedUsdcMint (mem w)) (isBalanceLoading (mem w))
                            (statusMessage (mem w)) (mem w')))
    end.

(** [isValidSolanaAddress] of the page. *)
Definition isValidSolanaAddress (sdk : solana_sdk) (address : string) : bool :=
  if String.eqb address EmptyString then false
  else match new_PublicKey sdk (JString address) with
       | inr _ => true
       | inl _ => false
       end.

(** [try { a } catch (e) { h e } finally { f }] where [h] and [f] do not
    throw. *)
Definition try_catch_finally {St A} (m : M St A) (h : jsError -> M St A)
    (f : M St unit) : M St A :=
  r <- try_catch m h ;;
  f ;;;
  ret r.

(** [fetchUsdcBalance], the body of the effect on [solanaAddress]. *)
Definition fetchUsdcBalance (sdk : solana_sdk) (net : network)
    (endpoints : list string) : M home_state unit :=
  s <- get_mem ;;
  if String.eqb (solanaAddress s) EmptyString
     || negb (isValidSolanaAddress sdk (solanaAddress s)) then
    setUsdcBalance (Some 0%Q) ;;;
    setDetectedUsdcMint None ;;;
    setIsBalanceLoading false
  else
    setIsBalanceLoading true ;;;
    setStatusMessage "Loading USDC balance..." ;;;
    try_catch_finally
      (connection <- on_page (Page.getWorkingConnection net endpoints) ;;
       match connection with
       | None => throw (mkError "Error" "No working RPC endpoints available")
       | Some connection =>
           userPublicKey <- settle (new_PublicKey sdk (JString (solanaAddress s))) ;;
           found <- Page.detectUsdcBalanceAndMint sdk net connection userPublicKey ;;
           setUsdcBalance (Some (Page.balance found)) ;;;
           setDetectedUsdcMint (Page.mint found) ;;;
           setStatusMessage EmptyString
       end)
      (fun error =>
         setUsdcBalance (Some 0%Q) ;;;
         setDetectedUsdcMint None ;;;
         setStatusMessage ("Error loading balance: " ++ err_message error))
      (setIsBalanceLoading false).

End Home.

(* ===================================================================== *)
(** ** Several requests in a row *)
(* ===================================================================== *)

Module Session.




End Session.

(* ===================================================================== *)
(** ** More vocabulary *)
(* ===================================================================== *)

Definition is_rpc (ev : event) : bool :=
  match ev with
  | Rpc _ _ _ => true
  | _ => false
  end.

Definition is_image_call (ev : event) : bool :=
  match ev with
  | GenerateImage _ _ => true
  | _ => false
  end.

(** [ev] is no call, or a call to [endpoint]. *)
Definition goes_to (endpoint : string) (ev : event) : Prop :=
  match ev with
  | Rpc _ e _ => e = endpoint
  | _ => True
  end.

(** [ev] is no transaction fetch, or the fetch of [sig] at [endpoint]. *)
Definition fetches_from (endpoint sig : string) (ev : event) : Prop :=
  match ev with
  | Rpc _ e (getParsedTransaction s) => e = endpoint /\ s = sig
  | _ => True
  end.

(** The two cache variables of a route agree: both null, or a connection
    and the endpoint it was built for. *)
Definition coherent (s : route_state) : Prop :=
  match cachedConnection s, cachedEndpoint s with
  | Some c, Some e => rpcEndpoint c = e /\ assertEndpointUrl e = true
  | None, None => True
  | _, _ => False
  end.

Definition server_coherent (s : Server.server) : Prop :=
  coherent (Server.load Server.PayRoute s)
  /\ coherent (Server.load Server.ConfirmRoute s)
  /\ coherent (Server.load Server.GetRoute s).

(** [db.transactions.push(t); db.totalSales += t.amount; db.nftReceiptsIssued += 1]. *)
Definition pushed (t : Transaction) (d : Db) : Db :=
  mkDb (transactions d ++ [t]) (js_plus (totalSales d) (amount t))
       (S (nftReceiptsIssued d)).

(** Every run of [m] takes a world to one related to it by [R]. *)
Definition steps {St A} (R : world St -> world St -> Prop) (m : M St A) : Prop :=
  forall w, R w (snd (m w)).


Definition same_mem {St} (w w' : world St) : Prop := mem w' = mem w.

Definition stays_coherent (w w' : world route_state) : Prop :=
  coherent (mem w) -> coherent (mem w').

(** [w'] is [w] with more events at the end of its trace, all in [P]. *)
Definition emits_only {St} (P : event -> Prop) (w w' : world St) : Prop :=
  exists delta, trace w' = trace w ++ delta /\ Forall P delta.

(** The record confirm-payment writes for the fetched transaction [tx] when
    the image service is called at clock [t]. *)
Definition receipt_of (net : network) (tx : ParsedTransaction) (sig : string)
    (prod : jsval) (t : nat) : Transaction :=
  mkTransaction
    (match accountKeys tx with
     | payer :: _ => toBase58 payer
     | [] => EmptyString
     end)
    (get_prop prod "name")
    (get_prop prod "price")
    sig
    (match blockTime tx with
     | Some (S b) => milliseconds (S b)
     | _ => net_Date_now net (S t)
     end)
    (match net_generateImage net t (get_prop prod "name") with
     | inr image => Some (dataUrl image)
     | inl _ => None
     end).

(** Bodies confirm-payment cannot read: no JSON, [null], or a signature that
    is present but is not a string. *)
Definition unreadable_confirmation (req : request_body) : bool :=
  match req with
  | BodyBlank | BodyNotJson => true
  | BodyJson JNull | BodyJson JUndefined => true
  | BodyJson body =>
      truthy (get_prop body "signature") && truthy (get_prop body "product")
      && match get_prop body "signature" with
         | JString _ => false
         | _ => true
         end
  end.

(* ===================================================================== *)
(** ** More concrete inputs *)
(* ===================================================================== *)

Module MoreExamples.

(** Every node answers, and knows no transaction. *)
Definition net_unknown : network :=
  mkNetwork
    (fun _ _ => inr 42) (fun _ _ => inr "1.18.0") (fun _ _ _ => inr None)
    (fun _ _ _ => inr None)
    (fun _ _ _ => inr (mkTokenAmount None 6))
    (fun _ _ _ => inr 0)
    (fun _ _ _ => inr []) (fun _ _ _ => inr [])
    (fun _ _ _ => inl (mkError "TokenAccountNotFoundError" EmptyString))
    (fun _ _ => inr ("EkSnNWid2cvwEVnVx9aBqawnmiCNiDgp3gUdkDPTKN1N", 100))
    (fun _ _ => inl Examples.offline)
    (fun t => t).


End MoreExamples.

(* ===================================================================== *)
(** ** What a computation returns *)
(* ===================================================================== *)

(** Every run of [m] returns a value in [Q] or throws an error in [E]. *)
Definition post {St A} (Q : A -> Prop) (E : jsError -> Prop) (m : M St A) : Prop :=
  forall w, match fst (m w) with
            | Ok a => Q a
            | Throw e => E e
            end.

Definition anything {A} (a : A) : Prop := True.

Definition nothing_thrown (e : jsError) : Prop := False.

(** What the resolver may answer: nothing found, or a mint with a balance
    above zero. *)
Definition well_formed (found : Page.Detected) : Prop :=
  found = Page.NotFound
  \/ exists m, Page.mint found = Some m /\ (0 < Page.balance found)%Q.

Definition well_formed_option (found : option Page.Detected) : Prop :=
  match found with
  | Some found => well_formed found
  | None => True
  end.

(** [ev] is a log line or a call to [endpoint]: no connection is built and
    no image is asked for. *)
Definition reads_from (endpoint : string) (ev : event) : Prop :=
  match ev with
  | Rpc _ e _ => e = endpoint
  | Log _ => True
  | _ => False
  end.

(* ===================================================================== *)
(** ** Running the monad *)
(* ===================================================================== *)

Unset Implicit Arguments.

Lemma bind_ok {St A B} (m : M St A) (f : A -> M St B) w a w' :
  m w = (Ok a, w') -> bind m f w = f a w'.
Proof. intros H. unfold bind. rewrite H. reflexivity. Qed.

Lemma bind_throw {St A B} (m : M St A) (f : A -> M St B) w e w' :
  m w = (Throw e, w') -> bind m f w = (Throw e, w').
Proof. intros H. unfold bind. rewrite H. reflexivity. Qed.

Lemma await_rpc_run {St A} (c : Connection) (call : rpc)
    (reply : nat -> string -> jsError + A) (w : world St) :
  await_rpc c call reply w =
    (match reply (clock w) (rpcEndpoint c) with
     | inr a => Ok a
     | inl e => Throw e
     end, sent w c [call]).
Proof.
  unfold await_rpc, bind, now, emit, tick, settle, sent. simpl.
  destruct (reply (clock w) (rpcEndpoint c)); reflexivity.
Qed.

Lemma await_all2_run {St A B} (c : Connection)
    (call1 : rpc) (reply1 : nat -> string -> jsError + A)
    (call2 : rpc) (reply2 : nat -> string -> jsError + B) (w : world St) :
  await_all2 c call1 reply1 call2 reply2 w =
    (match reply1 (clock w) (rpcEndpoint c), reply2 (clock w) (rpcEndpoint c) with
     | inr a, inr b => Ok (a, b)
     | inl e, _ => Throw e
     | inr _, inl e => Throw e
     end, sent w c [call1; call2]).
Proof.
  unfold await_all2, bind, now, emit, tick, settle, sent. simpl.
  rewrite <- app_assoc. simpl.
  destruct (reply1 (clock w) (rpcEndpoint c));
    destruct (reply2 (clock w) (rpcEndpoint c)); reflexivity.
Qed.

Lemma new_Connection_run {St} (endpoint : string) (w : world St) :
  new_Connection endpoint w =
    (if assertEndpointUrl endpoint then Ok (mkConnection endpoint)
     else Throw (TypeError "Endpoint URL must start with `http:` or `https:`."),
     constructed w endpoint).
Proof.
  unfold new_Connection, bind, emit, constructed.
  destruct (assertEndpointUrl endpoint); reflexivity.
Qed.

(* ===================================================================== *)
(** ** The candidate loop *)
(* ===================================================================== *)

Section CandidateLoop.

Variable probe : Connection -> M route_state unit.

Lemma tryEndpoints_cons endpoint rest w :
  Selector.tryEndpoints probe (endpoint :: rest) w =
    match Selector.testEndpoint probe endpoint w with
    | (Ok c, w') => (Ok (Some c), w')
    | (Throw _, w') => Selector.tryEndpoints probe rest w'
    end.
Proof.
  simpl. unfold bind at 1. unfold try_catch. unfold bind at 1.
  destruct (Selector.testEndpoint probe endpoint w) as [[c | e] w']; reflexivity.
Qed.

(** Candidates that were tried in vain are behind the loop. *)
Lemma tryEndpoints_app pre l w w1 :
  Selector.tryEndpoints probe pre w = (Ok None, w1) ->
  Selector.tryEndpoints probe (pre ++ l) w = Selector.tryEndpoints probe l w1.
Proof.
  revert w. induction pre as [| endpoint pre IH]; intros w H.
  - simpl in H. unfold ret in H. inversion H. reflexivity.
  - rewrite <- app_comm_cons. rewrite tryEndpoints_cons in *.
    destruct (Selector.testEndpoint probe endpoint w) as [[c | e] w'].
    + discriminate.
    + apply IH. exact H.
Qed.

Lemma tryEndpoints_never_throws l w :
  exists r w', Selector.tryEndpoints probe l w = (Ok r, w').
Proof.
  revert w. induction l as [| endpoint rest IH]; intros w.
  - exists None, w. reflexivity.
  - rewrite tryEndpoints_cons.
    destruct (Selector.testEndpoint probe endpoint w) as [[c | e] w'].
    + exists (Some c), w'. reflexivity.
    + apply IH.
Qed.

End CandidateLoop.

Lemma testEndpoint_dual net endpoint w :
  Selector.testEndpoint (probe_slot_and_version net) endpoint w =
    if assertEndpointUrl endpoint then
      match net_getSlot net (clock w) endpoint, net_getVersion net (clock w) endpoint with
      | inr _, inr _ =>
          (Ok (mkConnection endpoint),
           with_mem (sent (constructed w endpoint) (mkConnection endpoint)
                          [getSlot; getVersion])
                    (cache_endpoint endpoint (mem w)))
      | inl e, _ | inr _, inl e =>
          (Throw e, sent (constructed w endpoint) (mkConnection endpoint)
                         [getSlot; getVersion])
      end
    else (Throw (TypeError "Endpoint URL must start with `http:` or `https:`."),
          constructed w endpoint).
Proof.
  unfold Selector.testEndpoint, probe_slot_and_version.
  unfold bind at 1. rewrite new_Connection_run.
  destruct (assertEndpointUrl endpoint); [| reflexivity].
  unfold bind at 1. unfold bind at 1. rewrite await_all2_run. simpl.
  destruct (net_getSlot net (clock w) endpoint);
    destruct (net_getVersion net (clock w) endpoint); reflexivity.
Qed.

Lemma testEndpoint_single net endpoint w :
  Selector.testEndpoint (probe_slot net) endpoint w =
    if assertEndpointUrl endpoint then
      match net_getSlot net (clock w) endpoint with
      | inr _ =>
          (Ok (mkConnection endpoint),
           with_mem (sent (constructed w endpoint) (mkConnection endpoint) [getSlot])
                    (cache_endpoint endpoint (mem w)))
      | inl e =>
          (Throw e, sent (constructed w endpoint) (mkConnection endpoint) [getSlot])
      end
    else (Throw (TypeError "Endpoint URL must start with `http:` or `https:`."),
          constructed w endpoint).
Proof.
  unfold Selector.testEndpoint, probe_slot.
  unfold bind at 1. rewrite new_Connection_run.
  destruct (assertEndpointUrl endpoint); [| reflexivity].
  unfold bind at 1. unfold bind at 1. rewrite await_rpc_run. simpl.
  destruct (net_getSlot net (clock w) endpoint); reflexivity.
Qed.

(* ===================================================================== *)
(** ** Numbers and strings: what the primitives compute *)
(* ===================================================================== *)

(** One tenth is not a double; the nearest one is a little above it. *)
Example binary64_tenth :
  binary64 0.1 = TNumber (3602879701896397 # 36028797018963968).
Proof. vm_compute. reflexivity. Qed.

(** [0.1 + 0.2] is [0.30000000000000004], which is not the double nearest
    to three tenths. *)
Example js_plus_tenths :
  js_plus (js_plus (TNumber 0) (JNumber 0.1)) (JNumber 0.2)
  = TNumber (1351079888211149 # 4503599627370496)
  /\ binary64 0.3 = TNumber (5404319552844595 # 18014398509481984).
Proof. split; vm_compute; reflexivity. Qed.

(** From [2 ^ 53] on, adding 1 changes nothing: a tie goes to the even
    neighbour. *)
Example js_plus_ties_to_even :
  js_plus (TNumber 9007199254740992) (JNumber 1) = TNumber 9007199254740992
  /\ js_plus (TNumber 9007199254740992) (JNumber 3) = TNumber 9007199254740996.
Proof. split; vm_compute; reflexivity. Qed.

(** Beyond the largest double a sum is [Infinity], and stays so. *)
Example js_plus_overflows :
  js_plus (TNumber (inject_Z (2 ^ 1024 - 2 ^ 971)))
          (JNumber (inject_Z (2 ^ 1024 - 2 ^ 971))) = TInfinity false
  /\ js_plus (TInfinity false) (JNumber (-5)) = TInfinity false.
Proof. split; vm_compute; reflexivity. Qed.

(** Operands that are not numbers. *)
Example js_plus_other_operands :
  js_plus (TNumber 1) JUndefined = TNaN
  /\ js_plus (TNumber 1) JNull = TNumber 1
  /\ js_plus (TNumber 1) (JBool true) = TNumber 2
  /\ js_plus (TNumber 1) (JString "2") = TText (TNumber 1) (JString "2").
Proof. repeat split; vm_compute; reflexivity. Qed.

(** [trim] strips white space beyond ASCII: here a no-break space, a
    space, a line separator and a line feed are stripped; the space inside
    stays. *)
Example trim_unicode :
  trim (utf8 [194; 160] ++ " a b" ++ utf8 [226; 128; 168; 10])%string = "a b".
Proof. vm_compute. reflexivity. Qed.

(** A string of white space only is trimmed to nothing: a byte order mark,
    a space and a hair space. *)
Example trim_blank : trim (utf8 [239; 187; 191; 32; 226; 128; 138]) = EmptyString.
Proof. vm_compute. reflexivity. Qed.

(** Characters that share bytes with white space are kept: U+00E0, whose
    encoding ends in the byte 160, and U+0085, which is no white space for
    [trim]. *)
Example trim_keeps_letters :
  trim (utf8 [195; 160]) = utf8 [195; 160]
  /\ trim ("x" ++ utf8 [194; 133])%string = ("x" ++ utf8 [194; 133])%string.
Proof. split; vm_compute; reflexivity. Qed.

Lemma trim_empty : trim EmptyString = EmptyString.
Proof. reflexivity. Qed.

(** A block time in seconds, in milliseconds. *)
Example milliseconds_small : milliseconds 17 = 17 * 1000.
Proof. vm_compute. reflexivity. Qed.

Lemma getWorkingConnection_empty_cache probe endpoints net w :
  Selector.cache_is_set (mem w) = None ->
  Selector.getWorkingConnection probe endpoints net w =
    Selector.tryEndpoints probe endpoints w.
Proof.
  intros H. unfold Selector.getWorkingConnection, bind, get_mem.
  rewrite H. reflexivity.
Qed.

Lemma getWorkingConnection_cached probe endpoints net w c :
  Selector.cache_is_set (mem w) = Some c ->
  Selector.getWorkingConnection probe endpoints net w =
    match net_getSlot net (clock w) (rpcEndpoint c) with
    | inr _ => (Ok (Some c), sent w c [getSlot])
    | inl _ =>
        Selector.tryEndpoints probe endpoints
          (with_mem (sent w c [getSlot]) (clear_cache (mem w)))
    end.
Proof.
  intros H. unfold Selector.getWorkingConnection.
  unfold bind at 1. unfold get_mem. rewrite H.
  unfold bind at 1. unfold try_catch. unfold bind at 1.
  rewrite await_rpc_run.
  destruct (net_getSlot net (clock w) (rpcEndpoint c)); reflexivity.
Qed.

(** The number of connections a pass over the candidates builds. *)
Lemma tryEndpoints_dual_builds net l w :
  count is_new_connection
        (trace (snd (Selector.tryEndpoints (probe_slot_and_version net) l w)))
  <= count is_new_connection (trace w) + List.length l.
Proof.
  revert w. induction l as [| e rest IH]; intros w.
  - simpl. lia.
  - rewrite tryEndpoints_cons, testEndpoint_dual.
    destruct (assertEndpointUrl e);
      [destruct (net_getSlot net (clock w) e);
       destruct (net_getVersion net (clock w) e) |];
      try (etransitivity; [apply IH |]);
      unfold count; simpl; rewrite ?filter_app, ?length_app; simpl; lia.
Qed.

Lemma tryEndpoints_single_builds net l w :
  count is_new_connection
        (trace (snd (Selector.tryEndpoints (probe_slot net) l w)))
  <= count is_new_connection (trace w) + List.length l.
Proof.
  revert w. induction l as [| e rest IH]; intros w.
  - simpl. lia.
  - rewrite tryEndpoints_cons, testEndpoint_single.
    destruct (assertEndpointUrl e);
      [destruct (net_getSlot net (clock w) e) |];
      try (etransitivity; [apply IH |]);
      unfold count; simpl; rewrite ?filter_app, ?length_app; simpl; lia.
Qed.

(* ===================================================================== *)
(** ** C1: the first live candidate wins *)
(* ===================================================================== *)

(** C1 (as amended).  In the candidate loop of [getWorkingConnection], let
    the candidates [pre] have been tried in vain and let [e] be the next
    one.  In the initiate-payment and confirm-payment selectors [e] is sent
    the chain-height and the node-version probe together (same clock); if
    both are answered, [e] is cached and returned at once and nothing of
    [post] is touched, and if one is rejected the loop goes on with [post].
    In the get-transaction selector [e] is sent the chain-height probe
    alone, and that answer decides. *)
Theorem first_live_candidate_wins net pre e post w w1 w1' :
  Selector.tryEndpoints (probe_slot_and_version net) pre w = (Ok None, w1) ->
  Selector.tryEndpoints (probe_slot net) pre w = (Ok None, w1') ->
  assertEndpointUrl e = true ->
  Selector.tryEndpoints (probe_slot_and_version net) (pre ++ e :: post) w =
    match net_getSlot net (clock w1) e, net_getVersion net (clock w1) e with
    | inr _, inr _ =>
        (Ok (Some (mkConnection e)),
         with_mem (sent (constructed w1 e) (mkConnection e) [getSlot; getVersion])
                  (cache_endpoint e (mem w1)))
    | _, _ =>
        Selector.tryEndpoints (probe_slot_and_version net) post
          (sent (constructed w1 e) (mkConnection e) [getSlot; getVersion])
    end
  /\ Selector.tryEndpoints (probe_slot net) (pre ++ e :: post) w =
    match net_getSlot net (clock w1') e with
    | inr _ =>
        (Ok (Some (mkConnection e)),
         with_mem (sent (constructed w1' e) (mkConnection e) [getSlot])
                  (cache_endpoint e (mem w1')))
    | inl _ =>
        Selector.tryEndpoints (probe_slot net) post
          (sent (constructed w1' e) (mkConnection e) [getSlot])
    end.
Proof.
  intros Hdual Hsingle Hurl. split.
  - rewrite (tryEndpoints_app _ _ _ _ _ Hdual), tryEndpoints_cons, testEndpoint_dual, Hurl.
    destruct (net_getSlot net (clock w1) e);
      destruct (net_getVersion net (clock w1) e); reflexivity.
  - rewrite (tryEndpoints_app _ _ _ _ _ Hsingle), tryEndpoints_cons, testEndpoint_single, Hurl.
    destruct (net_getSlot net (clock w1') e); reflexivity.
Qed.

(** Witness: the second of two devnet candidates when the first has a
    malformed URL. *)
Lemma first_live_candidate_wins_witness :
  Selector.tryEndpoints
    (probe_slot_and_version (Examples.net_up [] Examples.nothing))
    (["ftp://nowhere"] ++ Examples.devnet :: ["https://rpc.ankr.com/solana_devnet"])
    Examples.fresh_route
  = (Ok (Some (mkConnection Examples.devnet)),
     mkWorld 1 [NewConnection "ftp://nowhere"; NewConnection Examples.devnet;
                Rpc 0 Examples.devnet getSlot; Rpc 0 Examples.devnet getVersion]
             (mkRoute (Some (mkConnection Examples.devnet)) (Some Examples.devnet)
                      db_initial)).
Proof.
  refine (eq_trans
    (proj1 (first_live_candidate_wins (Examples.net_up [] Examples.nothing)
              ["ftp://nowhere"] Examples.devnet
              ["https://rpc.ankr.com/solana_devnet"]
              Examples.fresh_route
              (constructed Examples.fresh_route "ftp://nowhere")
              (constructed Examples.fresh_route "ftp://nowhere")
              _ _ _)) _); reflexivity.
Defined.

(** C1 as stated fails for the get-transaction selector: a candidate whose
    node-version probe would be rejected is selected, and no version probe
    is sent. *)
Lemma get_transaction_selector_sends_one_probe :
  GetTransaction.getWorkingConnection Examples.net_no_version [Examples.devnet]
                                      Examples.fresh_route
  = (Ok (Some (mkConnection Examples.devnet)),
     mkWorld 1 [NewConnection Examples.devnet; Rpc 0 Examples.devnet getSlot]
             (mkRoute (Some (mkConnection Examples.devnet)) (Some Examples.devnet)
                      db_initial))
  /\ net_getVersion Examples.net_no_version 0 Examples.devnet = inl Examples.offline.
Proof. split; reflexivity. Qed.

(* ===================================================================== *)
(** ** C4: the cached connection is probed before it is reused *)
(* ===================================================================== *)

(** C4 (as amended).  In the three API routes, a call of
    [getWorkingConnection] that finds a cached connection first sends it the
    chain-height probe.  If the probe is answered the cached connection is
    returned and no candidate is touched; if it is rejected the cache slot
    is emptied and the candidate list is passed over once, building at most
    one connection per candidate. *)
Theorem cached_connection_probed_first net endpoints w c :
  Selector.cache_is_set (mem w) = Some c ->
  (SolanaPay.getWorkingConnection net endpoints w =
     match net_getSlot net (clock w) (rpcEndpoint c) with
     | inr _ => (Ok (Some c), sent w c [getSlot])
     | inl _ =>
         Selector.tryEndpoints (probe_slot_and_version net) endpoints
           (with_mem (sent w c [getSlot]) (clear_cache (mem w)))
     end)
  /\ (ConfirmPayment.getWorkingConnection net endpoints w =
     match net_getSlot net (clock w) (rpcEndpoint c) with
     | inr _ => (Ok (Some c), sent w c [getSlot])
     | inl _ =>
         Selector.tryEndpoints (probe_slot_and_version net) endpoints
           (with_mem (sent w c [getSlot]) (clear_cache (mem w)))
     end)
  /\ (GetTransaction.getWorkingConnection net endpoints w =
     match net_getSlot net (clock w) (rpcEndpoint c) with
     | inr _ => (Ok (Some c), sent w c [getSlot])
     | inl _ =>
         Selector.tryEndpoints (probe_slot net) endpoints
           (with_mem (sent w c [getSlot]) (clear_cache (mem w)))
     end)
  /\ count is_new_connection
           (trace (snd (SolanaPay.getWorkingConnection net endpoints w)))
     <= count is_new_connection (trace w) + List.length endpoints
  /\ count is_new_connection
           (trace (snd (GetTransaction.getWorkingConnection net endpoints w)))
     <= count is_new_connection (trace w) + List.length endpoints.
Proof.
  intros H.
  unfold SolanaPay.getWorkingConnection, ConfirmPayment.getWorkingConnection,
    GetTransaction.getWorkingConnection.
  rewrite !(getWorkingConnection_cached _ _ _ _ _ H).
  repeat split.
  - destruct (net_getSlot net (clock w) (rpcEndpoint c)).
    + etransitivity; [apply tryEndpoints_dual_builds |].
      unfold count; simpl. rewrite filter_app, length_app. simpl. lia.
    + unfold count; simpl. rewrite filter_app, length_app. simpl. lia.
  - destruct (net_getSlot net (clock w) (rpcEndpoint c)).
    + etransitivity; [apply tryEndpoints_single_builds |].
      unfold count; simpl. rewrite filter_app, length_app. simpl. lia.
    + unfold count; simpl. rewrite filter_app, length_app. simpl. lia.
Qed.

(** Witness: a cached devnet connection on a network that answers. *)
Lemma cached_connection_probed_first_witness :
  SolanaPay.getWorkingConnection (Examples.net_up [] Examples.nothing) RPC_ENDPOINTS
                                 Examples.cached_route
  = (Ok (Some (mkConnection Examples.devnet)),
     mkWorld 1 [Rpc 0 Examples.devnet getSlot]
             (mkRoute (Some (mkConnection Examples.devnet)) (Some Examples.devnet)
                      db_initial)).
Proof.
  refine (eq_trans
    (proj1 (cached_connection_probed_first (Examples.net_up [] Examples.nothing)
              RPC_ENDPOINTS Examples.cached_route (mkConnection Examples.devnet) _)) _);
    reflexivity.
Defined.

(** C4 as stated fails for the selector of [page.tsx]: the remembered
    endpoint is handed back as a new connection without any probe, here on a
    network on which every probe would be rejected. *)
Lemma page_selector_reuses_without_probe :
  Page.getWorkingConnection Examples.net_down RPC_ENDPOINTS
    (mkWorld 0 [] (Page.mkPage (Some Examples.devnet)))
  = (Ok (Some (mkConnection Examples.devnet)),
     mkWorld 0 [NewConnection Examples.devnet] (Page.mkPage (Some Examples.devnet)))
  /\ net_getSlot Examples.net_down 0 Examples.devnet = inl Examples.offline
  /\ net_getVersion Examples.net_down 0 Examples.devnet = inl Examples.offline.
Proof. repeat split; reflexivity. Qed.

(* ===================================================================== *)
(** ** C8: nothing to try, nothing sent *)
(* ===================================================================== *)

(** C8.  With an empty candidate list and an empty cache every selector
    returns null and leaves the world as it found it: no connection is
    built, no probe is sent.  The callers answer 503: shown for the health
    check and for a well-formed confirm-payment request. *)
Theorem empty_candidates_no_network_call net MERCHANT_WALLET body sig w wp :
  Selector.cache_is_set (mem w) = None ->
  Page.remembered (mem wp) = None ->
  get_prop body "signature" = JString sig ->
  sig <> EmptyString ->
  truthy (get_prop body "product") = true ->
  SolanaPay.getWorkingConnection net [] w = (Ok None, w)
  /\ ConfirmPayment.getWorkingConnection net [] w = (Ok None, w)
  /\ GetTransaction.getWorkingConnection net [] w = (Ok None, w)
  /\ Page.getWorkingConnection net [] wp = (Ok None, wp)
  /\ SolanaPay.GET net [] w =
       (Ok (ErrorResponse 503 "Cannot connect to Solana network"
                          "No working RPC endpoints available"), w)
  /\ ConfirmPayment.POST net [] MERCHANT_WALLET (BodyJson body) w =
       (Ok (Some (ErrorResponse 503 "Failed to connect to Solana network"
                                EmptyString)), w).
Proof.
  intros Hcache Hpage Hsig Hne Hprod.
  assert (Hsel : forall probe,
             Selector.getWorkingConnection probe [] net w = (Ok None, w)).
  { intros probe. rewrite getWorkingConnection_empty_cache by exact Hcache.
    reflexivity. }
  repeat split.
  - apply Hsel.
  - apply Hsel.
  - apply Hsel.
  - unfold Page.getWorkingConnection, bind, get_mem. rewrite Hpage. reflexivity.
  - unfold SolanaPay.GET, try_catch, bind, SolanaPay.getWorkingConnection.
    rewrite Hsel. reflexivity.
  - unfold ConfirmPayment.POST, ConfirmPayment.POST_fuel, try_catch,
      ConfirmPayment.POST_try.
    assert (Hbody : destructure (St := route_state) body w = (Ok tt, w)).
    { destruct body; simpl in Hsig; try discriminate; reflexivity. }
    unfold bind at 1. rewrite Hbody.
    rewrite Hsig, Hprod. unfold truthy.
    apply String.eqb_neq in Hne. rewrite Hne. simpl.
    unfold bind at 1. unfold ConfirmPayment.as_string, ret at 1.
    unfold bind at 1. unfold ConfirmPayment.getWorkingConnection.
    rewrite Hsel. reflexivity.
Qed.

(** Witness: a fresh server, a fresh page, and a request for a widget. *)
Lemma empty_candidates_no_network_call_witness :
  SolanaPay.getWorkingConnection Examples.net_down [] Examples.fresh_route
  = (Ok None, Examples.fresh_route).
Proof.
  exact (proj1 (empty_candidates_no_network_call Examples.net_down Examples.merchant
    (JObject [("signature", JString "5VERv8NMvzbJMEkV8xnrLkEaWRtSz9CosKDYjCJjBRnb");
              ("product", Examples.widget (JNumber 12))])
    "5VERv8NMvzbJMEkV8xnrLkEaWRtSz9CosKDYjCJjBRnb"
    Examples.fresh_route Examples.fresh_page
    eq_refl eq_refl eq_refl
    ltac:(discriminate) eq_refl)).
Defined.

(* ===================================================================== *)
(** ** The selectors leave the ledger alone *)
(* ===================================================================== *)

Lemma quiet_refl w : quiet w w.
Proof. split; reflexivity. Qed.

Lemma quiet_trans w1 w2 w3 : quiet w1 w2 -> quiet w2 w3 -> quiet w1 w3.
Proof. intros [H1 H2] [H3 H4]. split; congruence. Qed.

Lemma count_app p l1 l2 : count p (l1 ++ l2) = count p l1 + count p l2.
Proof. unfold count. rewrite filter_app, length_app. reflexivity. Qed.

Lemma quiet_probe w (e : string) (c : Connection) (calls : list rpc) s :
  db s = db (mem w) ->
  forallb (fun call => match call with getParsedTransaction _ => false | _ => true end)
          calls = true ->
  quiet w (with_mem (sent (constructed w e) c calls) s).
Proof.
  intros Hdb Hcalls. split; [exact Hdb |].
  unfold with_mem, sent, constructed. simpl. rewrite !count_app. simpl.
  assert (Hz : count is_fetch (map (Rpc (clock w) (rpcEndpoint c)) calls) = 0).
  { induction calls as [| call calls IH]; [reflexivity |].
    simpl in Hcalls. apply andb_prop in Hcalls. destruct Hcalls as [H1 H2].
    unfold count in *. simpl. destruct call; try discriminate; simpl; auto. }
  rewrite Hz. unfold count. simpl. lia.
Qed.

Lemma quiet_constructed w (e : string) : quiet w (constructed w e).
Proof.
  split; [reflexivity |]. unfold constructed. simpl. rewrite count_app.
  unfold count. simpl. lia.
Qed.

Lemma with_mem_same (w : world route_state) : with_mem w (mem w) = w.
Proof. destruct w; reflexivity. Qed.

Lemma tryEndpoints_dual_quiet net l w :
  quiet w (snd (Selector.tryEndpoints (probe_slot_and_version net) l w)).
Proof.
  revert w. induction l as [| e rest IH]; intros w.
  - apply quiet_refl.
  - rewrite tryEndpoints_cons, testEndpoint_dual.
    destruct (assertEndpointUrl e).
    + destruct (net_getSlot net (clock w) e);
        destruct (net_getVersion net (clock w) e);
        try (eapply quiet_trans; [| apply IH]);
        try (rewrite <- (with_mem_same (sent _ _ _)));
        apply quiet_probe; reflexivity.
    + eapply quiet_trans; [| apply IH]. apply quiet_constructed.
Qed.

Lemma tryEndpoints_single_quiet net l w :
  quiet w (snd (Selector.tryEndpoints (probe_slot net) l w)).
Proof.
  revert w. induction l as [| e rest IH]; intros w.
  - apply quiet_refl.
  - rewrite tryEndpoints_cons, testEndpoint_single.
    destruct (assertEndpointUrl e).
    + destruct (net_getSlot net (clock w) e);
        try (eapply quiet_trans; [| apply IH]);
        try (rewrite <- (with_mem_same (sent _ _ _)));
        apply quiet_probe; reflexivity.
    + eapply quiet_trans; [| apply IH]. apply quiet_constructed.
Qed.

Lemma quiet_sent w (c : Connection) s :
  db s = db (mem w) -> quiet w (with_mem (sent w c [getSlot]) s).
Proof.
  intros H. split; [exact H |]. unfold with_mem, sent. simpl.
  rewrite count_app. unfold count. simpl. lia.
Qed.

Section SelectorFacts.

Variable probe : Connection -> M route_state unit.
Hypothesis loop_quiet :
  forall l w, quiet w (snd (Selector.tryEndpoints probe l w)).

Lemma getWorkingConnection_quiet endpoints net w :
  quiet w (snd (Selector.getWorkingConnection probe endpoints net w)).
Proof.
  destruct (Selector.cache_is_set (mem w)) as [c |] eqn:Hc.
  - rewrite (getWorkingConnection_cached _ _ _ _ _ Hc).
    destruct (net_getSlot net (clock w) (rpcEndpoint c)).
    + eapply quiet_trans; [| apply loop_quiet].
      apply quiet_sent. reflexivity.
    + simpl. rewrite <- (with_mem_same (sent w c [getSlot])).
      apply quiet_sent. reflexivity.
  - rewrite (getWorkingConnection_empty_cache _ _ _ _ Hc). apply loop_quiet.
Qed.

Lemma getWorkingConnection_never_throws endpoints net w :
  exists r w', Selector.getWorkingConnection probe endpoints net w = (Ok r, w').
Proof.
  destruct (Selector.cache_is_set (mem w)) as [c |] eqn:Hc.
  - rewrite (getWorkingConnection_cached _ _ _ _ _ Hc).
    destruct (net_getSlot net (clock w) (rpcEndpoint c)).
    + apply tryEndpoints_never_throws.
    + eexists; eexists; reflexivity.
  - rewrite (getWorkingConnection_empty_cache _ _ _ _ Hc).
    apply tryEndpoints_never_throws.
Qed.

End SelectorFacts.

(* ===================================================================== *)
(** ** C6: the transaction-fetch loop *)
(* ===================================================================== *)

Section FetchLoopFacts.

Variable getWorkingConnection : M route_state (option Connection).
Variable net : network.
Variable connection : Connection.
Variable signature : string.

(** What the selector is known to do: it neither touches the ledger nor
    sends a fetch, and it does not throw. *)
Hypothesis selector_quiet : forall w, quiet w (snd (getWorkingConnection w)).
Hypothesis selector_never_throws :
  forall w, exists r w', getWorkingConnection w = (Ok r, w').

Lemma fetchTurn_run attempt w :
  fetchTurn getWorkingConnection net connection signature attempt w =
    match net_getParsedTransaction net (clock w) (rpcEndpoint connection) signature with
    | inr (Some tx) => (Ok (Found tx), sent w connection [getParsedTransaction signature])
    | inr None => (Ok NextAttempt, sent w connection [getParsedTransaction signature])
    | inl _ =>
        if attempt <? maxRetries - 1 then
          match getWorkingConnection
                  (with_mem (sent w connection [getParsedTransaction signature])
                            (clear_cache (mem w))) with
          | (Ok (Some _), w') => (Ok NextAttempt, w')
          | (Ok None, w') => (Ok Break, w')
          | (Throw e, w') => (Throw e, w')
          end
        else (Ok NextAttempt, sent w connection [getParsedTransaction signature])
    end.
Proof.
  unfold fetchTurn, try_catch. unfold bind at 1. rewrite await_rpc_run.
  destruct (net_getParsedTransaction net (clock w) (rpcEndpoint connection) signature)
    as [err | [tx |]]; try reflexivity.
  destruct (attempt <? maxRetries - 1); [| reflexivity].
  unfold bind at 1. unfold set_cache, bind at 1. simpl.
  unfold bind at 1. unfold with_mem, clear_cache. simpl.
  destruct (getWorkingConnection _) as [[[c |] | e] w']; reflexivity.
Qed.

Lemma fetchTurn_sends_one attempt w :
  count is_fetch
        (trace (snd (fetchTurn getWorkingConnection net connection signature attempt w)))
  = S (count is_fetch (trace w)).
Proof.
  assert (Hsent : count is_fetch
                    (trace (sent w connection [getParsedTransaction signature]))
                  = S (count is_fetch (trace w))).
  { unfold count, sent. simpl. rewrite filter_app, length_app. simpl. lia. }
  rewrite fetchTurn_run.
  destruct (net_getParsedTransaction net (clock w) (rpcEndpoint connection) signature)
    as [err | [tx |]]; try exact Hsent.
  destruct (attempt <? maxRetries - 1); [| exact Hsent].
  destruct (selector_quiet
              (with_mem (sent w connection [getParsedTransaction signature])
                        (clear_cache (mem w)))) as [_ Hq].
  destruct (getWorkingConnection _) as [[[c |] | e] w']; simpl in *;
    rewrite Hq; exact Hsent.
Qed.

Lemma fetchTurn_keeps_db attempt w :
  db (mem (snd (fetchTurn getWorkingConnection net connection signature attempt w)))
  = db (mem w).
Proof.
  rewrite fetchTurn_run.
  destruct (net_getParsedTransaction net (clock w) (rpcEndpoint connection) signature)
    as [err | [tx |]]; try reflexivity.
  destruct (attempt <? maxRetries - 1); [| reflexivity].
  destruct (selector_quiet
              (with_mem (sent w connection [getParsedTransaction signature])
                        (clear_cache (mem w)))) as [Hq _].
  destruct (getWorkingConnection _) as [[[c |] | e] w']; simpl in *; exact Hq.
Qed.

Lemma fetchLoop_keeps_db fuel attempt w :
  db (mem (snd (fetchLoop getWorkingConnection net connection signature
                          fuel attempt w)))
  = db (mem w).
Proof.
  revert attempt w. induction fuel as [| fuel IH]; intros attempt w.
  - reflexivity.
  - cbn [fetchLoop]. destruct (attempt <? maxRetries); [| reflexivity].
    pose proof (fetchTurn_keeps_db attempt w) as Hdb.
    unfold bind.
    destruct (fetchTurn getWorkingConnection net connection signature attempt w)
      as [[[tx | |] | e] w1]; simpl in *; try exact Hdb.
    rewrite IH. exact Hdb.
Qed.

Lemma fetchTurn_never_throws attempt w :
  exists r w',
    fetchTurn getWorkingConnection net connection signature attempt w = (Ok r, w').
Proof.
  rewrite fetchTurn_run.
  destruct (net_getParsedTransaction net (clock w) (rpcEndpoint connection) signature)
    as [err | [tx |]]; try (eexists; eexists; reflexivity).
  destruct (attempt <? maxRetries - 1); [| eexists; eexists; reflexivity].
  destruct (selector_never_throws
              (with_mem (sent w connection [getParsedTransaction signature])
                        (clear_cache (mem w)))) as (r & w' & H).
  rewrite H. destruct r; eexists; eexists; reflexivity.
Qed.

(** With more fuel than turns left the loop ends by itself, and it sends
    at most one fetch per turn left. *)
Lemma fetchLoop_ends fuel attempt w :
  maxRetries - attempt < fuel ->
  exists r w',
    fetchLoop getWorkingConnection net connection signature fuel attempt w
      = (Ok (Some r), w')
    /\ count is_fetch (trace w')
       <= count is_fetch (trace w) + (maxRetries - attempt).
Proof.
  revert attempt w. induction fuel as [| fuel IH]; intros attempt w Hfuel.
  - lia.
  - cbn [fetchLoop]. destruct (attempt <? maxRetries) eqn:Hlt.
    + apply Nat.ltb_lt in Hlt.
      pose proof (fetchTurn_sends_one attempt w) as Hone.
      destruct (fetchTurn_never_throws attempt w) as (r & w1 & Hturn).
      unfold bind. rewrite Hturn in *. simpl in Hone.
      destruct r as [tx | |].
      * exists (Some tx), w1. split; [reflexivity | lia].
      * exists None, w1. split; [reflexivity | lia].
      * destruct (IH (S attempt) w1) as (r & w' & Hrun & Hcount); [lia |].
        exists r, w'. split; [exact Hrun | lia].
    + exists None, w. split; [reflexivity | lia].
Qed.

End FetchLoopFacts.

Lemma selector_dual_quiet net endpoints w :
  quiet w (snd (Selector.getWorkingConnection (probe_slot_and_version net) endpoints net w)).
Proof. apply getWorkingConnection_quiet. apply tryEndpoints_dual_quiet. Qed.

Lemma selector_single_quiet net endpoints w :
  quiet w (snd (Selector.getWorkingConnection (probe_slot net) endpoints net w)).
Proof. apply getWorkingConnection_quiet. apply tryEndpoints_single_quiet. Qed.

(** The handlers that run the loop give it enough fuel: they always answer. *)
Lemma ConfirmPayment_POST_answers net endpoints MERCHANT_WALLET req w :
  exists r w',
    ConfirmPayment.POST net endpoints MERCHANT_WALLET req w = (Ok (Some r), w').
Proof.
  unfold ConfirmPayment.POST, ConfirmPayment.POST_fuel, try_catch,
    ConfirmPayment.POST_try, InternalServerError.
  destruct req as [| | body]; try (eexists; eexists; reflexivity).
  unfold bind at 1.
  destruct (destructure body w) as [[[] | e] w0]; [| eexists; eexists; reflexivity].
  destruct (negb (truthy (get_prop body "signature"))
            || negb (truthy (get_prop body "product")));
    [eexists; eexists; reflexivity |].
  unfold bind at 1.
  destruct (ConfirmPayment.as_string (get_prop body "signature") w0)
    as [[sig | e] w1]; [| eexists; eexists; reflexivity].
  unfold bind at 1.
  destruct (getWorkingConnection_never_throws (probe_slot_and_version net)
              endpoints net w1) as ([connection |] & w2 & Hconn);
    unfold ConfirmPayment.getWorkingConnection at 1; rewrite Hconn;
    [| eexists; eexists; reflexivity].
  unfold bind at 1.
  destruct (fetchLoop_ends (ConfirmPayment.getWorkingConnection net endpoints) net
              connection sig (selector_dual_quiet net endpoints)
              (fun w0 => getWorkingConnection_never_throws _ endpoints net w0)
              (S maxRetries) 0 w2) as (tx & w3 & Hfetch & _);
    [unfold maxRetries; lia |].
  rewrite Hfetch.
  unfold bind at 1.
  destruct (ConfirmPayment.settle_payment net MERCHANT_WALLET sig
              (get_prop body "product") tx w3) as [[r | e] w4];
    eexists; eexists; reflexivity.
Qed.

Lemma GetTransaction_GET_answers net endpoints param w :
  exists r w', GetTransaction.GET net endpoints param w = (Ok (Some r), w').
Proof.
  unfold GetTransaction.GET, GetTransaction.GET_fuel, try_catch,
    GetTransaction.GET_try, InternalServerError.
  destruct param as [sig |]; [| eexists; eexists; reflexivity].
  destruct (String.eqb sig EmptyString); [eexists; eexists; reflexivity |].
  destruct (String.eqb (trim sig) EmptyString); [eexists; eexists; reflexivity |].
  unfold bind at 1, get_mem at 1.
  destruct (find _ (transactions (db (mem w)))) as [localTransaction |];
    [eexists; eexists; reflexivity |].
  unfold bind at 1.
  destruct (getWorkingConnection_never_throws (probe_slot net)
              endpoints net w) as ([connection |] & w2 & Hconn);
    unfold GetTransaction.getWorkingConnection at 1; rewrite Hconn;
    [| eexists; eexists; reflexivity].
  unfold bind at 1.
  destruct (fetchLoop_ends (GetTransaction.getWorkingConnection net endpoints) net
              connection (trim sig) (selector_single_quiet net endpoints)
              (fun w0 => getWorkingConnection_never_throws _ endpoints net w0)
              (S maxRetries) 0 w2) as (tx & w3 & Hfetch & _);
    [unfold maxRetries; lia |].
  rewrite Hfetch.
  destruct tx; eexists; eexists; reflexivity.
Qed.

(** One turn of the loop, and how the loop goes on after it. *)
Lemma fetchLoop_run gwc net connection sig fuel attempt w :
  0 < fuel ->
  fetchLoop gwc net connection sig fuel attempt w =
    if attempt <? maxRetries then
      match net_getParsedTransaction net (clock w) (rpcEndpoint connection) sig with
      | inr (Some tx) =>
          (Ok (Some (Some tx)), sent w connection [getParsedTransaction sig])
      | inr None =>
          fetchLoop gwc net connection sig (fuel - 1) (S attempt)
                    (sent w connection [getParsedTransaction sig])
      | inl _ =>
          if attempt <? maxRetries - 1 then
            match gwc (with_mem (sent w connection [getParsedTransaction sig])
                                (clear_cache (mem w))) with
            | (Ok (Some _), w') =>
                fetchLoop gwc net connection sig (fuel - 1) (S attempt) w'
            | (Ok None, w') => (Ok (Some None), w')
            | (Throw e, w') => (Throw e, w')
            end
          else
            fetchLoop gwc net connection sig (fuel - 1) (S attempt)
                      (sent w connection [getParsedTransaction sig])
      end
    else (Ok (Some None), w).
Proof.
  intros Hfuel. destruct fuel as [| fuel]; [lia |].
  replace (S fuel - 1) with fuel by lia.
  cbn [fetchLoop]. destruct (attempt <? maxRetries); [| reflexivity].
  unfold bind. rewrite fetchTurn_run.
  destruct (net_getParsedTransaction net (clock w) (rpcEndpoint connection) sig)
    as [err | [tx |]]; try reflexivity.
  destruct (attempt <? maxRetries - 1); [| reflexivity].
  destruct (gwc _) as [[[c |] | e] w']; reflexivity.
Qed.

(** C6.  In confirm-payment and in get-transaction the fetch loop, started
    at any attempt number with more fuel than turns left, ends by itself
    with a result and sends at most [maxRetries - attempt] fetches, that is
    at most 3 from attempt 0.  The loop stops at once when the attempt
    number has reached [maxRetries] and when a fetch returns a transaction.
    After a fetch that is rejected, unless it was the last attempt, the
    cache slot is emptied and the endpoint selector is called: if it returns
    null the loop stops there, with no transaction and without another
    fetch; if it returns a connection the loop goes on with the next
    attempt.  (A fetch that is answered "not found", and a rejected last
    attempt, go on to the next attempt with the cache as it is.)  Both
    handlers run the loop from attempt 0 with enough fuel, and always
    answer. *)
Theorem fetch_loop_bounded
    net endpoints MERCHANT_WALLET req param connection sig fuel attempt w :
  maxRetries - attempt < fuel ->
  (exists r w',
      fetchLoop (ConfirmPayment.getWorkingConnection net endpoints) net
                connection sig fuel attempt w = (Ok (Some r), w')
      /\ count is_fetch (trace w')
         <= count is_fetch (trace w) + (maxRetries - attempt))
  /\ (exists r w',
      fetchLoop (GetTransaction.getWorkingConnection net endpoints) net
                connection sig fuel attempt w = (Ok (Some r), w')
      /\ count is_fetch (trace w')
         <= count is_fetch (trace w) + (maxRetries - attempt))
  /\ maxRetries = 3
  /\ (exists r w',
      ConfirmPayment.POST net endpoints MERCHANT_WALLET req w = (Ok (Some r), w'))
  /\ (exists r w', GetTransaction.GET net endpoints param w = (Ok (Some r), w'))
  /\ fetchLoop (ConfirmPayment.getWorkingConnection net endpoints) net
               connection sig fuel attempt w =
     (if attempt <? maxRetries then
        match net_getParsedTransaction net (clock w) (rpcEndpoint connection) sig with
        | inr (Some tx) =>
            (Ok (Some (Some tx)), sent w connection [getParsedTransaction sig])
        | inr None =>
            fetchLoop (ConfirmPayment.getWorkingConnection net endpoints) net
                      connection sig (fuel - 1) (S attempt)
                      (sent w connection [getParsedTransaction sig])
        | inl _ =>
            if attempt <? maxRetries - 1 then
              match ConfirmPayment.getWorkingConnection net endpoints
                      (with_mem (sent w connection [getParsedTransaction sig])
                                (clear_cache (mem w))) with
              | (Ok (Some _), w') =>
                  fetchLoop (ConfirmPayment.getWorkingConnection net endpoints) net
                            connection sig (fuel - 1) (S attempt) w'
              | (Ok None, w') => (Ok (Some None), w')
              | (Throw e, w') => (Throw e, w')
              end
            else
              fetchLoop (ConfirmPayment.getWorkingConnection net endpoints) net
                        connection sig (fuel - 1) (S attempt)
                        (sent w connection [getParsedTransaction sig])
        end
      else (Ok (Some None), w))
  /\ fetchLoop (GetTransaction.getWorkingConnection net endpoints) net
               connection sig fuel attempt w =
     (if attempt <? maxRetries then
        match net_getParsedTransaction net (clock w) (rpcEndpoint connection) sig with
        | inr (Some tx) =>
            (Ok (Some (Some tx)), sent w connection [getParsedTransaction sig])
        | inr None =>
            fetchLoop (GetTransaction.getWorkingConnection net endpoints) net
                      connection sig (fuel - 1) (S attempt)
                      (sent w connection [getParsedTransaction sig])
        | inl _ =>
            if attempt <? maxRetries - 1 then
              match GetTransaction.getWorkingConnection net endpoints
                      (with_mem (sent w connection [getParsedTransaction sig])
                                (clear_cache (mem w))) with
              | (Ok (Some _), w') =>
                  fetchLoop (GetTransaction.getWorkingConnection net endpoints) net
                            connection sig (fuel - 1) (S attempt) w'
              | (Ok None, w') => (Ok (Some None), w')
              | (Throw e, w') => (Throw e, w')
              end
            else
              fetchLoop (GetTransaction.getWorkingConnection net endpoints) net
                        connection sig (fuel - 1) (S attempt)
                        (sent w connection [getParsedTransaction sig])
        end
      else (Ok (Some None), w))
  /\ fetchTurn (ConfirmPayment.getWorkingConnection net endpoints) net
               connection sig attempt w =
     match net_getParsedTransaction net (clock w) (rpcEndpoint connection) sig with
     | inr (Some tx) => (Ok (Found tx), sent w connection [getParsedTransaction sig])
     | inr None => (Ok NextAttempt, sent w connection [getParsedTransaction sig])
     | inl _ =>
         if attempt <? maxRetries - 1 then
           match ConfirmPayment.getWorkingConnection net endpoints
                   (with_mem (sent w connection [getParsedTransaction sig])
                             (clear_cache (mem w))) with
           | (Ok (Some _), w') => (Ok NextAttempt, w')
           | (Ok None, w') => (Ok Break, w')
           | (Throw e, w') => (Throw e, w')
           end
         else (Ok NextAttempt, sent w connection [getParsedTransaction sig])
     end
  /\ fetchTurn (GetTransaction.getWorkingConnection net endpoints) net
               connection sig attempt w =
     match net_getParsedTransaction net (clock w) (rpcEndpoint connection) sig with
     | inr (Some tx) => (Ok (Found tx), sent w connection [getParsedTransaction sig])
     | inr None => (Ok NextAttempt, sent w connection [getParsedTransaction sig])
     | inl _ =>
         if attempt <? maxRetries - 1 then
           match GetTransaction.getWorkingConnection net endpoints
                   (with_mem (sent w connection [getParsedTransaction sig])
                             (clear_cache (mem w))) with
           | (Ok (Some _), w') => (Ok NextAttempt, w')
           | (Ok None, w') => (Ok Break, w')
           | (Throw e, w') => (Throw e, w')
           end
         else (Ok NextAttempt, sent w connection [getParsedTransaction sig])
     end.
Proof.
  intros Hfuel. repeat split.
  - apply fetchLoop_ends; [apply selector_dual_quiet | | exact Hfuel].
    intros w0. apply getWorkingConnection_never_throws.
  - apply fetchLoop_ends; [apply selector_single_quiet | | exact Hfuel].
    intros w0. apply getWorkingConnection_never_throws.
  - apply ConfirmPayment_POST_answers.
  - apply GetTransaction_GET_answers.
  - apply fetchLoop_run. lia.
  - apply fetchLoop_run. lia.
  - apply fetchTurn_run.
  - apply fetchTurn_run.
Qed.

(** Witness: three rejected fetches on a network that is down after the
    connection was cached; the second turn finds no endpoint and leaves. *)
Lemma fetch_loop_bounded_witness :
  exists r w',
    fetchLoop (ConfirmPayment.getWorkingConnection Examples.net_down RPC_ENDPOINTS)
              Examples.net_down (mkConnection Examples.devnet)
              "5VERv8NMvzbJMEkV8xnrLkEaWRtSz9CosKDYjCJjBRnb" 4 0
              Examples.cached_route = (Ok (Some r), w')
    /\ count is_fetch (trace w')
       <= count is_fetch (trace Examples.cached_route) + (maxRetries - 0).
Proof.
  apply (fetch_loop_bounded Examples.net_down RPC_ENDPOINTS Examples.merchant
           (Examples.confirm_request (JNumber 12))
           (Some "5VERv8NMvzbJMEkV8xnrLkEaWRtSz9CosKDYjCJjBRnb")
           (mkConnection Examples.devnet)
           "5VERv8NMvzbJMEkV8xnrLkEaWRtSz9CosKDYjCJjBRnb" 4 0 Examples.cached_route).
  unfold maxRetries. lia.
Defined.

(** Three rejected fetches in a row: after the first and the second the
    cache is emptied and the candidate list is passed over again, after the
    third it is not; every fetch goes to the connection of the first pass. *)
Example three_rejected_fetches :
  ConfirmPayment.POST Examples.net_no_fetch [Examples.devnet] Examples.merchant
    (Examples.confirm_request (JNumber 12)) Examples.fresh_route
  = (Ok (Some (ErrorResponse 400 "Transaction not valid" EmptyString)),
     mkWorld 6
       [NewConnection Examples.devnet;
        Rpc 0 Examples.devnet getSlot; Rpc 0 Examples.devnet getVersion;
        Rpc 1 Examples.devnet
            (getParsedTransaction "5VERv8NMvzbJMEkV8xnrLkEaWRtSz9CosKDYjCJjBRnb");
        NewConnection Examples.devnet;
        Rpc 2 Examples.devnet getSlot; Rpc 2 Examples.devnet getVersion;
        Rpc 3 Examples.devnet
            (getParsedTransaction "5VERv8NMvzbJMEkV8xnrLkEaWRtSz9CosKDYjCJjBRnb");
        NewConnection Examples.devnet;
        Rpc 4 Examples.devnet getSlot; Rpc 4 Examples.devnet getVersion;
        Rpc 5 Examples.devnet
            (getParsedTransaction "5VERv8NMvzbJMEkV8xnrLkEaWRtSz9CosKDYjCJjBRnb")]
       (mkRoute (Some (mkConnection Examples.devnet)) (Some Examples.devnet)
                db_initial)).
Proof. vm_compute. reflexivity. Qed.

(* ===================================================================== *)
(** ** C3: a receipt is recorded exactly when the merchant is a party *)
(* ===================================================================== *)

Lemma generateImage_run net name w :
  ConfirmPayment.generateImage net name w =
    (Ok (match net_generateImage net (clock w) name with
         | inr image => Some (dataUrl image)
         | inl _ => None
         end),
     mkWorld (S (clock w)) (trace w ++ [GenerateImage (clock w) name]) (mem w)).
Proof.
  unfold ConfirmPayment.generateImage, try_catch, bind, now, emit, tick, settle.
  simpl. destruct (net_generateImage net (clock w) name); reflexivity.
Qed.

Lemma merchantIncluded_payer MERCHANT_WALLET tx :
  ConfirmPayment.merchantIncluded MERCHANT_WALLET tx = true ->
  exists payer others, accountKeys tx = payer :: others.
Proof.
  unfold ConfirmPayment.merchantIncluded.
  destruct (accountKeys tx) as [| payer others]; [discriminate |].
  intros _. exists payer, others. reflexivity.
Qed.

Lemma merchantIncluded_names MERCHANT_WALLET tx :
  ConfirmPayment.merchantIncluded MERCHANT_WALLET tx = true
  <-> names_merchant MERCHANT_WALLET tx.
Proof.
  unfold ConfirmPayment.merchantIncluded, names_merchant. rewrite existsb_exists.
  split.
  - intros (key & Hin & Heq). apply String.eqb_eq in Heq. subst key. exact Hin.
  - intros Hin. exists (toBase58 MERCHANT_WALLET). split; [exact Hin |].
    apply String.eqb_refl.
Qed.





(* ===================================================================== *)
(** ** C7: requests without a positive price *)
(* ===================================================================== *)

(** C7 (as amended).  An initiate-payment request whose body is not the
    bare JSON value [null] and whose product price is not a positive number
    is answered 400 with one of four messages, and nothing else happens: no
    connection is built, no call is sent, no transaction is built, the cache
    is untouched.  A confirm-payment request validates presence only: when
    the signature or the product is missing it is answered 400 "Missing
    signature or product" and nothing is recorded. *)
Theorem non_positive_price_rejected
    sdk net endpoints MERCHANT_WALLET req confirm_body w :
  is_null req = false ->
  positive_number (price_of req) = false ->
  is_null (BodyJson confirm_body) = false ->
  negb (truthy (get_prop confirm_body "signature"))
  || negb (truthy (get_prop confirm_body "product")) = true ->
  (exists error details,
      SolanaPay.POST sdk net endpoints MERCHANT_WALLET req w
        = (Ok (ErrorResponse 400 error details), w)
      /\ In error [ "Empty request body"; "Invalid JSON in request body";
                    "Missing account or product parameter";
                    "Invalid product price" ])
  /\ ConfirmPayment.POST net endpoints MERCHANT_WALLET (BodyJson confirm_body) w
     = (Ok (Some (ErrorResponse 400 "Missing signature or product" EmptyString)), w).
Proof.
  intros Hnull Hprice Hcnull Hmissing. split.
  - unfold SolanaPay.POST, try_catch, SolanaPay.POST_try.
    destruct req as [| | body].
    + eexists; eexists; split; [reflexivity | simpl; auto].
    + eexists; eexists; split; [reflexivity | simpl; auto].
    + assert (Hbody : destructure (St := route_state) body w = (Ok tt, w)).
      { destruct body; try discriminate; reflexivity. }
      unfold bind at 1. rewrite Hbody. unfold SolanaPay.POST_fields.
      destruct (negb (truthy (get_prop body "account"))
                || negb (truthy (get_prop body "product"))).
      * eexists; eexists; split; [reflexivity | simpl; auto].
      * simpl in Hprice.
        destruct (get_prop (get_prop body "product") "price") as [| | b | q | s | l | f];
          try (eexists; eexists; split; [reflexivity | simpl; auto 6]).
        simpl in Hprice. apply negb_false_iff in Hprice. rewrite Hprice.
        eexists; eexists; split; [reflexivity | simpl; auto 6].
  - unfold ConfirmPayment.POST, ConfirmPayment.POST_fuel, try_catch,
      ConfirmPayment.POST_try.
    assert (Hbody : destructure (St := route_state) confirm_body w = (Ok tt, w)).
    { destruct confirm_body; try discriminate; reflexivity. }
    unfold bind at 1. rewrite Hbody, Hmissing. reflexivity.
Qed.

(** Witness: an initiate-payment request for a free widget, and a
    confirm-payment request without a product. *)
Lemma non_positive_price_rejected_witness :
  (exists error details,
      SolanaPay.POST Examples.toy_sdk Examples.net_down RPC_ENDPOINTS Examples.merchant
        (Examples.pay_request (JNumber 0) JUndefined) Examples.fresh_route
        = (Ok (ErrorResponse 400 error details), Examples.fresh_route)
      /\ In error [ "Empty request body"; "Invalid JSON in request body";
                    "Missing account or product parameter";
                    "Invalid product price" ])
  /\ ConfirmPayment.POST Examples.net_down RPC_ENDPOINTS Examples.merchant
       (BodyJson (JObject [("signature", JString "5VERv8NMvzbJMEkV8xnrLkEaWRtSz9CosKDYjCJjBRnb")]))
       Examples.fresh_route
     = (Ok (Some (ErrorResponse 400 "Missing signature or product" EmptyString)),
        Examples.fresh_route).
Proof.
  apply (non_positive_price_rejected Examples.toy_sdk Examples.net_down RPC_ENDPOINTS
           Examples.merchant (Examples.pay_request (JNumber 0) JUndefined)
           (JObject [("signature", JString "5VERv8NMvzbJMEkV8xnrLkEaWRtSz9CosKDYjCJjBRnb")])
           Examples.fresh_route); reflexivity.
Defined.

(** C7 as stated fails for confirm-payment: a product priced -5 is not
    rejected; the receipt is recorded and the price is added to the total. *)
Lemma confirm_payment_accepts_negative_price :
  positive_number (price_of (Examples.confirm_request (JNumber (-5)))) = false
  /\ fst (ConfirmPayment.POST
            (Examples.net_up [Examples.shopper; Examples.merchant] Examples.nothing)
            RPC_ENDPOINTS Examples.merchant
            (Examples.confirm_request (JNumber (-5))) Examples.fresh_route)
     = Ok (Some (ConfirmResponse true (Some Examples.devnet)))
  /\ db (mem (snd (ConfirmPayment.POST
            (Examples.net_up [Examples.shopper; Examples.merchant] Examples.nothing)
            RPC_ENDPOINTS Examples.merchant
            (Examples.confirm_request (JNumber (-5))) Examples.fresh_route)))
     = mkDb [mkTransaction (toBase58 Examples.shopper) (JString "Widget")
                           (JNumber (-5))
                           "5VERv8NMvzbJMEkV8xnrLkEaWRtSz9CosKDYjCJjBRnb"
                           (17 * 1000) (Some "data:image/png;base64,AAAA")]
            (TNumber (-5)) 1.
Proof. repeat split; vm_compute; reflexivity. Qed.

(* ===================================================================== *)
(** ** C10: the default mint stands in for a missing or invalid one *)
(* ===================================================================== *)

Lemma getUsdcMint_run sdk v w :
  SolanaPay.getUsdcMint sdk v w =
    (match new_PublicKey sdk
             (if truthy v && SolanaPay.isValidSolanaAddress sdk v
              then v else JString SolanaPay.defaultMint) with
     | inr key => Ok key
     | inl e => Throw e
     end, w).
Proof.
  unfold SolanaPay.getUsdcMint, settle.
  destruct (truthy v && SolanaPay.isValidSolanaAddress sdk v);
    match goal with |- context [new_PublicKey sdk ?x] =>
      destruct (new_PublicKey sdk x) end; reflexivity.
Qed.

(** Case analysis on a scrutinee that contains no case analysis itself. *)
Ltac destruct_innermost :=
  match goal with
  | |- context [match ?x with _ => _ end] =>
      lazymatch x with
      | context [match _ with _ => _ end] => fail
      | _ => destruct x
      end
  end.




(* ===================================================================== *)
(** ** C9: the ledger is append-only and its totals follow it *)
(* ===================================================================== *)





Section Appends.

Context {A B : Type}.







End Appends.





















(* ===================================================================== *)
(** ** The balance/mint resolver *)
(* ===================================================================== *)

Section ResolverFacts.

Context {St : Type}.
Variable sdk : solana_sdk.
Variable net : network.
Variable connection : Connection.
Variable owner : PublicKey.

Let endpoint := rpcEndpoint connection.

(** One turn of method 1, case by case. *)
Lemma checkMint_run mintAddress (w : world St) :
  Page.checkMint sdk net connection owner mintAddress w =
    match new_PublicKey sdk (JString mintAddress) with
    | inl _ => (Ok None, logged w ("Error with mint " ++ mintAddress))
    | inr mintKey =>
    match getAssociatedTokenAddress sdk mintKey owner false with
    | inl _ => (Ok None, logged w ("Error with mint " ++ mintAddress))
    | inr ata =>
    let w1 := sent w connection [getAccountInfo ata] in
    match net_getAccountInfo net (clock w) endpoint ata with
    | inl _ => (Ok None, logged w1 ("Error with mint " ++ mintAddress))
    | inr None => (Ok None, w1)
    | inr (Some info) =>
        if 0 <? List.length (data info) then
          let w2 := sent w1 connection [getTokenAccountBalance ata] in
          match net_getTokenAccountBalance net (clock w1) endpoint ata with
          | inl _ => (Ok None, logged w2 ("Error getting balance for " ++ mintAddress))
          | inr held =>
              (Ok (option_map (fun q => Page.mkDetected q (Some mintAddress))
                              (Page.positive (uiAmount held))), w2)
          end
        else (Ok None, w1)
    end end end.
Proof.
  unfold Page.checkMint, try_catch. unfold bind at 1.
  destruct (new_PublicKey sdk (JString mintAddress)) as [e | mintKey];
    [reflexivity |].
  unfold settle at 1, ret at 1. unfold bind at 1.
  destruct (getAssociatedTokenAddress sdk mintKey owner false) as [e | ata];
    [reflexivity |].
  unfold settle at 1, ret at 1. unfold bind at 1. rewrite await_rpc_run.
  fold endpoint.
  destruct (net_getAccountInfo net (clock w) endpoint ata) as [e | [info |]];
    try reflexivity.
  destruct (0 <? List.length (data info)); [| reflexivity].
  unfold bind at 1. rewrite await_rpc_run. fold endpoint. cbv zeta.
  destruct (net_getTokenAccountBalance net
              (clock (sent w connection [getAccountInfo ata])) endpoint ata)
    as [e | held]; [reflexivity |].
  destruct (Page.positive (uiAmount held)); reflexivity.
Qed.

(** One account of method 2, case by case. *)
Lemma debugAccount_run pubkey (w : world St) :
  Page.debugAccount sdk net connection pubkey w =
    let w1 := sent w connection [getTokenAccountBalance pubkey] in
    match net_getTokenAccountBalance net (clock w) endpoint pubkey with
    | inl _ => (Ok None, logged w1 "Error getting balance")
    | inr held =>
        match Page.positive (uiAmount held) with
        | None => (Ok None, w1)
        | Some q =>
            let w2 := sent w1 connection [getAccountInfo pubkey] in
            match net_getAccountInfo net (clock w1) endpoint pubkey with
            | inl _ => (Ok None, logged w2 "Could not get mint info")
            | inr None => (Ok None, w2)
            | inr (Some info) =>
                if 32 <=? List.length (data info) then
                  match PublicKey_of_bytes sdk (firstn 32 (data info)) with
                  | inr mintKey =>
                      (Ok (Some (Page.mkDebug q (Some (toBase58 mintKey))
                                              (Some (toBase58 pubkey)))), w2)
                  | inl _ => (Ok None, logged w2 "Could not get mint info")
                  end
                else (Ok None, w2)
            end
        end
    end.
Proof.
  unfold Page.debugAccount, try_catch. unfold bind at 1. rewrite await_rpc_run.
  fold endpoint. cbv zeta.
  destruct (net_getTokenAccountBalance net (clock w) endpoint pubkey)
    as [e | held]; [reflexivity |].
  destruct (Page.positive (uiAmount held)) as [q |]; [| reflexivity].
  unfold bind at 1. rewrite await_rpc_run. fold endpoint.
  destruct (net_getAccountInfo net
              (clock (sent w connection [getTokenAccountBalance pubkey]))
              endpoint pubkey) as [e | [info |]]; try reflexivity.
  destruct (32 <=? List.length (data info)); [| reflexivity].
  unfold bind at 1, settle.
  destruct (PublicKey_of_bytes sdk (firstn 32 (data info))); reflexivity.
Qed.

(** One account of method 3, case by case. *)
Lemma checkProgramAccount_run pubkey account (w : world St) :
  Page.checkProgramAccount sdk net connection (pubkey, account) w =
    let w1 := sent w connection [getTokenAccountBalance pubkey] in
    match net_getTokenAccountBalance net (clock w) endpoint pubkey with
    | inl _ => (Ok None, logged w1 ("Error checking program account " ++ toBase58 pubkey))
    | inr held =>
        match Page.positive (uiAmount held) with
        | None => (Ok None, w1)
        | Some q =>
            match PublicKey_of_bytes sdk (firstn 32 (data account)) with
            | inr mintKey =>
                (Ok (Some (Page.mkDetected q (Some (toBase58 mintKey)))), w1)
            | inl _ =>
                (Ok None, logged w1 ("Error checking program account " ++ toBase58 pubkey))
            end
        end
    end.
Proof.
  unfold Page.checkProgramAccount, try_catch. unfold bind at 1.
  rewrite await_rpc_run. fold endpoint. cbv zeta.
  destruct (net_getTokenAccountBalance net (clock w) endpoint pubkey)
    as [e | held]; [reflexivity |].
  destruct (Page.positive (uiAmount held)) as [q |]; [| reflexivity].
  unfold bind at 1, settle.
  destruct (PublicKey_of_bytes sdk (firstn 32 (data account))); reflexivity.
Qed.

Lemma checkKnownMints_cons mintAddress rest (w : world St) :
  Page.checkKnownMints sdk net connection owner (mintAddress :: rest) w =
    match Page.checkMint sdk net connection owner mintAddress w with
    | (Ok (Some found), w') => (Ok (Some found), w')
    | (Ok None, w') => Page.checkKnownMints sdk net connection owner rest w'
    | (Throw e, w') => (Throw e, w')
    end.
Proof.
  simpl. unfold bind.
  destruct (Page.checkMint sdk net connection owner mintAddress w)
    as [[[found |] | e] w']; reflexivity.
Qed.

Lemma debugAccounts_cons pubkey account rest (w : world St) :
  Page.debugAccounts sdk net connection ((pubkey, account) :: rest) w =
    match Page.debugAccount sdk net connection pubkey w with
    | (Ok (Some found), w') => (Ok (Some found), w')
    | (Ok None, w') => Page.debugAccounts sdk net connection rest w'
    | (Throw e, w') => (Throw e, w')
    end.
Proof.
  simpl. unfold bind.
  destruct (Page.debugAccount sdk net connection pubkey w)
    as [[[found |] | e] w']; reflexivity.
Qed.

Lemma checkProgramAccounts_cons entry rest (w : world St) :
  Page.checkProgramAccounts sdk net connection (entry :: rest) w =
    match Page.checkProgramAccount sdk net connection entry w with
    | (Ok (Some found), w') => (Ok (Some found), w')
    | (Ok None, w') => Page.checkProgramAccounts sdk net connection rest w'
    | (Throw e, w') => (Throw e, w')
    end.
Proof.
  simpl. unfold bind.
  destruct (Page.checkProgramAccount sdk net connection entry w)
    as [[[found |] | e] w']; reflexivity.
Qed.

Lemma checkKnownMints_app pre l (w w1 : world St) :
  Page.checkKnownMints sdk net connection owner pre w = (Ok None, w1) ->
  Page.checkKnownMints sdk net connection owner (pre ++ l) w
  = Page.checkKnownMints sdk net connection owner l w1.
Proof.
  revert w. induction pre as [| mintAddress pre IH]; intros w H.
  - simpl in H. unfold ret in H. inversion H. reflexivity.
  - rewrite <- app_comm_cons. rewrite checkKnownMints_cons in *.
    destruct (Page.checkMint sdk net connection owner mintAddress w)
      as [[[found |] | e] w']; try discriminate.
    apply IH. exact H.
Qed.

(** No turn and no phase throws. *)
Lemma checkMint_never_throws mintAddress (w : world St) :
  exists r w', Page.checkMint sdk net connection owner mintAddress w = (Ok r, w').
Proof.
  rewrite checkMint_run. cbv zeta.
  repeat destruct_innermost; eexists; eexists; reflexivity.
Qed.

Lemma debugAccount_never_throws pubkey (w : world St) :
  exists r w', Page.debugAccount sdk net connection pubkey w = (Ok r, w').
Proof.
  rewrite debugAccount_run. cbv zeta.
  repeat destruct_innermost; eexists; eexists; reflexivity.
Qed.

Lemma checkProgramAccount_never_throws entry (w : world St) :
  exists r w', Page.checkProgramAccount sdk net connection entry w = (Ok r, w').
Proof.
  destruct entry as [pubkey account]. rewrite checkProgramAccount_run. cbv zeta.
  repeat destruct_innermost; eexists; eexists; reflexivity.
Qed.

Lemma checkKnownMints_never_throws mints (w : world St) :
  exists r w', Page.checkKnownMints sdk net connection owner mints w = (Ok r, w').
Proof.
  revert w. induction mints as [| m rest IH]; intros w.
  - exists None, w. reflexivity.
  - rewrite checkKnownMints_cons.
    destruct (checkMint_never_throws m w) as ([found |] & w' & H); rewrite H.
    + eexists; eexists; reflexivity.
    + apply IH.
Qed.

Lemma debugAccounts_never_throws accounts (w : world St) :
  exists r w', Page.debugAccounts sdk net connection accounts w = (Ok r, w').
Proof.
  revert w. induction accounts as [| [pubkey account] rest IH]; intros w.
  - exists None, w. reflexivity.
  - rewrite debugAccounts_cons.
    destruct (debugAccount_never_throws pubkey w) as ([found |] & w' & H); rewrite H.
    + eexists; eexists; reflexivity.
    + apply IH.
Qed.

Lemma checkProgramAccounts_never_throws accounts (w : world St) :
  exists r w', Page.checkProgramAccounts sdk net connection accounts w = (Ok r, w').
Proof.
  revert w. induction accounts as [| entry rest IH]; intros w.
  - exists None, w. reflexivity.
  - rewrite checkProgramAccounts_cons.
    destruct (checkProgramAccount_never_throws entry w) as ([found |] & w' & H);
      rewrite H.
    + eexists; eexists; reflexivity.
    + apply IH.
Qed.

Lemma debugWalletTokens_never_throws userAddress (w : world St) :
  exists r w', Page.debugWalletTokens sdk net connection userAddress w = (Ok r, w').
Proof.
  unfold Page.debugWalletTokens, try_catch.
  match goal with |- context [match ?m w with _ => _ end] =>
    destruct (m w) as [[r | e] w'] end;
    eexists; eexists; reflexivity.
Qed.

Lemma scanAllTokenAccounts_never_throws (w : world St) :
  exists r w', Page.scanAllTokenAccounts sdk net connection owner w = (Ok r, w').
Proof.
  unfold Page.scanAllTokenAccounts, bind.
  destruct (debugWalletTokens_never_throws (toBase58 owner) w) as (r & w' & H).
  rewrite H.
  repeat destruct_innermost; eexists; eexists; reflexivity.
Qed.

Lemma queryProgramAccounts_never_throws (w : world St) :
  exists r w', Page.queryProgramAccounts sdk net connection owner w = (Ok r, w').
Proof.
  unfold Page.queryProgramAccounts, try_catch.
  match goal with |- context [match ?m w with _ => _ end] =>
    destruct (m w) as [[r | e] w'] end;
    eexists; eexists; reflexivity.
Qed.

(** The plan of the three methods. *)
Lemma detect_with_plan mints (w : world St) :
  Page.detect_with sdk net connection owner mints w =
    match Page.checkKnownMints sdk net connection owner mints
                               (logged w Page.banner1) with
    | (Ok (Some found), w1) => (Ok found, w1)
    | (Ok None, w1) =>
        match Page.scanAllTokenAccounts sdk net connection owner
                                        (logged w1 Page.banner2) with
        | (Ok (Some found), w2) => (Ok found, w2)
        | (Ok None, w2) =>
            match Page.queryProgramAccounts sdk net connection owner
                                            (logged w2 Page.banner3) with
            | (Ok (Some found), w3) => (Ok found, w3)
            | (Ok None, w3) => (Ok Page.NotFound, w3)
            | (Throw _, w3) =>
                (Ok Page.NotFound, logged w3 "Error detecting USDC balance")
            end
        | (Throw _, w2) =>
            (Ok Page.NotFound, logged w2 "Error detecting USDC balance")
        end
    | (Throw _, w1) => (Ok Page.NotFound, logged w1 "Error detecting USDC balance")
    end.
Proof.
  unfold Page.detect_with, Page.detect_try, try_catch, console_log.
  unfold bind at 1. unfold emit at 1. fold (logged w Page.banner1).
  unfold bind at 1.
  destruct (Page.checkKnownMints sdk net connection owner mints
              (logged w Page.banner1)) as [[[found |] | e] w1]; try reflexivity.
  unfold bind at 1. unfold emit at 1. fold (logged w1 Page.banner2).
  unfold bind at 1.
  destruct (Page.scanAllTokenAccounts sdk net connection owner
              (logged w1 Page.banner2)) as [[[found |] | e] w2]; try reflexivity.
  unfold bind at 1. unfold emit at 1. fold (logged w2 Page.banner3).
  unfold bind at 1.
  destruct (Page.queryProgramAccounts sdk net connection owner
              (logged w2 Page.banner3)) as [[[found |] | e] w3]; reflexivity.
Qed.

End ResolverFacts.

Section ZeroHoldings.

Context {St : Type}.
Variable sdk : solana_sdk.
Variable net : network.
Variable connection : Connection.
Variable owner : PublicKey.

(** No balance lookup that is answered shows a positive amount. *)
Hypothesis zero_holdings :
  forall t e a held,
    net_getTokenAccountBalance net t e a = inr held ->
    Page.positive (uiAmount held) = None.

Lemma checkMint_zero m (w : world St) :
  exists w', Page.checkMint sdk net connection owner m w = (Ok None, w').
Proof.
  rewrite checkMint_run. cbv zeta.
  destruct (new_PublicKey sdk (JString m)) as [e | mintKey]; [eauto |].
  destruct (getAssociatedTokenAddress sdk mintKey owner false) as [e | ata];
    [eauto |].
  destruct (net_getAccountInfo net (clock w) (rpcEndpoint connection) ata)
    as [e | [info |]]; eauto.
  destruct (0 <? List.length (data info)); eauto.
  destruct (net_getTokenAccountBalance net _ (rpcEndpoint connection) ata)
    as [e | held] eqn:Hheld; eauto.
  rewrite (zero_holdings _ _ _ _ Hheld). simpl. eauto.
Qed.

Lemma debugAccount_zero pubkey (w : world St) :
  exists w', Page.debugAccount sdk net connection pubkey w = (Ok None, w').
Proof.
  rewrite debugAccount_run. cbv zeta.
  destruct (net_getTokenAccountBalance net (clock w) (rpcEndpoint connection) pubkey)
    as [e | held] eqn:Hheld; eauto.
  rewrite (zero_holdings _ _ _ _ Hheld). eauto.
Qed.

Lemma checkProgramAccount_zero entry (w : world St) :
  exists w', Page.checkProgramAccount sdk net connection entry w = (Ok None, w').
Proof.
  destruct entry as [pubkey account]. rewrite checkProgramAccount_run. cbv zeta.
  destruct (net_getTokenAccountBalance net (clock w) (rpcEndpoint connection) pubkey)
    as [e | held] eqn:Hheld; eauto.
  rewrite (zero_holdings _ _ _ _ Hheld). eauto.
Qed.

Lemma checkKnownMints_zero mints (w : world St) :
  exists w', Page.checkKnownMints sdk net connection owner mints w = (Ok None, w').
Proof.
  revert w. induction mints as [| m rest IH]; intros w.
  - exists w. reflexivity.
  - rewrite checkKnownMints_cons.
    destruct (checkMint_zero m w) as (w' & ->). apply IH.
Qed.

Lemma debugAccounts_zero accounts (w : world St) :
  exists w', Page.debugAccounts sdk net connection accounts w = (Ok None, w').
Proof.
  revert w. induction accounts as [| [pubkey account] rest IH]; intros w.
  - exists w. reflexivity.
  - rewrite debugAccounts_cons.
    destruct (debugAccount_zero pubkey w) as (w' & ->). apply IH.
Qed.

Lemma checkProgramAccounts_zero accounts (w : world St) :
  exists w', Page.checkProgramAccounts sdk net connection accounts w = (Ok None, w').
Proof.
  revert w. induction accounts as [| entry rest IH]; intros w.
  - exists w. reflexivity.
  - rewrite checkProgramAccounts_cons.
    destruct (checkProgramAccount_zero entry w) as (w' & ->). apply IH.
Qed.

Lemma debugWalletTokens_zero userAddress (w : world St) :
  exists w',
    Page.debugWalletTokens sdk net connection userAddress w
    = (Ok (Page.mkDebug 0 None None), w').
Proof.
  unfold Page.debugWalletTokens, try_catch.
  unfold bind at 1.
  destruct (settle (new_PublicKey sdk (JString userAddress)) w)
    as [[userPublicKey | e] w1]; [| eexists; reflexivity].
  unfold bind at 1.
  destruct (await_rpc connection (getBalance userPublicKey) _ w1)
    as [[lamports | e] w2]; [| eexists; reflexivity].
  unfold bind at 1.
  destruct (settle (new_PublicKey sdk (JString Page.TOKEN_PROGRAM)) w2)
    as [[programId | e] w3]; [| eexists; reflexivity].
  unfold bind at 1.
  destruct (await_rpc connection (getTokenAccountsByOwner userPublicKey) _ w3)
    as [[tokenAccounts | e] w4]; [| eexists; reflexivity].
  unfold bind at 1.
  destruct (debugAccounts_zero tokenAccounts w4) as (w5 & ->).
  eexists; reflexivity.
Qed.

Lemma scanAllTokenAccounts_zero (w : world St) :
  exists w', Page.scanAllTokenAccounts sdk net connection owner w = (Ok None, w').
Proof.
  unfold Page.scanAllTokenAccounts, bind.
  destruct (debugWalletTokens_zero (toBase58 owner) w) as (w' & ->).
  eexists; reflexivity.
Qed.

Lemma queryProgramAccounts_zero (w : world St) :
  exists w', Page.queryProgramAccounts sdk net connection owner w = (Ok None, w').
Proof.
  unfold Page.queryProgramAccounts, try_catch.
  unfold bind at 1.
  destruct (settle (new_PublicKey sdk (JString Page.TOKEN_PROGRAM)) w)
    as [[programId | e] w1]; [| eexists; reflexivity].
  unfold bind at 1.
  destruct (await_rpc connection (getProgramAccounts owner) _ w1)
    as [[programAccounts | e] w2]; [| eexists; reflexivity].
  destruct (checkProgramAccounts_zero programAccounts w2) as (w3 & ->).
  eexists; reflexivity.
Qed.

Lemma detect_with_zero mints (w : world St) :
  exists w', Page.detect_with sdk net connection owner mints w = (Ok Page.NotFound, w').
Proof.
  rewrite detect_with_plan.
  destruct (checkKnownMints_zero mints (logged w Page.banner1)) as (w1 & ->).
  destruct (scanAllTokenAccounts_zero (logged w1 Page.banner2)) as (w2 & ->).
  destruct (queryProgramAccounts_zero (logged w2 Page.banner3)) as (w3 & ->).
  eexists; reflexivity.
Qed.

End ZeroHoldings.

Lemma detect_try_never_throws {St} sdk net connection owner mints (w : world St) :
  exists r w', Page.detect_try sdk net connection owner mints w = (Ok r, w').
Proof.
  unfold Page.detect_try, console_log.
  unfold bind at 1. unfold emit at 1. unfold bind at 1.
  destruct (checkKnownMints_never_throws sdk net connection owner mints
              (mkWorld (clock w) (trace w ++ [Log Page.banner1]) (mem w)))
    as ([found |] & w1 & ->); [eexists; eexists; reflexivity |].
  unfold bind at 1. unfold emit at 1. unfold bind at 1.
  destruct (scanAllTokenAccounts_never_throws sdk net connection owner
              (mkWorld (clock w1) (trace w1 ++ [Log Page.banner2]) (mem w1)))
    as ([found |] & w2 & ->); [eexists; eexists; reflexivity |].
  unfold bind at 1. unfold emit at 1. unfold bind at 1.
  destruct (queryProgramAccounts_never_throws sdk net connection owner
              (mkWorld (clock w2) (trace w2 ++ [Log Page.banner3]) (mem w2)))
    as ([found |] & w3 & ->); eexists; eexists; reflexivity.
Qed.

Lemma positive_is_positive held q : Page.positive held = Some q -> (0 < q)%Q.
Proof.
  unfold Page.positive. destruct held as [q' |]; [| discriminate].
  destruct (Qle_bool q' 0) eqn:Hle; [discriminate |].
  intros H. inversion H. subst q'.
  apply Qnot_le_lt. intros Hq. apply Qle_bool_iff in Hq. congruence.
Qed.

(* ===================================================================== *)
(** ** C2: the first candidate with a balance wins; the phases in order *)
(* ===================================================================== *)

(** C2.  Let the candidates [pre] have been looked up without showing a
    balance, and let the next candidate [m] have a holding account that
    exists, with a balance [q > 0].  Then the resolver returns [q] and [m],
    and its last call is the balance lookup of [m]: the candidates [post]
    and the two later methods are not attempted, whatever they hold.  In
    general the three methods run in the order known candidates, scan of
    the owned token accounts, filtered query, each on the world the one
    before left behind, and a method that finds a balance ends the
    resolution there. *)
Theorem first_nonzero_candidate_wins
    (St : Type) sdk net connection owner pre m post mints (w w1 : world St)
    mintKey ata info held q :
  Page.checkKnownMints sdk net connection owner pre (logged w Page.banner1)
    = (Ok None, w1) ->
  new_PublicKey sdk (JString m) = inr mintKey ->
  getAssociatedTokenAddress sdk mintKey owner false = inr ata ->
  net_getAccountInfo net (clock w1) (rpcEndpoint connection) ata = inr (Some info) ->
  0 < List.length (data info) ->
  net_getTokenAccountBalance net (S (clock w1)) (rpcEndpoint connection) ata
    = inr held ->
  Page.positive (uiAmount held) = Some q ->
  Page.detect_with sdk net connection owner (pre ++ m :: post) w
    = (Ok (Page.mkDetected q (Some m)),
       sent (sent w1 connection [getAccountInfo ata]) connection
            [getTokenAccountBalance ata])
  /\ (0 < q)%Q
  /\ Page.detect_with sdk net connection owner mints w =
      match Page.checkKnownMints sdk net connection owner mints
                                 (logged w Page.banner1) with
      | (Ok (Some found), w1) => (Ok found, w1)
      | (Ok None, w1) =>
          match Page.scanAllTokenAccounts sdk net connection owner
                                          (logged w1 Page.banner2) with
          | (Ok (Some found), w2) => (Ok found, w2)
          | (Ok None, w2) =>
              match Page.queryProgramAccounts sdk net connection owner
                                              (logged w2 Page.banner3) with
              | (Ok (Some found), w3) => (Ok found, w3)
              | (Ok None, w3) => (Ok Page.NotFound, w3)
              | (Throw _, w3) =>
                  (Ok Page.NotFound, logged w3 "Error detecting USDC balance")
              end
          | (Throw _, w2) =>
              (Ok Page.NotFound, logged w2 "Error detecting USDC balance")
          end
      | (Throw _, w1) => (Ok Page.NotFound, logged w1 "Error detecting USDC balance")
      end.
Proof.
  intros Hpre Hkey Hata Hinfo Hdata Hheld Hq.
  split; [| split; [exact (positive_is_positive _ _ Hq) | apply detect_with_plan]].
  rewrite detect_with_plan.
  rewrite (checkKnownMints_app sdk net connection owner pre (m :: post) _ _ Hpre).
  rewrite checkKnownMints_cons, checkMint_run, Hkey, Hata. cbv zeta.
  rewrite Hinfo. apply Nat.ltb_lt in Hdata. rewrite Hdata.
  change (clock (sent w1 connection [getAccountInfo ata])) with (S (clock w1)).
  rewrite Hheld, Hq. reflexivity.
Qed.

(** Witness: the shopper holds nothing of the first known mint, 3 of the
    second and 9 of the third; the resolver answers 3 of the second. *)
Lemma first_nonzero_candidate_wins_witness :
  fst (Page.detectUsdcBalanceAndMint Examples.toy_sdk
         (Examples.net_up [] Examples.two_holdings)
         (mkConnection Examples.devnet) Examples.shopper Examples.fresh_page)
  = Ok (Page.mkDetected 3 (Some Examples.alt_usdc)).
Proof.
  unfold Page.detectUsdcBalanceAndMint.
  change POTENTIAL_USDC_MINTS
    with ([Examples.circle_usdc] ++ Examples.alt_usdc ::
          ["EPjFWdd5AufqSSqeM2qN1xzybapC8G4wEGGkZwyTDt1v"]).
  rewrite (proj1 (first_nonzero_candidate_wins Page.page_state Examples.toy_sdk
    (Examples.net_up [] Examples.two_holdings) (mkConnection Examples.devnet)
    Examples.shopper [Examples.circle_usdc] Examples.alt_usdc
    ["EPjFWdd5AufqSSqeM2qN1xzybapC8G4wEGGkZwyTDt1v"] []
    Examples.fresh_page
    (snd (Page.checkKnownMints Examples.toy_sdk
            (Examples.net_up [] Examples.two_holdings)
            (mkConnection Examples.devnet) Examples.shopper
            [Examples.circle_usdc] (logged Examples.fresh_page Page.banner1)))
    (mkKey Examples.alt_usdc)
    (mkKey (toBase58 Examples.shopper ++ "/" ++ Examples.alt_usdc))
    (mkAccountInfo (repeat Byte.x01 165))
    (mkTokenAmount (Some 3%Q) 6) 3%Q
    eq_refl eq_refl eq_refl eq_refl
    ltac:(vm_compute; lia) eq_refl eq_refl)).
  reflexivity.
Defined.

(* ===================================================================== *)
(** ** C5: nothing held is "not found", and failures are passed over *)
(* ===================================================================== *)

(** C5.  When no balance lookup that is answered shows a positive amount,
    the resolver returns NotFound (balance 0, no mint).  On any network the
    body of the resolver ends without throwing, so no error reaches the
    caller.  A rejected account lookup or balance lookup for a known mint, a
    rejected balance lookup for an account of the scan or of the filtered
    query, is logged and the loop goes on with the next mint or account. *)
Theorem resolver_not_found_never_throws
    (St : Type) sdk net connection owner mints (w : world St)
    m rest mintKey ata pubkey account accounts :
  (forall t e a held,
      net_getTokenAccountBalance net t e a = inr held ->
      Page.positive (uiAmount held) = None) ->
  new_PublicKey sdk (JString m) = inr mintKey ->
  getAssociatedTokenAddress sdk mintKey owner false = inr ata ->
  (exists w', Page.detect_with sdk net connection owner mints w
              = (Ok Page.NotFound, w'))
  /\ (forall net', exists r w',
         Page.detect_try sdk net' connection owner mints w = (Ok r, w'))
  /\ match net_getAccountInfo net (clock w) (rpcEndpoint connection) ata with
     | inl _ =>
         Page.checkKnownMints sdk net connection owner (m :: rest) w
         = Page.checkKnownMints sdk net connection owner rest
             (logged (sent w connection [getAccountInfo ata]) ("Error with mint " ++ m))
     | inr (Some info) =>
         if 0 <? List.length (data info) then
           match net_getTokenAccountBalance net (S (clock w))
                                            (rpcEndpoint connection) ata with
           | inl _ =>
               Page.checkKnownMints sdk net connection owner (m :: rest) w
               = Page.checkKnownMints sdk net connection owner rest
                   (logged (sent (sent w connection [getAccountInfo ata]) connection
                                 [getTokenAccountBalance ata])
                           ("Error getting balance for " ++ m))
           | inr _ => True
           end
         else True
     | inr None => True
     end
  /\ match net_getTokenAccountBalance net (clock w) (rpcEndpoint connection) pubkey with
     | inl _ =>
         Page.debugAccounts sdk net connection ((pubkey, account) :: accounts) w
         = Page.debugAccounts sdk net connection accounts
             (logged (sent w connection [getTokenAccountBalance pubkey])
                     "Error getting balance")
         /\ Page.checkProgramAccounts sdk net connection
                                      ((pubkey, account) :: accounts) w
            = Page.checkProgramAccounts sdk net connection accounts
                (logged (sent w connection [getTokenAccountBalance pubkey])
                        ("Error checking program account " ++ toBase58 pubkey))
     | inr _ => True
     end.
Proof.
  intros Hzero Hkey Hata. repeat split.
  - apply detect_with_zero. exact Hzero.
  - intros net'. apply detect_try_never_throws.
  - destruct (net_getAccountInfo net (clock w) (rpcEndpoint connection) ata)
      as [e | [info |]] eqn:Hinfo; [| | exact I].
    + rewrite checkKnownMints_cons, checkMint_run, Hkey, Hata. cbv zeta.
      rewrite Hinfo. reflexivity.
    + destruct (0 <? List.length (data info)) eqn:Hdata; [| exact I].
      destruct (net_getTokenAccountBalance net (S (clock w))
                  (rpcEndpoint connection) ata) as [e | held] eqn:Hheld; [| exact I].
      rewrite checkKnownMints_cons, checkMint_run, Hkey, Hata. cbv zeta.
      rewrite Hinfo, Hdata.
      change (clock (sent w connection [getAccountInfo ata])) with (S (clock w)).
      rewrite Hheld. reflexivity.
  - destruct (net_getTokenAccountBalance net (clock w) (rpcEndpoint connection) pubkey)
      as [e | held] eqn:Hheld; [| exact I].
    split.
    + rewrite debugAccounts_cons, debugAccount_run. cbv zeta.
      rewrite Hheld. reflexivity.
    + rewrite checkProgramAccounts_cons, checkProgramAccount_run. cbv zeta.
      rewrite Hheld. reflexivity.
Qed.

(** Witness: a shopper who holds nothing, on a network that answers. *)
Lemma resolver_not_found_never_throws_witness :
  exists w',
    Page.detect_with Examples.toy_sdk (Examples.net_up [] Examples.nothing)
      (mkConnection Examples.devnet) Examples.shopper POTENTIAL_USDC_MINTS
      Examples.fresh_page = (Ok Page.NotFound, w').
Proof.
  refine (proj1 (resolver_not_found_never_throws Page.page_state Examples.toy_sdk
    (Examples.net_up [] Examples.nothing) (mkConnection Examples.devnet)
    Examples.shopper POTENTIAL_USDC_MINTS Examples.fresh_page
    Examples.circle_usdc [] (mkKey Examples.circle_usdc)
    (mkKey (toBase58 Examples.shopper ++ "/" ++ Examples.circle_usdc))
    Examples.stranger (mkAccountInfo []) []
    _ eq_refl eq_refl)).
  intros t e a held H. inversion H. reflexivity.
Defined.

(** On a network that rejects every call each failure is logged and the
    resolution goes on to the next mint and the next method. *)
Example resolver_on_dead_network :
  Page.detectUsdcBalanceAndMint Examples.toy_sdk Examples.net_down
    (mkConnection Examples.devnet) Examples.shopper Examples.fresh_page
  = (Ok Page.NotFound,
     mkWorld 5
       [Log Page.banner1;
        Rpc 0 Examples.devnet
            (getAccountInfo (mkKey (toBase58 Examples.shopper ++ "/" ++ Examples.circle_usdc)));
        Log ("Error with mint " ++ Examples.circle_usdc);
        Rpc 1 Examples.devnet
            (getAccountInfo (mkKey (toBase58 Examples.shopper ++ "/" ++ Examples.alt_usdc)));
        Log ("Error with mint " ++ Examples.alt_usdc);
        Rpc 2 Examples.devnet
            (getAccountInfo
               (mkKey (toBase58 Examples.shopper ++ "/"
                       ++ "EPjFWdd5AufqSSqeM2qN1xzybapC8G4wEGGkZwyTDt1v")));
        Log "Error with mint EPjFWdd5AufqSSqeM2qN1xzybapC8G4wEGGkZwyTDt1v";
        Log Page.banner2;
        Rpc 3 Examples.devnet (getBalance Examples.shopper);
        Log "Debug wallet tokens failed";
        Log Page.banner3;
        Rpc 4 Examples.devnet (getProgramAccounts Examples.shopper);
        Log "Program accounts method failed"]
       (Page.mkPage None)).
Proof. vm_compute. reflexivity. Qed.

(* ===================================================================== *)
(** ** Relations kept along a computation *)
(* ===================================================================== *)

Section Steps.

Context {St : Type}.
Variable R : world St -> world St -> Prop.
Hypothesis R_refl : forall w, R w w.
Hypothesis R_trans : forall w1 w2 w3, R w1 w2 -> R w2 w3 -> R w1 w3.

Lemma steps_ret {A} (a : A) : steps R (ret a).
Proof. intros w. apply R_refl. Qed.

Lemma steps_throw {A} e : steps R (throw (A := A) e).
Proof. intros w. apply R_refl. Qed.

Lemma steps_settle {A} (r : jsError + A) : steps R (settle r).
Proof. destruct r; intros w; apply R_refl. Qed.

Lemma steps_now : steps R now.
Proof. intros w. apply R_refl. Qed.

Lemma steps_get_mem : steps R get_mem.
Proof. intros w. apply R_refl. Qed.

Lemma steps_destructure body : steps R (destructure body).
Proof. destruct body; intros w; apply R_refl. Qed.

Lemma steps_bind {A B} (m : M St A) (f : A -> M St B) :
  steps R m -> (forall a, steps R (f a)) -> steps R (bind m f).
Proof.
  intros Hm Hf w. unfold bind. specialize (Hm w).
  destruct (m w) as [[a | e] w1]; simpl in *; [| exact Hm].
  eapply R_trans; [exact Hm | apply Hf].
Qed.

Lemma steps_try_catch {A} (m : M St A) (h : jsError -> M St A) :
  steps R m -> (forall e, steps R (h e)) -> steps R (try_catch m h).
Proof.
  intros Hm Hh w. unfold try_catch. specialize (Hm w).
  destruct (m w) as [[a | e] w1]; simpl in *; [exact Hm |].
  eapply R_trans; [exact Hm | apply Hh].
Qed.

(** What is left to show for a relation: the steps that change the
    clock or the trace. *)
Hypothesis R_emit : forall ev, steps R (emit ev).
Hypothesis R_tick : steps R tick.

Lemma steps_await_rpc {A} c call (reply : nat -> string -> jsError + A) :
  (forall t, steps R (emit (Rpc t (rpcEndpoint c) call))) ->
  steps R (await_rpc c call reply).
Proof.
  intros He. unfold await_rpc.
  apply steps_bind; [apply steps_now | intros t].
  apply steps_bind; [apply He | intros _].
  apply steps_bind; [apply R_tick | intros _].
  apply steps_settle.
Qed.

Lemma steps_await_all2 {A B} c call1 (reply1 : nat -> string -> jsError + A)
    call2 (reply2 : nat -> string -> jsError + B) :
  steps R (await_all2 c call1 reply1 call2 reply2).
Proof.
  unfold await_all2.
  apply steps_bind; [apply steps_now | intros t].
  apply steps_bind; [apply R_emit | intros _].
  apply steps_bind; [apply R_emit | intros _].
  apply steps_bind; [apply R_tick | intros _].
  apply steps_bind; [apply steps_settle | intros a].
  apply steps_bind; [apply steps_settle | intros b].
  apply steps_ret.
Qed.

Lemma steps_new_Connection endpoint : steps R (new_Connection endpoint).
Proof.
  unfold new_Connection.
  apply steps_bind; [apply R_emit | intros _].
  destruct (assertEndpointUrl endpoint); [apply steps_ret | apply steps_throw].
Qed.

End Steps.



Lemma same_mem_refl {St} (w : world St) : same_mem w w.
Proof. reflexivity. Qed.

Lemma same_mem_trans {St} (w1 w2 w3 : world St) :
  same_mem w1 w2 -> same_mem w2 w3 -> same_mem w1 w3.
Proof. unfold same_mem. congruence. Qed.

Lemma stays_coherent_refl w : stays_coherent w w.
Proof. intros H. exact H. Qed.

Lemma stays_coherent_trans w1 w2 w3 :
  stays_coherent w1 w2 -> stays_coherent w2 w3 -> stays_coherent w1 w3.
Proof. unfold stays_coherent. auto. Qed.

Lemma emits_only_refl {St} P (w : world St) : emits_only P w w.
Proof. exists []. split; [rewrite app_nil_r; reflexivity | constructor]. Qed.

Lemma emits_only_trans {St} P (w1 w2 w3 : world St) :
  emits_only P w1 w2 -> emits_only P w2 w3 -> emits_only P w1 w3.
Proof.
  intros (d1 & H1 & F1) (d2 & H2 & F2). exists (d1 ++ d2). split.
  - rewrite H2, H1, app_assoc. reflexivity.
  - apply Forall_app. split; assumption.
Qed.

Lemma emits_only_emit {St} (P : event -> Prop) ev :
  P ev -> steps (St := St) (emits_only P) (emit ev).
Proof. intros H w. exists [ev]. split; [reflexivity | repeat constructor; exact H]. Qed.

Lemma emits_only_tick {St} (P : event -> Prop) : steps (St := St) (emits_only P) tick.
Proof. intros w. exists []. split; [simpl; rewrite app_nil_r; reflexivity | constructor]. Qed.

Lemma emits_only_set_mem {St} (P : event -> Prop) (s : St) :
  steps (emits_only P) (set_mem s).
Proof. intros w. exists []. split; [simpl; rewrite app_nil_r; reflexivity | constructor]. Qed.

Lemma emits_only_weaken {St} (P Q : event -> Prop) (w w' : world St) :
  (forall ev, P ev -> Q ev) -> emits_only P w w' -> emits_only Q w w'.
Proof.
  intros HPQ (d & H & F). exists d. split; [exact H |].
  eapply Forall_impl; [exact HPQ | exact F].
Qed.




Lemma same_mem_emit {St} ev : steps (St := St) same_mem (emit ev).
Proof. intros w. reflexivity. Qed.

Lemma same_mem_tick {St} : steps (St := St) same_mem tick.
Proof. intros w. reflexivity. Qed.

Lemma stays_coherent_emit ev : steps stays_coherent (emit ev).
Proof. intros w H. exact H. Qed.

Lemma stays_coherent_tick : steps stays_coherent tick.
Proof. intros w H. exact H. Qed.

Lemma assertEndpointUrl_nonempty e :
  assertEndpointUrl e = true -> String.eqb e EmptyString = false.
Proof. destruct e; [discriminate | reflexivity]. Qed.

Lemma coherent_cache_is_set s :
  coherent s -> Selector.cache_is_set s = cachedConnection s
                /\ cachedEndpoint s = option_map rpcEndpoint (cachedConnection s).
Proof.
  unfold coherent, Selector.cache_is_set.
  destruct (cachedConnection s) as [c |], (cachedEndpoint s) as [e |];
    try contradiction; [| auto].
  intros [Hc He]. rewrite (assertEndpointUrl_nonempty _ He). subst e. auto.
Qed.

(* ===================================================================== *)
(** ** The cache slot of the API selectors *)
(* ===================================================================== *)

Lemma tryEndpoints_dual_slot net l w :
  cachedConnection (mem w) = None ->
  cachedEndpoint (mem w) = None ->
  exists r w',
    Selector.tryEndpoints (probe_slot_and_version net) l w = (Ok r, w')
    /\ coherent (mem w')
    /\ cachedConnection (mem w') = r
    /\ cachedEndpoint (mem w') = option_map rpcEndpoint r.
Proof.
  revert w. induction l as [| e rest IH]; intros w Hc He.
  - exists None, w. unfold coherent. rewrite Hc, He. repeat split; reflexivity.
  - rewrite tryEndpoints_cons, testEndpoint_dual.
    destruct (assertEndpointUrl e) eqn:Hurl; [| apply IH; assumption].
    destruct (net_getSlot net (clock w) e); [apply IH; assumption |].
    destruct (net_getVersion net (clock w) e); [apply IH; assumption |].
    eexists; eexists. split; [reflexivity |].
    unfold coherent. simpl. rewrite Hurl. repeat split; reflexivity.
Qed.

Lemma tryEndpoints_single_slot net l w :
  cachedConnection (mem w) = None ->
  cachedEndpoint (mem w) = None ->
  exists r w',
    Selector.tryEndpoints (probe_slot net) l w = (Ok r, w')
    /\ coherent (mem w')
    /\ cachedConnection (mem w') = r
    /\ cachedEndpoint (mem w') = option_map rpcEndpoint r.
Proof.
  revert w. induction l as [| e rest IH]; intros w Hc He.
  - exists None, w. unfold coherent. rewrite Hc, He. repeat split; reflexivity.
  - rewrite tryEndpoints_cons, testEndpoint_single.
    destruct (assertEndpointUrl e) eqn:Hurl; [| apply IH; assumption].
    destruct (net_getSlot net (clock w) e); [apply IH; assumption |].
    eexists; eexists. split; [reflexivity |].
    unfold coherent. simpl. rewrite Hurl. repeat split; reflexivity.
Qed.

Section SelectorSlot.

Variable probe : Connection -> M route_state unit.
Hypothesis loop_slot :
  forall l w,
    cachedConnection (mem w) = None ->
    cachedEndpoint (mem w) = None ->
    exists r w',
      Selector.tryEndpoints probe l w = (Ok r, w')
      /\ coherent (mem w')
      /\ cachedConnection (mem w') = r
      /\ cachedEndpoint (mem w') = option_map rpcEndpoint r.

Lemma getWorkingConnection_slot endpoints net w :
  coherent (mem w) ->
  exists r w',
    Selector.getWorkingConnection probe endpoints net w = (Ok r, w')
    /\ coherent (mem w')
    /\ cachedConnection (mem w') = r
    /\ cachedEndpoint (mem w') = option_map rpcEndpoint r.
Proof.
  intros Hco. destruct (coherent_cache_is_set _ Hco) as [Hset Hend].
  destruct (Selector.cache_is_set (mem w)) as [c |] eqn:Hc.
  - rewrite (getWorkingConnection_cached _ _ _ _ _ Hc).
    destruct (net_getSlot net (clock w) (rpcEndpoint c)).
    + apply loop_slot; reflexivity.
    + exists (Some c), (sent w c [getSlot]). simpl.
      rewrite Hend, <- Hset. repeat split; try reflexivity. exact Hco.
  - rewrite (getWorkingConnection_empty_cache _ _ _ _ Hc).
    apply loop_slot; [symmetry; exact Hset |].
    rewrite Hend, <- Hset. reflexivity.
Qed.

End SelectorSlot.

(** X1.  In the three API routes, when the two cache variables agree
    before a call of [getWorkingConnection], they agree after it, the call
    does not throw, and the slot holds exactly what the call returned: the
    connection together with its endpoint, or nothing when it returned
    null. *)
Theorem selector_returns_cache_slot net endpoints w :
  coherent (mem w) ->
  (exists r w',
      SolanaPay.getWorkingConnection net endpoints w = (Ok r, w')
      /\ coherent (mem w')
      /\ cachedConnection (mem w') = r
      /\ cachedEndpoint (mem w') = option_map rpcEndpoint r)
  /\ (exists r w',
      ConfirmPayment.getWorkingConnection net endpoints w = (Ok r, w')
      /\ coherent (mem w')
      /\ cachedConnection (mem w') = r
      /\ cachedEndpoint (mem w') = option_map rpcEndpoint r)
  /\ (exists r w',
      GetTransaction.getWorkingConnection net endpoints w = (Ok r, w')
      /\ coherent (mem w')
      /\ cachedConnection (mem w') = r
      /\ cachedEndpoint (mem w') = option_map rpcEndpoint r).
Proof.
  intros Hco. repeat split.
  - apply getWorkingConnection_slot; [apply tryEndpoints_dual_slot | exact Hco].
  - apply getWorkingConnection_slot; [apply tryEndpoints_dual_slot | exact Hco].
  - apply getWorkingConnection_slot; [apply tryEndpoints_single_slot | exact Hco].
Qed.

(** Witness: a cached connection whose probe is rejected, on a network that
    is down: the slot ends up empty and null is returned. *)
Lemma selector_returns_cache_slot_witness :
  exists r w',
    SolanaPay.getWorkingConnection Examples.net_down RPC_ENDPOINTS Examples.cached_route
      = (Ok r, w')
    /\ coherent (mem w')
    /\ cachedConnection (mem w') = r
    /\ cachedEndpoint (mem w') = option_map rpcEndpoint r.
Proof.
  refine (proj1 (selector_returns_cache_slot Examples.net_down RPC_ENDPOINTS
                   Examples.cached_route _)).
  vm_compute. split; reflexivity.
Defined.

(** The calls and the time one pass over the candidates costs. *)
Lemma tryEndpoints_dual_cost net l w :
  count is_rpc (trace (snd (Selector.tryEndpoints (probe_slot_and_version net) l w)))
  <= count is_rpc (trace w) + 2 * List.length l
  /\ clock (snd (Selector.tryEndpoints (probe_slot_and_version net) l w))
     <= clock w + List.length l.
Proof.
  revert w. induction l as [| e rest IH]; intros w.
  - simpl. lia.
  - rewrite tryEndpoints_cons, testEndpoint_dual.
    destruct (assertEndpointUrl e);
      [destruct (net_getSlot net (clock w) e);
       destruct (net_getVersion net (clock w) e) |];
      try (match goal with
           | |- context [Selector.tryEndpoints _ rest ?w1] =>
               destruct (IH w1) as [H1 H2]; revert H1 H2
           end);
      simpl; rewrite ?count_app; unfold count; simpl; lia.
Qed.

Lemma tryEndpoints_single_cost net l w :
  count is_rpc (trace (snd (Selector.tryEndpoints (probe_slot net) l w)))
  <= count is_rpc (trace w) + List.length l
  /\ clock (snd (Selector.tryEndpoints (probe_slot net) l w))
     <= clock w + List.length l.
Proof.
  revert w. induction l as [| e rest IH]; intros w.
  - simpl. lia.
  - rewrite tryEndpoints_cons, testEndpoint_single.
    destruct (assertEndpointUrl e);
      [destruct (net_getSlot net (clock w) e) |];
      try (match goal with
           | |- context [Selector.tryEndpoints _ rest ?w1] =>
               destruct (IH w1) as [H1 H2]; revert H1 H2
           end);
      simpl; rewrite ?count_app; unfold count; simpl; lia.
Qed.

(** X2.  One call of [getWorkingConnection] sends at most one probe to the
    cached connection and two probes to each candidate (one in
    get-transaction), and takes at most one await per candidate plus one for
    the cached connection. *)
Theorem selector_cost_bounded net endpoints w :
  count is_rpc (trace (snd (SolanaPay.getWorkingConnection net endpoints w)))
    <= count is_rpc (trace w) + 1 + 2 * List.length endpoints
  /\ count is_rpc (trace (snd (ConfirmPayment.getWorkingConnection net endpoints w)))
    <= count is_rpc (trace w) + 1 + 2 * List.length endpoints
  /\ count is_rpc (trace (snd (GetTransaction.getWorkingConnection net endpoints w)))
    <= count is_rpc (trace w) + 1 + List.length endpoints
  /\ clock (snd (SolanaPay.getWorkingConnection net endpoints w))
    <= clock w + 1 + List.length endpoints
  /\ clock (snd (GetTransaction.getWorkingConnection net endpoints w))
    <= clock w + 1 + List.length endpoints.
Proof.
  unfold SolanaPay.getWorkingConnection, ConfirmPayment.getWorkingConnection,
    GetTransaction.getWorkingConnection.
  assert (Hsent : forall c, count is_rpc (trace (sent w c [getSlot]))
                            = count is_rpc (trace w) + 1).
  { intros c. unfold sent. simpl. rewrite count_app. reflexivity. }
  destruct (Selector.cache_is_set (mem w)) as [c |] eqn:Hc.
  - rewrite !(getWorkingConnection_cached _ _ _ _ _ Hc).
    destruct (net_getSlot net (clock w) (rpcEndpoint c)).
    + pose proof (tryEndpoints_dual_cost net endpoints
                    (with_mem (sent w c [getSlot]) (clear_cache (mem w)))) as [H1 H2].
      pose proof (tryEndpoints_single_cost net endpoints
                    (with_mem (sent w c [getSlot]) (clear_cache (mem w)))) as [H3 H4].
      specialize (Hsent c). simpl in *. repeat split; lia.
    + specialize (Hsent c). simpl in *. repeat split; lia.
  - rewrite !(getWorkingConnection_empty_cache _ _ _ _ Hc).
    pose proof (tryEndpoints_dual_cost net endpoints w) as [H1 H2].
    pose proof (tryEndpoints_single_cost net endpoints w) as [H3 H4].
    repeat split; lia.
Qed.

(* ===================================================================== *)
(** ** Relations kept by the handlers *)
(* ===================================================================== *)

(** Decompose a computation along its binds, handlers and case analyses,
    for a relation that every change of clock and trace respects. *)
Ltac steps_with Hrefl Htrans Hemit Htick extra :=
  repeat first
    [ extra
    | apply (steps_ret _ Hrefl)
    | apply (steps_throw _ Hrefl)
    | apply (steps_settle _ Hrefl)
    | apply (steps_now _ Hrefl)
    | apply (steps_get_mem _ Hrefl)
    | apply (steps_destructure _ Hrefl)
    | apply Hemit
    | apply Htick
    | apply (steps_await_rpc _ Hrefl Htrans Htick); intros ?; apply Hemit
    | apply (steps_await_all2 _ Hrefl Htrans Hemit Htick)
    | apply (steps_new_Connection _ Hrefl Htrans Hemit)
    | apply (steps_bind _ Htrans); [| intros ?]
    | apply (steps_try_catch _ Htrans); [| intros ?]
    | match goal with
      | |- steps _ (match ?x with _ => _ end) => destruct x
      | |- steps _ (let (_, _) := ?x in _) => destruct x
      end ].

Lemma stays_coherent_clear : steps stays_coherent (set_cache None None).
Proof. intros w _. exact I. Qed.

Lemma stays_coherent_selector_dual net endpoints :
  steps stays_coherent
        (Selector.getWorkingConnection (probe_slot_and_version net) endpoints net).
Proof.
  intros w Hco.
  destruct (getWorkingConnection_slot _ (tryEndpoints_dual_slot net) endpoints net w Hco)
    as (r & w' & Hrun & Hco' & _).
  rewrite Hrun. exact Hco'.
Qed.

Lemma stays_coherent_selector_single net endpoints :
  steps stays_coherent (Selector.getWorkingConnection (probe_slot net) endpoints net).
Proof.
  intros w Hco.
  destruct (getWorkingConnection_slot _ (tryEndpoints_single_slot net) endpoints net w Hco)
    as (r & w' & Hrun & Hco' & _).
  rewrite Hrun. exact Hco'.
Qed.

Ltac coherent_steps extra :=
  steps_with stays_coherent_refl stays_coherent_trans
             stays_coherent_emit stays_coherent_tick
             ltac:(first [ apply stays_coherent_clear
                         | apply stays_coherent_selector_dual
                         | apply stays_coherent_selector_single
                         | extra ]).

Lemma stays_coherent_fetchLoop gwc net connection sig fuel attempt :
  steps stays_coherent gwc ->
  steps stays_coherent (fetchLoop gwc net connection sig fuel attempt).
Proof.
  intros Hgwc. revert attempt. induction fuel as [| fuel IH]; intros attempt.
  - apply (steps_ret _ stays_coherent_refl).
  - cbn [fetchLoop]. unfold fetchTurn.
    coherent_steps ltac:(first [ exact Hgwc | apply IH ]).
Qed.

Lemma stays_coherent_record_sale t price :
  steps stays_coherent (ConfirmPayment.record_sale t price).
Proof. intros w H. exact H. Qed.

Lemma stays_coherent_SolanaPay_POST sdk net endpoints MERCHANT_WALLET req :
  steps stays_coherent (SolanaPay.POST sdk net endpoints MERCHANT_WALLET req).
Proof.
  unfold SolanaPay.POST, SolanaPay.POST_try, SolanaPay.POST_fields,
    SolanaPay.buildTransaction, SolanaPay.tokenAccountExists,
    SolanaPay.getUsdcMint, SolanaPay.getWorkingConnection, SolanaPay.invalid_price,
    InternalServerError.
  coherent_steps fail.
Qed.

Lemma stays_coherent_SolanaPay_GET net endpoints :
  steps stays_coherent (SolanaPay.GET net endpoints).
Proof.
  unfold SolanaPay.GET, SolanaPay.getWorkingConnection.
  coherent_steps fail.
Qed.

Lemma stays_coherent_ConfirmPayment_POST net endpoints MERCHANT_WALLET req :
  steps stays_coherent (ConfirmPayment.POST net endpoints MERCHANT_WALLET req).
Proof.
  unfold ConfirmPayment.POST, ConfirmPayment.POST_fuel, ConfirmPayment.POST_try,
    ConfirmPayment.as_string, ConfirmPayment.settle_payment,
    ConfirmPayment.generateImage, ConfirmPayment.getWorkingConnection,
    ConfirmPayment.not_valid, InternalServerError.
  coherent_steps ltac:(first
    [ apply stays_coherent_record_sale
    | apply stays_coherent_fetchLoop; apply stays_coherent_selector_dual ]).
Qed.

Lemma stays_coherent_GetTransaction_GET net endpoints param :
  steps stays_coherent (GetTransaction.GET net endpoints param).
Proof.
  unfold GetTransaction.GET, GetTransaction.GET_fuel, GetTransaction.GET_try,
    GetTransaction.getWorkingConnection, InternalServerError.
  coherent_steps ltac:(apply stays_coherent_fetchLoop;
                       apply stays_coherent_selector_single).
Qed.

Lemma on_route_coherent {A} r (m : M route_state A) w :
  steps stays_coherent m ->
  server_coherent (mem w) ->
  server_coherent (mem (snd (Server.on_route r m w))).
Proof.
  intros Hm (Hp & Hc & Hg). unfold Server.on_route.
  specialize (Hm (mkWorld (clock w) (trace w) (Server.load r (mem w)))).
  destruct (m _) as [o w']. simpl in *.
  unfold server_coherent, stays_coherent in *.
  destruct r; simpl in *; repeat split;
    first [ exact Hp | exact Hc | exact Hg
          | apply Hm; first [ exact Hp | exact Hc | exact Hg ] ].
Qed.

(** X3.  Every API operation keeps the cache variables of the three route
    modules in agreement: each route holds either nothing, or a connection
    together with the endpoint it was built for.  The variables agree when
    the server starts. *)
Theorem caches_stay_coherent sdk net endpoints MERCHANT_WALLET op w :
  server_coherent (mem w) ->
  server_coherent
    (mem (snd (Server.serve sdk net endpoints MERCHANT_WALLET op w)))
  /\ server_coherent (Server.mkServer (None, None) (None, None) (None, None) db_initial).
Proof.
  intros Hco. split; [| repeat split].
  destruct op; unfold Server.serve; apply on_route_coherent; try exact Hco;
    (apply (steps_bind _ stays_coherent_trans);
     [| intros ?; apply (steps_ret _ stays_coherent_refl)]) || idtac.
  - apply stays_coherent_SolanaPay_POST.
  - apply stays_coherent_SolanaPay_GET.
  - apply stays_coherent_ConfirmPayment_POST.
  - apply stays_coherent_GetTransaction_GET.
  - unfold Dashboard.GET. coherent_steps fail.
  - unfold GenerateNftImage.POST. coherent_steps fail.
Qed.

(** Witness: a confirm-payment request on a fresh server. *)
Lemma caches_stay_coherent_witness :
  server_coherent
    (mem (snd (Server.serve Examples.toy_sdk
       (Examples.net_up [Examples.shopper; Examples.merchant] Examples.nothing)
       RPC_ENDPOINTS Examples.merchant
       (Server.PostConfirmPayment (Examples.confirm_request (JNumber 12)))
       (mkWorld 0 [] (Server.mkServer (None, None) (None, None) (None, None)
                                      db_initial))))).
Proof.
  refine (proj1 (caches_stay_coherent Examples.toy_sdk
       (Examples.net_up [Examples.shopper; Examples.merchant] Examples.nothing)
       RPC_ENDPOINTS Examples.merchant
       (Server.PostConfirmPayment (Examples.confirm_request (JNumber 12)))
       (mkWorld 0 [] (Server.mkServer (None, None) (None, None) (None, None)
                                      db_initial)) _)).
  vm_compute. repeat split.
Defined.

(* ===================================================================== *)
(** ** What a confirmation records *)
(* ===================================================================== *)

(** A transaction the loop returns is an answer of the network for the
    signature, on the connection the loop was given. *)
Lemma fetchLoop_found gwc net connection sig fuel attempt w tx w' :
  fetchLoop gwc net connection sig fuel attempt w = (Ok (Some (Some tx)), w') ->
  exists t, net_getParsedTransaction net t (rpcEndpoint connection) sig = inr (Some tx).
Proof.
  revert attempt w. induction fuel as [| fuel IH]; intros attempt w.
  - discriminate.
  - cbn [fetchLoop]. destruct (attempt <? maxRetries); [| discriminate].
    unfold bind. rewrite fetchTurn_run.
    destruct (net_getParsedTransaction net (clock w) (rpcEndpoint connection) sig)
      as [err | [tx0 |]] eqn:Hreply.
    + destruct (attempt <? maxRetries - 1).
      * destruct (gwc _) as [[[c |] | e] w1]; try discriminate. apply IH.
      * apply IH.
    + intros H. inversion H. subst tx0. exists (clock w). exact Hreply.
    + apply IH.
Qed.

Lemma settle_payment_recorded net MERCHANT_WALLET sig prod tx w :
  ConfirmPayment.merchantIncluded MERCHANT_WALLET tx = true ->
  ConfirmPayment.settle_payment net MERCHANT_WALLET sig prod (Some tx) w =
    (Ok (ConfirmResponse
           (match imageUrl (receipt_of net tx sig prod (clock w)) with
            | Some url => negb (String.eqb url EmptyString)
            | None => false
            end)
           (cachedEndpoint (mem w))),
     mkWorld (S (clock w))
             (trace w ++ [GenerateImage (clock w) (get_prop prod "name")])
             (mkRoute (cachedConnection (mem w)) (cachedEndpoint (mem w))
                      (pushed (receipt_of net tx sig prod (clock w)) (db (mem w))))).
Proof.
  intros Hm. destruct (merchantIncluded_payer _ _ Hm) as (payer & others & Hkeys).
  unfold ConfirmPayment.settle_payment. rewrite Hm.
  unfold bind at 1. rewrite generateImage_run. rewrite Hkeys.
  unfold receipt_of. rewrite Hkeys. reflexivity.
Qed.

Lemma settle_payment_refused net MERCHANT_WALLET sig prod tx w :
  match tx with
  | Some tx => ConfirmPayment.merchantIncluded MERCHANT_WALLET tx = false
  | None => True
  end ->
  ConfirmPayment.settle_payment net MERCHANT_WALLET sig prod tx w
  = (Ok ConfirmPayment.not_valid, w).
Proof.
  unfold ConfirmPayment.settle_payment. destruct tx as [tx |]; [| reflexivity].
  intros ->. reflexivity.
Qed.

(** The ways confirm-payment can end. *)
Lemma ConfirmPayment_POST_cases net endpoints MERCHANT_WALLET req w :
  exists r w',
    ConfirmPayment.POST net endpoints MERCHANT_WALLET req w = (Ok (Some r), w')
    /\ ((exists status error details,
            r = ErrorResponse status error details
            /\ In status [400; 500; 503]
            /\ db (mem w') = db (mem w))
        \/ (exists body sig tx t tq connection,
            req = BodyJson body
            /\ get_prop body "signature" = JString sig
            /\ net_getParsedTransaction net tq (rpcEndpoint connection) sig
               = inr (Some tx)
            /\ ConfirmPayment.merchantIncluded MERCHANT_WALLET tx = true
            /\ r = ConfirmResponse
                     (match imageUrl (receipt_of net tx sig
                                        (get_prop body "product") t) with
                      | Some url => negb (String.eqb url EmptyString)
                      | None => false
                      end)
                     (cachedEndpoint (mem w'))
            /\ db (mem w')
               = pushed (receipt_of net tx sig (get_prop body "product") t)
                        (db (mem w)))).
Proof.
  unfold ConfirmPayment.POST, ConfirmPayment.POST_fuel, try_catch,
    ConfirmPayment.POST_try, InternalServerError.
  assert (Hleft : forall status error details (w' : world route_state),
             In status [400; 500; 503] -> db (mem w') = db (mem w) ->
             exists r w'0,
               (Ok (Some (ErrorResponse status error details)), w') = (Ok (Some r), w'0)
               /\ ((exists status error details,
                       r = ErrorResponse status error details
                       /\ In status [400; 500; 503]
                       /\ db (mem w'0) = db (mem w))
                   \/ (exists body sig tx t tq connection,
                       req = BodyJson body
                       /\ get_prop body "signature" = JString sig
                       /\ net_getParsedTransaction net tq (rpcEndpoint connection) sig
                          = inr (Some tx)
                       /\ ConfirmPayment.merchantIncluded MERCHANT_WALLET tx = true
                       /\ r = ConfirmResponse
                                (match imageUrl (receipt_of net tx sig
                                                   (get_prop body "product") t) with
                                 | Some url => negb (String.eqb url EmptyString)
                                 | None => false
                                 end)
                                (cachedEndpoint (mem w'0))
                       /\ db (mem w'0)
                          = pushed (receipt_of net tx sig (get_prop body "product") t)
                                   (db (mem w))))).
  { intros status error details w' Hin Hdb.
    exists (ErrorResponse status error details), w'.
    split; [reflexivity |]. left. exists status, error, details. auto. }
  destruct req as [| | body];
    [ unfold throw; apply Hleft; [simpl; auto | reflexivity]
    | unfold throw; apply Hleft; [simpl; auto | reflexivity] | ].
  unfold bind at 1.
  destruct (destructure body w) as [[[] | e] w0] eqn:Hbody.
  2:{ destruct body; try discriminate;
        inversion Hbody; subst w0;
        unfold bind, ret; (apply Hleft; [simpl; auto | reflexivity]). }
  assert (w0 = w) by (destruct body; inversion Hbody; reflexivity). subst w0.
  destruct (negb (truthy (get_prop body "signature"))
            || negb (truthy (get_prop body "product")));
    [unfold ret; apply Hleft; [simpl; auto | reflexivity] |].
  unfold bind at 1.
  destruct (get_prop body "signature") as [| | b | q | sig | l | f] eqn:Hsig;
    cbn [ConfirmPayment.as_string];
    try (unfold throw, bind, ret; apply Hleft; [simpl; auto | reflexivity]).
  unfold ret at 1.
  unfold bind at 1.
  pose proof (selector_dual_quiet net endpoints w) as [Hdb0 _].
  unfold ConfirmPayment.getWorkingConnection at 1.
  destruct (getWorkingConnection_never_throws (probe_slot_and_version net)
              endpoints net w) as ([connection |] & w2 & Hconn);
    rewrite Hconn in *; simpl in Hdb0;
    [| unfold ret; apply Hleft; [simpl; auto | exact Hdb0]].
  unfold bind at 1.
  destruct (fetchLoop_ends (ConfirmPayment.getWorkingConnection net endpoints) net
              connection sig (selector_dual_quiet net endpoints)
              (fun w0 => getWorkingConnection_never_throws _ endpoints net w0)
              (S maxRetries) 0 w2) as (tx & w3 & Hfetch & _);
    [unfold maxRetries; lia |].
  pose proof (fetchLoop_keeps_db (ConfirmPayment.getWorkingConnection net endpoints)
                net connection sig (selector_dual_quiet net endpoints)
                (S maxRetries) 0 w2) as Hdb1.
  rewrite Hfetch in *. simpl in Hdb1.
  unfold bind at 1.
  destruct tx as [tx |].
  - destruct (ConfirmPayment.merchantIncluded MERCHANT_WALLET tx) eqn:Hm.
    + rewrite (settle_payment_recorded _ _ _ _ _ _ Hm).
      destruct (fetchLoop_found _ _ _ _ _ _ _ _ _ Hfetch) as (tq & Hq).
      unfold ret.
      eexists. eexists. split; [reflexivity |]. right.
      exists body, sig, tx, (clock w3), tq, connection.
      split; [reflexivity |]. split; [exact Hsig |].
      split; [exact Hq |]. split; [exact Hm |]. split; [reflexivity |].
      simpl. rewrite Hdb1, Hdb0. reflexivity.
    + rewrite settle_payment_refused by exact Hm.
      unfold ret, ConfirmPayment.not_valid.
      apply Hleft; [simpl; auto |]. rewrite Hdb1, Hdb0. reflexivity.
  - rewrite settle_payment_refused by exact I.
    unfold ret, ConfirmPayment.not_valid.
    apply Hleft; [simpl; auto |]. rewrite Hdb1, Hdb0. reflexivity.
Qed.

Lemma POST_success_backed
    net endpoints MERCHANT_WALLET req imageGenerated endpoint w w' :
  ConfirmPayment.POST net endpoints MERCHANT_WALLET req w
    = (Ok (Some (ConfirmResponse imageGenerated endpoint)), w') ->
  exists body sig tx t tq connection,
    req = BodyJson body
    /\ get_prop body "signature" = JString sig
    /\ net_getParsedTransaction net tq (rpcEndpoint connection) sig = inr (Some tx)
    /\ ConfirmPayment.merchantIncluded MERCHANT_WALLET tx = true
    /\ db (mem w') = pushed (receipt_of net tx sig (get_prop body "product") t)
                            (db (mem w))
    /\ endpoint = cachedEndpoint (mem w').
Proof.
  intros Hrun.
  destruct (ConfirmPayment_POST_cases net endpoints MERCHANT_WALLET req w)
    as (r & w1 & Hrun1 & [(status & error & details & Hr & _) |
                          (body & sig & tx & t & tq & connection & Hreq & Hsig & Hq
                           & Hm & Hr & Hdb)]);
    rewrite Hrun in Hrun1; injection Hrun1 as Hr1 Hw1; subst w1;
    rewrite Hr in Hr1.
  - discriminate.
  - injection Hr1 as Hflag Hep.
    exists body, sig, tx, t, tq, connection. auto 7.
Qed.

(** X4.  When confirm-payment answers with success, the request carried a
    string signature, the network had returned for that signature a
    transaction that has the address of the merchant wallet among its
    account keys, and the ledger is the old ledger with exactly one record
    pushed: buyer the first account key of that transaction, product name
    and price as in the request, the signature, the block time in
    milliseconds (the current time when the transaction has none), and the
    image URL if one was generated; [totalSales += price] has been done once,
    in double arithmetic. *)
Theorem confirmation_is_backed
    net endpoints MERCHANT_WALLET req imageGenerated endpoint w w' :
  ConfirmPayment.POST net endpoints MERCHANT_WALLET req w
    = (Ok (Some (ConfirmResponse imageGenerated endpoint)), w') ->
  exists body sig tx t tq connection,
    req = BodyJson body
    /\ get_prop body "signature" = JString sig
    /\ net_getParsedTransaction net tq (rpcEndpoint connection) sig = inr (Some tx)
    /\ In (toBase58 MERCHANT_WALLET) (map toBase58 (accountKeys tx))
    /\ db (mem w') = pushed (receipt_of net tx sig (get_prop body "product") t)
                            (db (mem w))
    /\ totalSales (db (mem w'))
       = js_plus (totalSales (db (mem w))) (get_prop (get_prop body "product") "price")
    /\ endpoint = cachedEndpoint (mem w').
Proof.
  intros Hrun.
  destruct (POST_success_backed _ _ _ _ _ _ _ _ Hrun)
    as (body & sig & tx & t & tq & connection & Hreq & Hsig & Hq & Hm & Hdb & Hep).
  exists body, sig, tx, t, tq, connection.
  repeat (split; [assumption |]). split; [| split; [| split]].
  - apply merchantIncluded_names. exact Hm.
  - exact Hdb.
  - rewrite Hdb. reflexivity.
  - exact Hep.
Qed.

(** Witness: the widget sale on a fresh route. *)
Lemma confirmation_is_backed_witness :
  exists body sig tx t tq connection,
    Examples.confirm_request (JNumber 12) = BodyJson body
    /\ get_prop body "signature" = JString sig
    /\ net_getParsedTransaction
         (Examples.net_up [Examples.shopper; Examples.merchant] Examples.nothing)
         tq (rpcEndpoint connection) sig = inr (Some tx)
    /\ In (toBase58 Examples.merchant) (map toBase58 (accountKeys tx))
    /\ db (mem (snd (ConfirmPayment.POST
                       (Examples.net_up [Examples.shopper; Examples.merchant]
                                        Examples.nothing)
                       RPC_ENDPOINTS Examples.merchant
                       (Examples.confirm_request (JNumber 12)) Examples.fresh_route)))
       = pushed (receipt_of
                   (Examples.net_up [Examples.shopper; Examples.merchant]
                                    Examples.nothing)
                   tx sig (get_prop body "product") t)
                db_initial
    /\ totalSales
         (db (mem (snd (ConfirmPayment.POST
                          (Examples.net_up [Examples.shopper; Examples.merchant]
                                           Examples.nothing)
                          RPC_ENDPOINTS Examples.merchant
                          (Examples.confirm_request (JNumber 12))
                          Examples.fresh_route))))
       = js_plus (totalSales db_initial) (get_prop (get_prop body "product") "price")
    /\ Some Examples.devnet
       = cachedEndpoint
           (mem (snd (ConfirmPayment.POST
                        (Examples.net_up [Examples.shopper; Examples.merchant]
                                         Examples.nothing)
                        RPC_ENDPOINTS Examples.merchant
                        (Examples.confirm_request (JNumber 12)) Examples.fresh_route))).
Proof.
  apply (confirmation_is_backed
           (Examples.net_up [Examples.shopper; Examples.merchant] Examples.nothing)
           RPC_ENDPOINTS Examples.merchant (Examples.confirm_request (JNumber 12))
           true (Some Examples.devnet) Examples.fresh_route).
  vm_compute. reflexivity.
Defined.



(** X6.  A confirm-payment body that cannot be read (blank or invalid
    JSON, the value null, or a signature that is present but not a string)
    is answered 500 "Internal Server Error" by the outer catch, not 400, and
    nothing else happens: no connection, no call, no record. *)
Theorem unreadable_confirmation_is_500 net endpoints MERCHANT_WALLET req w :
  unreadable_confirmation req = true ->
  exists message,
    ConfirmPayment.POST net endpoints MERCHANT_WALLET req w
    = (Ok (Some (ErrorResponse 500 "Internal Server Error" message)), w).
Proof.
  unfold ConfirmPayment.POST, ConfirmPayment.POST_fuel, try_catch,
    ConfirmPayment.POST_try, InternalServerError.
  destruct req as [| | body]; try (intros _; eexists; reflexivity).
  destruct body; try (intros _; eexists; reflexivity);
    cbn [unreadable_confirmation]; intros H;
    apply andb_prop in H; destruct H as [H Hstr];
    apply andb_prop in H; destruct H as [Hsig Hprod];
    try discriminate.
  unfold bind at 1. cbn [destructure ret].
  rewrite Hsig, Hprod. cbn [negb orb].
  destruct (get_prop (JObject fields) "signature"); try discriminate;
    eexists; reflexivity.
Qed.

(** Witness: a numeric signature. *)
Lemma unreadable_confirmation_is_500_witness :
  exists message,
    ConfirmPayment.POST Examples.net_down RPC_ENDPOINTS Examples.merchant
      (BodyJson (JObject [("signature", JNumber 5);
                          ("product", Examples.widget (JNumber 12))]))
      Examples.fresh_route
    = (Ok (Some (ErrorResponse 500 "Internal Server Error" message)),
       Examples.fresh_route).
Proof.
  apply (unreadable_confirmation_is_500 Examples.net_down RPC_ENDPOINTS
           Examples.merchant
           (BodyJson (JObject [("signature", JNumber 5);
                               ("product", Examples.widget (JNumber 12))]))
           Examples.fresh_route).
  reflexivity.
Defined.

(* ===================================================================== *)
(** ** Sales are counted once per successful confirmation *)
(* ===================================================================== *)













(* ===================================================================== *)
(** ** The get-transaction route *)
(* ===================================================================== *)

Lemma GET_local_hit net endpoints sig t w :
  trim sig <> EmptyString ->
  find (fun tx => String.eqb (signature tx) (trim sig)) (transactions (db (mem w)))
    = Some t ->
  GetTransaction.GET net endpoints (Some sig) w = (Ok (Some (LocalTransaction t)), w)
  /\ signature t = trim sig
  /\ In t (transactions (db (mem w))).
Proof.
  intros Htrim Hfind.
  assert (Hsig : String.eqb sig EmptyString = false).
  { destruct sig; [exfalso; apply Htrim; reflexivity | reflexivity]. }
  apply String.eqb_neq in Htrim.
  split; [| split].
  - unfold GetTransaction.GET, GetTransaction.GET_fuel, try_catch,
      GetTransaction.GET_try.
    rewrite Hsig, Htrim. unfold bind, get_mem. rewrite Hfind. reflexivity.
  - apply find_some in Hfind. destruct Hfind as [_ H].
    apply String.eqb_eq in H. exact H.
  - apply find_some in Hfind. tauto.
Qed.

(** X8.  When the ledger holds a record whose signature is the trimmed
    request parameter, get-transaction answers with the first such record,
    taken from the ledger as it is, and does nothing else: no connection,
    no call, no change of cache or ledger, whatever the network would
    say. *)
Theorem local_receipt_served_without_network net endpoints sig t w :
  trim sig <> EmptyString ->
  find (fun tx => String.eqb (signature tx) (trim sig)) (transactions (db (mem w)))
    = Some t ->
  GetTransaction.GET net endpoints (Some sig) w = (Ok (Some (LocalTransaction t)), w)
  /\ signature t = trim sig
  /\ In t (transactions (db (mem w))).
Proof. apply GET_local_hit. Qed.

(** Witness: a ledger with one receipt, a network that is down. *)
Lemma local_receipt_served_without_network_witness :
  GetTransaction.GET Examples.net_down RPC_ENDPOINTS (Some " sig-1 ")
    (mkWorld 0 [] (mkRoute None None
       (pushed (mkTransaction "buyer" (JString "Widget") (JNumber 12) "sig-1" 17 None)
               db_initial)))
  = (Ok (Some (LocalTransaction
                 (mkTransaction "buyer" (JString "Widget") (JNumber 12) "sig-1" 17 None))),
     mkWorld 0 [] (mkRoute None None
       (pushed (mkTransaction "buyer" (JString "Widget") (JNumber 12) "sig-1" 17 None)
               db_initial))).
Proof.
  refine (proj1 (local_receipt_served_without_network Examples.net_down RPC_ENDPOINTS
    " sig-1 "
    (mkTransaction "buyer" (JString "Widget") (JNumber 12) "sig-1" 17 None)
    (mkWorld 0 [] (mkRoute None None
       (pushed (mkTransaction "buyer" (JString "Widget") (JNumber 12) "sig-1" 17 None)
               db_initial))) _ _)).
  - vm_compute. discriminate.
  - reflexivity.
Defined.

Lemma find_app_new {A} (f : A -> bool) (l : list A) (x : A) :
  f x = true ->
  exists y, find f (l ++ [x]) = Some y
            /\ (find f l = None -> y = x).
Proof.
  intros Hx. induction l as [| a l IH]; simpl.
  - rewrite Hx. exists x. auto.
  - destruct (f a); [exists a; split; [reflexivity | discriminate] | exact IH].
Qed.

Lemma on_route_unchanged {A} r (m : M route_state A) (w : world Server.server) o :
  m (mkWorld (clock w) (trace w) (Server.load r (mem w)))
    = (o, mkWorld (clock w) (trace w) (Server.load r (mem w))) ->
  Server.on_route r m w = (o, w).
Proof.
  intros H. unfold Server.on_route. rewrite H.
  destruct w as [t tr [[pc pe] [cc ce] [gc ge] l]]. destruct r; reflexivity.
Qed.

(** X9.  A receipt that confirm-payment has just recorded under a
    signature without surrounding white space is found by get-transaction
    in the ledger, without any network call: the answer is the first record
    with that signature, and when no earlier record had it, it is the new
    record, with the price and the product name of the confirmation. *)
Theorem confirmed_receipt_is_found
    sdk net net' endpoints MERCHANT_WALLET body sig generated endpoint w w1 :
  Server.serve sdk net endpoints MERCHANT_WALLET
               (Server.PostConfirmPayment (BodyJson body)) w
    = (Ok (Some (ConfirmResponse generated endpoint)), w1) ->
  get_prop body "signature" = JString sig ->
  trim sig = sig ->
  exists t,
    Server.serve sdk net' endpoints MERCHANT_WALLET
                 (Server.GetTransactionBySignature (Some sig)) w1
      = (Ok (Some (LocalTransaction t)), w1)
    /\ signature t = sig
    /\ (find (fun old => String.eqb (signature old) sig)
             (transactions (Server.ledger (mem w))) = None ->
        amount t = get_prop (get_prop body "product") "price"
        /\ product t = get_prop (get_prop body "product") "name"
        /\ last (transactions (Server.ledger (mem w1))) t = t).
Proof.
  intros Hserve Hsig Htrim.
  unfold Server.serve, Server.on_route in Hserve.
  destruct (ConfirmPayment.POST net endpoints MERCHANT_WALLET (BodyJson body) _)
    as [o wr] eqn:Hpost.
  injection Hserve as Ho Hw1. subst o.
  destruct (POST_success_backed net endpoints MERCHANT_WALLET (BodyJson body)
              generated endpoint _ _ Hpost)
    as (body0 & sig0 & tx & t0 & tq & connection & Hbody & Hsig0 & _ & _ & Hdb & _).
  injection Hbody as Hbody. subst body0. rewrite Hsig in Hsig0.
  injection Hsig0 as Hsig0. subst sig0.
  assert (Hledger : Server.ledger (mem w1)
                    = pushed (receipt_of net tx sig (get_prop body "product") t0)
                             (Server.ledger (mem w))).
  { subst w1. simpl. exact Hdb. }
  assert (Hne : trim sig <> EmptyString).
  { rewrite Htrim. intros ->.
    unfold ConfirmPayment.POST, ConfirmPayment.POST_fuel, try_catch,
      ConfirmPayment.POST_try in Hpost.
    destruct body; simpl in Hsig; try discriminate.
    unfold bind at 1 in Hpost. cbn [destructure ret] in Hpost.
    cbn [get_prop] in Hpost. rewrite Hsig in Hpost. simpl in Hpost.
    discriminate. }
  destruct (find_app_new (fun old => String.eqb (signature old) sig)
              (transactions (Server.ledger (mem w)))
              (receipt_of net tx sig (get_prop body "product") t0))
    as (t & Hfind & Hnew); [apply String.eqb_refl |].
  exists t.
  assert (Hfind1 : find (fun old => String.eqb (signature old) (trim sig))
                        (transactions (db (mem (mkWorld (clock w1) (trace w1)
                             (Server.load Server.GetRoute (mem w1))))))
                   = Some t).
  { rewrite Htrim. simpl. rewrite Hledger. exact Hfind. }
  destruct (GET_local_hit net' endpoints sig t _ Hne Hfind1)
    as (Hget & Hsigt & _).
  split; [| split].
  - unfold Server.serve. apply on_route_unchanged. exact Hget.
  - rewrite Hsigt. exact Htrim.
  - intros Hold. rewrite (Hnew Hold). rewrite Hledger. unfold pushed. simpl.
    rewrite last_last. repeat split.
Qed.

(** Witness: the widget sale on a fresh server, then its receipt read back
    while the network is down. *)
Lemma confirmed_receipt_is_found_witness :
  exists t,
    Server.serve Examples.toy_sdk Examples.net_down RPC_ENDPOINTS Examples.merchant
      (Server.GetTransactionBySignature
         (Some "5VERv8NMvzbJMEkV8xnrLkEaWRtSz9CosKDYjCJjBRnb"))
      (snd (Server.serve Examples.toy_sdk
              (Examples.net_up [Examples.shopper; Examples.merchant] Examples.nothing)
              RPC_ENDPOINTS Examples.merchant
              (Server.PostConfirmPayment (Examples.confirm_request (JNumber 12)))
              (mkWorld 0 [] (Server.mkServer (None, None) (None, None) (None, None)
                                             db_initial))))
    = (Ok (Some (LocalTransaction t)),
       snd (Server.serve Examples.toy_sdk
              (Examples.net_up [Examples.shopper; Examples.merchant] Examples.nothing)
              RPC_ENDPOINTS Examples.merchant
              (Server.PostConfirmPayment (Examples.confirm_request (JNumber 12)))
              (mkWorld 0 [] (Server.mkServer (None, None) (None, None) (None, None)
                                             db_initial))))
    /\ signature t = "5VERv8NMvzbJMEkV8xnrLkEaWRtSz9CosKDYjCJjBRnb"
    /\ amount t = JNumber 12.
Proof.
  destruct (confirmed_receipt_is_found Examples.toy_sdk
              (Examples.net_up [Examples.shopper; Examples.merchant] Examples.nothing)
              Examples.net_down RPC_ENDPOINTS Examples.merchant
              (JObject [("signature", JString "5VERv8NMvzbJMEkV8xnrLkEaWRtSz9CosKDYjCJjBRnb");
                        ("product", Examples.widget (JNumber 12))])
              "5VERv8NMvzbJMEkV8xnrLkEaWRtSz9CosKDYjCJjBRnb"
              true (Some Examples.devnet)
              (mkWorld 0 [] (Server.mkServer (None, None) (None, None) (None, None)
                                             db_initial))
              (snd (Server.serve Examples.toy_sdk
                      (Examples.net_up [Examples.shopper; Examples.merchant]
                                       Examples.nothing)
                      RPC_ENDPOINTS Examples.merchant
                      (Server.PostConfirmPayment (Examples.confirm_request (JNumber 12)))
                      (mkWorld 0 [] (Server.mkServer (None, None) (None, None)
                                                     (None, None) db_initial)))))
    as (t & Hget & Hsig & Hnew).
  - vm_compute. reflexivity.
  - reflexivity.
  - vm_compute. reflexivity.
  - exists t. split; [exact Hget |]. split; [exact Hsig |].
    apply Hnew. reflexivity.
Defined.

Lemma fetchLoop_not_found gwc net connection sig w :
  (forall t, net_getParsedTransaction net t (rpcEndpoint connection) sig = inr None) ->
  fetchLoop gwc net connection sig (S maxRetries) 0 w
  = (Ok (Some None),
     sent (sent (sent w connection [getParsedTransaction sig])
                connection [getParsedTransaction sig])
          connection [getParsedTransaction sig]).
Proof.
  intros H.
  do 3 (cbn [fetchLoop]; unfold maxRetries; cbn [Nat.ltb Nat.leb]; unfold bind;
        rewrite fetchTurn_run, H; cbv beta iota).
  reflexivity.
Qed.

(** X10.  A signature that is neither in the ledger nor known to the
    network: when every fetch is answered "not found", get-transaction sends
    exactly three fetches on the connection the selector handed out, one
    after the other, leaves cache and ledger alone in between, and answers
    404. *)
Theorem unknown_signature_is_404_after_three_fetches
    net endpoints sig connection w w0 :
  trim sig <> EmptyString ->
  find (fun tx => String.eqb (signature tx) (trim sig)) (transactions (db (mem w)))
    = None ->
  GetTransaction.getWorkingConnection net endpoints w = (Ok (Some connection), w0) ->
  (forall t, net_getParsedTransaction net t (rpcEndpoint connection) (trim sig)
             = inr None) ->
  GetTransaction.GET net endpoints (Some sig) w
  = (Ok (Some (ErrorResponse 404 "Transaction not found"
         "Transaction was not found in local database or on Solana network")),
     mkWorld (clock w0 + 3)
             (trace w0 ++ [Rpc (clock w0) (rpcEndpoint connection)
                               (getParsedTransaction (trim sig));
                           Rpc (clock w0 + 1) (rpcEndpoint connection)
                               (getParsedTransaction (trim sig));
                           Rpc (clock w0 + 2) (rpcEndpoint connection)
                               (getParsedTransaction (trim sig))])
             (mem w0)).
Proof.
  intros Htrim Hfind Hconn Hnone.
  assert (Hsig : String.eqb sig EmptyString = false).
  { destruct sig; [exfalso; apply Htrim; reflexivity | reflexivity]. }
  apply String.eqb_neq in Htrim.
  unfold GetTransaction.GET, GetTransaction.GET_fuel, try_catch,
    GetTransaction.GET_try.
  rewrite Hsig, Htrim. unfold bind at 1. unfold get_mem at 1. rewrite Hfind.
  unfold bind at 1. rewrite Hconn.
  unfold bind at 1. rewrite (fetchLoop_not_found _ _ _ _ _ Hnone).
  unfold ret, sent. simpl.
  rewrite <- !app_assoc. simpl.
  replace (clock w0 + 3) with (S (S (S (clock w0)))) by lia.
  replace (clock w0 + 1) with (S (clock w0)) by lia.
  replace (clock w0 + 2) with (S (S (clock w0))) by lia.
  reflexivity.
Qed.

(** Witness: a fresh route and a network that knows no transaction. *)
Lemma unknown_signature_is_404_after_three_fetches_witness :
  fst (GetTransaction.GET MoreExamples.net_unknown [Examples.devnet] (Some "sig-404")
                          Examples.fresh_route)
  = Ok (Some (ErrorResponse 404 "Transaction not found"
         "Transaction was not found in local database or on Solana network")).
Proof.
  rewrite (unknown_signature_is_404_after_three_fetches MoreExamples.net_unknown
             [Examples.devnet] "sig-404" (mkConnection Examples.devnet)
             Examples.fresh_route
             (snd (GetTransaction.getWorkingConnection MoreExamples.net_unknown
                     [Examples.devnet] Examples.fresh_route))).
  - reflexivity.
  - vm_compute. discriminate.
  - reflexivity.
  - reflexivity.
  - intros t. reflexivity.
Defined.

(** X11.  A get-transaction request without a signature, or with one that
    is empty or white space only, is answered 400 and nothing else happens:
    the ledger is not searched and no call is made. *)
Theorem blank_signature_is_400 net endpoints param w :
  match param with
  | None => True
  | Some sig => trim sig = EmptyString
  end ->
  exists error details,
    GetTransaction.GET net endpoints param w
    = (Ok (Some (ErrorResponse 400 error details)), w)
    /\ In error ["Missing signature parameter"; "Invalid signature parameter"].
Proof.
  unfold GetTransaction.GET, GetTransaction.GET_fuel, try_catch,
    GetTransaction.GET_try.
  destruct param as [sig |]; intros H.
  - destruct (String.eqb sig EmptyString).
    + eexists; eexists. split; [reflexivity | simpl; auto].
    + rewrite H. eexists; eexists. split; [reflexivity | simpl; auto].
  - eexists; eexists. split; [reflexivity | simpl; auto].
Qed.

(** Witness: a signature made of blanks. *)
Lemma blank_signature_is_400_witness :
  exists error details,
    GetTransaction.GET Examples.net_down RPC_ENDPOINTS (Some "   ") Examples.fresh_route
    = (Ok (Some (ErrorResponse 400 error details)), Examples.fresh_route)
    /\ In error ["Missing signature parameter"; "Invalid signature parameter"].
Proof.
  apply (blank_signature_is_400 Examples.net_down RPC_ENDPOINTS (Some "   ")
           Examples.fresh_route).
  reflexivity.
Defined.

(* ===================================================================== *)
(** ** Which calls a request sends, and where *)
(* ===================================================================== *)

Ltac trace_steps P solveP extra :=
  repeat first
    [ extra
    | apply (steps_ret _ (emits_only_refl P))
    | apply (steps_throw _ (emits_only_refl P))
    | apply (steps_settle _ (emits_only_refl P))
    | apply (steps_now _ (emits_only_refl P))
    | apply (steps_get_mem _ (emits_only_refl P))
    | apply (steps_destructure _ (emits_only_refl P))
    | apply emits_only_tick
    | apply emits_only_set_mem
    | apply emits_only_emit; solveP
    | apply (steps_bind _ (emits_only_trans P)); [| intros ?]
    | apply (steps_try_catch _ (emits_only_trans P)); [| intros ?]
    | progress unfold await_rpc, await_all2, new_Connection, console_log, set_cache
    | match goal with
      | |- steps _ (match ?x with _ => _ end) => destruct x
      | |- steps _ (let (_, _) := ?x in _) => destruct x
      end ].

Section SelectorTrace.

Variable P : event -> Prop.
Hypothesis P_slot : forall t e, P (Rpc t e getSlot).
Hypothesis P_version : forall t e, P (Rpc t e getVersion).
Hypothesis P_new : forall e, P (NewConnection e).

Lemma emits_tryEndpoints_dual net l :
  steps (emits_only P) (Selector.tryEndpoints (probe_slot_and_version net) l).
Proof.
  induction l as [| e l IH]; cbn [Selector.tryEndpoints].
  - apply (steps_ret _ (emits_only_refl P)).
  - unfold Selector.testEndpoint, probe_slot_and_version.
    trace_steps P ltac:(first [apply P_slot | apply P_version | apply P_new])
                ltac:(exact IH).
Qed.

Lemma emits_tryEndpoints_single net l :
  steps (emits_only P) (Selector.tryEndpoints (probe_slot net) l).
Proof.
  induction l as [| e l IH]; cbn [Selector.tryEndpoints].
  - apply (steps_ret _ (emits_only_refl P)).
  - unfold Selector.testEndpoint, probe_slot.
    trace_steps P ltac:(first [apply P_slot | apply P_version | apply P_new])
                ltac:(exact IH).
Qed.

Lemma emits_selector_dual net endpoints :
  steps (emits_only P)
        (Selector.getWorkingConnection (probe_slot_and_version net) endpoints net).
Proof.
  unfold Selector.getWorkingConnection.
  trace_steps P ltac:(first [apply P_slot | apply P_version | apply P_new])
              ltac:(apply emits_tryEndpoints_dual).
Qed.

Lemma emits_selector_single net endpoints :
  steps (emits_only P)
        (Selector.getWorkingConnection (probe_slot net) endpoints net).
Proof.
  unfold Selector.getWorkingConnection.
  trace_steps P ltac:(first [apply P_slot | apply P_version | apply P_new])
              ltac:(apply emits_tryEndpoints_single).
Qed.

Lemma emits_fetchLoop gwc net connection sig fuel attempt :
  steps (emits_only P) gwc ->
  (forall t, P (Rpc t (rpcEndpoint connection) (getParsedTransaction sig))) ->
  steps (emits_only P) (fetchLoop gwc net connection sig fuel attempt).
Proof.
  intros Hgwc Hfetch. revert attempt.
  induction fuel as [| fuel IH]; intros attempt; cbn [fetchLoop].
  - apply (steps_ret _ (emits_only_refl P)).
  - unfold fetchTurn.
    trace_steps P ltac:(apply Hfetch) ltac:(first [exact Hgwc | apply IH]).
Qed.

End SelectorTrace.

Lemma at_try_catch {St A} (R : world St -> world St -> Prop)
    (m : M St A) (h : jsError -> M St A) w :
  (forall w1 w2 w3, R w1 w2 -> R w2 w3 -> R w1 w3) ->
  R w (snd (m w)) -> (forall e, steps R (h e)) -> R w (snd (try_catch m h w)).
Proof.
  intros Htrans Hm Hh. unfold try_catch.
  destruct (m w) as [[a | e] w1]; simpl in *; [exact Hm |].
  eapply Htrans; [exact Hm | apply Hh].
Qed.

Lemma at_bind {St A B} (R : world St -> world St -> Prop)
    (m : M St A) (f : A -> M St B) w a w1 :
  (forall w1 w2 w3, R w1 w2 -> R w2 w3 -> R w1 w3) ->
  m w = (Ok a, w1) -> R w w1 -> steps R (f a) -> R w (snd (bind m f w)).
Proof.
  intros Htrans Hm HR Hf. unfold bind. rewrite Hm.
  eapply Htrans; [exact HR | apply Hf].
Qed.

Lemma fetches_from_probe endpoint sig :
  (forall t e, fetches_from endpoint sig (Rpc t e getSlot))
  /\ (forall t e, fetches_from endpoint sig (Rpc t e getVersion))
  /\ (forall e, fetches_from endpoint sig (NewConnection e)).
Proof. repeat split. Qed.

Lemma emits_settle_payment P net MERCHANT_WALLET sig prod tx :
  (forall t name, P (GenerateImage t name)) ->
  steps (emits_only P) (ConfirmPayment.settle_payment net MERCHANT_WALLET sig prod tx).
Proof.
  intros Himage.
  unfold ConfirmPayment.settle_payment, ConfirmPayment.generateImage,
    ConfirmPayment.record_sale, ConfirmPayment.not_valid.
  trace_steps P ltac:(apply Himage) ltac:(fail).
Qed.

(** X12.  All transaction fetches of one request go to the connection the
    selector handed out at the start of the request and ask for the request's
    signature; this holds also for the fetches sent after a failed fetch made
    the handler clear the cache and select again, whatever endpoint that
    second selection settled on.  Stated for confirm-payment and for
    get-transaction. *)
Theorem fetches_stay_on_first_connection
    net endpoints MERCHANT_WALLET body sig param connection w w0 w1 :
  (get_prop body "signature" = JString sig ->
   ConfirmPayment.getWorkingConnection net endpoints w = (Ok (Some connection), w0) ->
   emits_only (fetches_from (rpcEndpoint connection) sig) w
     (snd (ConfirmPayment.POST net endpoints MERCHANT_WALLET (BodyJson body) w)))
  /\ (GetTransaction.getWorkingConnection net endpoints w = (Ok (Some connection), w1) ->
      emits_only (fetches_from (rpcEndpoint connection) (trim param)) w
        (snd (GetTransaction.GET net endpoints (Some param) w))).
Proof.
  split.
  - intros Hsig Hsel.
    set (P := fetches_from (rpcEndpoint connection) sig).
    destruct (fetches_from_probe (rpcEndpoint connection) sig) as (Hs & Hv & Hn).
    assert (Hw0 : emits_only P w w0).
    { pose proof (emits_selector_dual P Hs Hv Hn net endpoints w) as H.
      unfold ConfirmPayment.getWorkingConnection in Hsel. rewrite Hsel in H. exact H. }
    unfold ConfirmPayment.POST, ConfirmPayment.POST_fuel.
    apply (at_try_catch _ _ _ _ (emits_only_trans P));
      [| intros e; unfold InternalServerError; trace_steps P ltac:(fail) ltac:(fail)].
    unfold ConfirmPayment.POST_try. rewrite Hsig.
    destruct body; try (apply emits_only_refl).
    all: cbn [destructure ConfirmPayment.as_string truthy negb orb].
    all: unfold bind at 1; unfold ret at 1.
    all: destruct (_ || _); [apply emits_only_refl |].
    all: unfold bind at 1; unfold ret at 1.
    all: apply (at_bind _ _ _ _ _ _ (emits_only_trans P) Hsel Hw0).
    all: trace_steps P ltac:(fail)
           ltac:(first [ apply emits_settle_payment; intros; exact I
                       | apply (emits_fetchLoop P);
                         [ apply (emits_selector_dual P Hs Hv Hn)
                         | intros t; split; reflexivity ] ]).
  - intros Hsel.
    set (P := fetches_from (rpcEndpoint connection) (trim param)).
    destruct (fetches_from_probe (rpcEndpoint connection) (trim param)) as (Hs & Hv & Hn).
    assert (Hw1 : emits_only P w w1).
    { pose proof (emits_selector_single P Hs Hn net endpoints w) as H.
      unfold GetTransaction.getWorkingConnection in Hsel. rewrite Hsel in H. exact H. }
    unfold GetTransaction.GET, GetTransaction.GET_fuel.
    apply (at_try_catch _ _ _ _ (emits_only_trans P));
      [| intros e; unfold InternalServerError; trace_steps P ltac:(fail) ltac:(fail)].
    unfold GetTransaction.GET_try.
    destruct (String.eqb param EmptyString); [apply emits_only_refl |].
    destruct (String.eqb (trim param) EmptyString); [apply emits_only_refl |].
    unfold bind at 1. unfold get_mem at 1.
    destruct (find _ _); [apply emits_only_refl |].
    apply (at_bind _ _ _ _ _ _ (emits_only_trans P) Hsel Hw1).
    trace_steps P ltac:(fail)
      ltac:(apply (emits_fetchLoop P);
            [ apply (emits_selector_single P Hs Hn)
            | intros t; split; reflexivity ]).
Qed.

(** Witness: nodes that answer the probe and reject every fetch. *)
Lemma fetches_stay_on_first_connection_witness :
  emits_only (fetches_from Examples.devnet "5VERv8NMvzbJMEkV8xnrLkEaWRtSz9CosKDYjCJjBRnb")
    Examples.fresh_route
    (snd (ConfirmPayment.POST Examples.net_no_fetch RPC_ENDPOINTS Examples.merchant
            (Examples.confirm_request (JNumber 12)) Examples.fresh_route))
  /\ emits_only (fetches_from Examples.devnet "sig-1")
       Examples.fresh_route
       (snd (GetTransaction.GET Examples.net_no_fetch RPC_ENDPOINTS (Some " sig-1 ")
               Examples.fresh_route)).
Proof.
  destruct (fetches_stay_on_first_connection
              Examples.net_no_fetch RPC_ENDPOINTS Examples.merchant
              (JObject [("signature",
                         JString "5VERv8NMvzbJMEkV8xnrLkEaWRtSz9CosKDYjCJjBRnb");
                        ("product", Examples.widget (JNumber 12))])
              "5VERv8NMvzbJMEkV8xnrLkEaWRtSz9CosKDYjCJjBRnb" " sig-1 "
              (mkConnection Examples.devnet) Examples.fresh_route
              (snd (ConfirmPayment.getWorkingConnection Examples.net_no_fetch
                      RPC_ENDPOINTS Examples.fresh_route))
              (snd (GetTransaction.getWorkingConnection Examples.net_no_fetch
                      RPC_ENDPOINTS Examples.fresh_route)))
    as [Hpost Hget].
  split.
  - apply Hpost; vm_compute; reflexivity.
  - apply Hget; vm_compute; reflexivity.
Defined.

(* ===================================================================== *)
(** ** The transaction that initiate-payment builds *)
(* ===================================================================== *)

Ltac destruct_innermost_eqn :=
  match goal with
  | |- context [match ?x with _ => _ end] =>
      lazymatch x with
      | context [match _ with _ => _ end] => fail
      | _ => destruct x eqn:?
      end
  end.

Lemma buildTransaction_shape sdk net MERCHANT_WALLET user USDC_MINT price connection
    w serialized tx details w' :
  SolanaPay.buildTransaction sdk net MERCHANT_WALLET user USDC_MINT price connection w
    = (Ok (PayResponse serialized tx details), w') ->
  exists userUsdcAddress merchantUsdcAddress transfer,
    getAssociatedTokenAddress sdk USDC_MINT user true = inr userUsdcAddress
    /\ getAssociatedTokenAddress sdk USDC_MINT MERCHANT_WALLET true
       = inr merchantUsdcAddress
    /\ createTransferInstruction sdk userUsdcAddress merchantUsdcAddress user
         (BigNumber_shiftedBy_toNumber sdk (binary64 price) 6) = inr transfer
    /\ instructions tx
       = (if userAccountExists details then []
          else [CreateAssociatedTokenAccount user userUsdcAddress user USDC_MINT])
         ++ (if merchantAccountExists details then []
             else [CreateAssociatedTokenAccount user merchantUsdcAddress
                                                MERCHANT_WALLET USDC_MINT])
         ++ [transfer]
    /\ feePayer tx = user
    /\ serialize sdk tx = inr serialized
    /\ pay_amount details = (BigNumber_shiftedBy_toNumber sdk (binary64 price) 6)
    /\ instructionCount details = List.length (instructions tx).
Proof.
  unfold SolanaPay.buildTransaction, SolanaPay.tokenAccountExists,
    bind, try_catch, settle, ret, throw, get_mem.
  repeat first [rewrite await_rpc_run | destruct_innermost_eqn];
    intros H; inversion H; subst;
    cbn [userAccountExists merchantAccountExists] in *; try discriminate;
    do 3 eexists; repeat split; try eassumption; reflexivity.
Qed.

(** X13.  What a successful initiate-payment answer holds.  The request
    named a string account and a numeric price above zero; the transaction
    is paid for by that account; it ends with one transfer from the buyer's
    associated token account to the merchant's, whose amount is the number
    that [new BigNumber(price).shiftedBy(6).toNumber()] gives; before it
    comes one account-creation instruction for each of the two token
    accounts reported as missing, the buyer being the payer of both; nothing
    else is in it, the reported amount is the amount of the transfer, and
    the reported instruction count is its length, between 1 and 3. *)
Theorem payment_transaction_shape
    sdk net endpoints MERCHANT_WALLET body w serialized tx details w' :
  SolanaPay.POST sdk net endpoints MERCHANT_WALLET (BodyJson body) w
    = (Ok (PayResponse serialized tx details), w') ->
  exists account price user USDC_MINT userUsdcAddress merchantUsdcAddress transfer,
    get_prop body "account" = JString account
    /\ get_prop (get_prop body "product") "price" = JNumber price
    /\ Qle_bool price 0 = false
    /\ new_PublicKey sdk (JString (trim account)) = inr user
    /\ getAssociatedTokenAddress sdk USDC_MINT user true = inr userUsdcAddress
    /\ getAssociatedTokenAddress sdk USDC_MINT MERCHANT_WALLET true
       = inr merchantUsdcAddress
    /\ createTransferInstruction sdk userUsdcAddress merchantUsdcAddress user
         (BigNumber_shiftedBy_toNumber sdk (binary64 price) 6) = inr transfer
    /\ instructions tx
       = (if userAccountExists details then []
          else [CreateAssociatedTokenAccount user userUsdcAddress user USDC_MINT])
         ++ (if merchantAccountExists details then []
             else [CreateAssociatedTokenAccount user merchantUsdcAddress
                                                MERCHANT_WALLET USDC_MINT])
         ++ [transfer]
    /\ feePayer tx = user
    /\ serialize sdk tx = inr serialized
    /\ pay_amount details = (BigNumber_shiftedBy_toNumber sdk (binary64 price) 6)
    /\ instructionCount details = List.length (instructions tx)
    /\ 1 <= instructionCount details <= 3.
Proof.
  unfold SolanaPay.POST, try_catch, SolanaPay.POST_try.
  unfold bind at 1.
  destruct (destructure body w) as [[[] | e] wb] eqn:Hbody; [| discriminate].
  assert (wb = w)
    by (unfold destructure, ret, throw in Hbody; destruct body; congruence).
  subst wb.
  unfold SolanaPay.POST_fields.
  destruct (negb (truthy (get_prop body "account"))
            || negb (truthy (get_prop body "product"))); [discriminate |].
  destruct (get_prop (get_prop body "product") "price") as [| | | price | | |] eqn:Hprice;
    try discriminate.
  destruct (Qle_bool price 0) eqn:Hpos; [discriminate |].
  destruct (get_prop body "account") as [| | | | account | |] eqn:Haccount;
    try discriminate.
  destruct (String.eqb (trim account) EmptyString); [discriminate |].
  destruct (negb (SolanaPay.isValidSolanaAddress sdk (JString (trim account))));
    [discriminate |].
  unfold bind at 1. unfold settle at 1.
  destruct (new_PublicKey sdk (JString (trim account))) as [e | user] eqn:Huser;
    [discriminate |].
  unfold ret at 1. unfold bind at 1. rewrite getUsdcMint_run.
  match goal with
  | |- context [match new_PublicKey sdk ?x with _ => _ end] =>
      destruct (new_PublicKey sdk x) as [e | USDC_MINT]; [discriminate |]
  end.
  unfold bind at 1.
  destruct (SolanaPay.getWorkingConnection net endpoints w)
    as [[[connection |] | e] w1]; try discriminate.
  destruct (SolanaPay.buildTransaction sdk net MERCHANT_WALLET user USDC_MINT price
              connection w1) as [[r | e] w2] eqn:Hbuild; [| discriminate].
  intros H. inversion H. subst r w2.
  destruct (buildTransaction_shape _ _ _ _ _ _ _ _ _ _ _ _ Hbuild)
    as (ua & ma & tr & Hua & Hma & Htr & Hins & Hfee & Hser & Hamt & Hcount).
  exists account, price, user, USDC_MINT, ua, ma, tr.
  repeat (split; [first [reflexivity | assumption] |]).
  rewrite Hcount, Hins.
  destruct (userAccountExists details), (merchantAccountExists details); simpl; lia.
Qed.

(** Witness: the widget sale asked for by the shopper, with the toy SDK on
    a network where every token account exists. *)
Lemma payment_transaction_shape_witness :
  exists tx details,
    fst (SolanaPay.POST Examples.toy_sdk
           (Examples.net_up [] Examples.nothing) RPC_ENDPOINTS Examples.merchant
           (Examples.pay_request (JNumber 12) JUndefined) Examples.fresh_route)
    = Ok (PayResponse "AQAAAA==" tx details)
    /\ feePayer tx = Examples.shopper
    /\ 1 <= instructionCount details <= 3.
Proof.
  pose (run := SolanaPay.POST Examples.toy_sdk
                 (Examples.net_up [] Examples.nothing) RPC_ENDPOINTS Examples.merchant
                 (Examples.pay_request (JNumber 12) JUndefined) Examples.fresh_route).
  pose (tx := match fst run with
              | Ok (PayResponse _ tx _) => tx
              | _ => mkSolanaTransaction [] EmptyString Examples.merchant
              end).
  pose (details := match fst run with
                   | Ok (PayResponse _ _ d) => Some d
                   | _ => None
                   end).
  destruct details as [d |] eqn:Hd; [| vm_compute in Hd; discriminate].
  exists tx, d.
  assert (Hrun : run = (Ok (PayResponse "AQAAAA==" tx d), snd run)).
  { vm_compute in Hd. injection Hd as Hd. subst d. vm_compute. reflexivity. }
  destruct (payment_transaction_shape _ _ _ _ _ _ _ _ _ _ Hrun)
    as (account & price & user & mint & ua & ma & tr & Hacc & _ & _ & Huser & _ & _ & _
        & _ & Hfee & _ & _ & _ & Hcount).
  split; [exact (f_equal fst Hrun) |].
  split; [| exact Hcount].
  rewrite Hfee. vm_compute in Hacc. injection Hacc as Hacc. subst account.
  vm_compute in Huser. injection Huser as Huser. subst user. reflexivity.
Defined.

(* ===================================================================== *)
(** ** Initiate-payment: rejected requests and the health check *)
(* ===================================================================== *)

Lemma buildTransaction_not_400 sdk net MERCHANT_WALLET user USDC_MINT price connection
    w r w' :
  SolanaPay.buildTransaction sdk net MERCHANT_WALLET user USDC_MINT price connection w
    = (Ok r, w') ->
  status_of r <> 400.
Proof.
  unfold SolanaPay.buildTransaction, SolanaPay.tokenAccountExists,
    bind, try_catch, settle, ret, throw, get_mem.
  repeat first [rewrite await_rpc_run | destruct_innermost];
    intros H; inversion H; discriminate.
Qed.

(** X14.  An initiate-payment request that is answered with status 400
    has cost nothing: the answer is given before the selector is called, so
    no connection was built, no call was sent, and cache, ledger, clock and
    trace are as they were. *)
Theorem rejected_payment_request_costs_nothing
    sdk net endpoints MERCHANT_WALLET req w r w' :
  SolanaPay.POST sdk net endpoints MERCHANT_WALLET req w = (Ok r, w') ->
  status_of r = 400 ->
  w' = w.
Proof.
  unfold SolanaPay.POST, try_catch, SolanaPay.POST_try, SolanaPay.POST_fields,
    SolanaPay.invalid_price, InternalServerError.
  destruct req as [| | body]; try (unfold ret; intros H _; congruence).
  unfold bind at 1.
  destruct (destructure body w) as [[[] | e] wb] eqn:Hbody;
    [| unfold ret; intros H Hs; inversion H; subst; discriminate].
  assert (wb = w)
    by (unfold destructure, ret, throw in Hbody; destruct body; congruence).
  subst wb.
  destruct (negb (truthy (get_prop body "account"))
            || negb (truthy (get_prop body "product")));
    [unfold ret; intros H _; congruence |].
  destruct (get_prop (get_prop body "product") "price") as [| | | price | | |];
    try (unfold ret; intros H _; congruence).
  destruct (Qle_bool price 0); [unfold ret; intros H _; congruence |].
  destruct (get_prop body "account") as [| | | | account | |];
    try (unfold ret; intros H _; congruence).
  destruct (String.eqb (trim account) EmptyString);
    [unfold ret; intros H _; congruence |].
  destruct (negb (SolanaPay.isValidSolanaAddress sdk (JString (trim account))));
    [unfold ret; intros H _; congruence |].
  unfold bind at 1. unfold settle at 1.
  destruct (new_PublicKey sdk (JString (trim account))) as [e | user];
    [unfold throw, ret; intros H Hs; inversion H; subst; discriminate |].
  unfold ret at 1. unfold bind at 1. rewrite getUsdcMint_run.
  match goal with
  | |- context [match new_PublicKey sdk ?x with _ => _ end] =>
      destruct (new_PublicKey sdk x) as [e | USDC_MINT];
        [unfold ret; intros H Hs; inversion H; subst; discriminate |]
  end.
  unfold bind at 1.
  destruct (SolanaPay.getWorkingConnection net endpoints w)
    as [[[connection |] | e] w1];
    try (unfold ret; intros H Hs; inversion H; subst; discriminate).
  destruct (SolanaPay.buildTransaction sdk net MERCHANT_WALLET user USDC_MINT price
              connection w1) as [[r0 | e] w2] eqn:Hbuild;
    [| unfold ret; intros H Hs; inversion H; subst; discriminate].
  intros H Hs. inversion H. subst r0 w2.
  exfalso. exact (buildTransaction_not_400 _ _ _ _ _ _ _ _ _ _ Hbuild Hs).
Qed.

(** Witness: a price of zero on a network that is up. *)
Lemma rejected_payment_request_costs_nothing_witness :
  snd (SolanaPay.POST Examples.toy_sdk (Examples.net_up [] Examples.nothing)
         RPC_ENDPOINTS Examples.merchant
         (Examples.pay_request (JNumber 0) JUndefined) Examples.cached_route)
  = Examples.cached_route.
Proof.
  apply (rejected_payment_request_costs_nothing
           Examples.toy_sdk (Examples.net_up [] Examples.nothing)
           RPC_ENDPOINTS Examples.merchant
           (Examples.pay_request (JNumber 0) JUndefined) Examples.cached_route
           SolanaPay.invalid_price).
  - vm_compute. reflexivity.
  - reflexivity.
Defined.

(** X15.  The health check of the initiate-payment route never throws.
    With coherent cache variables it answers either 503, or a slot number
    that the endpoint now in the cache returned to the last call of this
    request, together with that endpoint. *)
Theorem health_check_reports_live_endpoint net endpoints w :
  coherent (mem w) ->
  exists r w',
    SolanaPay.GET net endpoints w = (Ok r, w')
    /\ match r with
       | HealthResponse currentSlot endpoint =>
           exists connection t before,
             cachedConnection (mem w') = Some connection
             /\ cachedEndpoint (mem w') = endpoint
             /\ endpoint = Some (rpcEndpoint connection)
             /\ trace w' = before ++ [Rpc t (rpcEndpoint connection) getSlot]
             /\ net_getSlot net t (rpcEndpoint connection) = inr currentSlot
       | ErrorResponse status error _ =>
           status = 503 /\ error = "Cannot connect to Solana network"
       | _ => False
       end.
Proof.
  intros Hco.
  destruct (getWorkingConnection_slot _ (tryEndpoints_dual_slot net) endpoints net w Hco)
    as (r & w1 & Hrun & _ & Hc & He).
  unfold SolanaPay.GET, try_catch, SolanaPay.getWorkingConnection.
  unfold bind at 1. rewrite Hrun.
  destruct r as [connection |].
  - unfold bind at 1. rewrite await_rpc_run.
    destruct (net_getSlot net (clock w1) (rpcEndpoint connection)) as [e | currentSlot]
      eqn:Hslot.
    + eexists; eexists. split; [reflexivity |]. split; reflexivity.
    + eexists; eexists. split; [reflexivity |].
      exists connection, (clock w1), (trace w1). simpl.
      repeat split; assumption.
  - eexists; eexists. split; [reflexivity |]. split; reflexivity.
Qed.

(** Witness: a fresh route on a network that is up. *)
Lemma health_check_reports_live_endpoint_witness :
  exists r w',
    SolanaPay.GET (Examples.net_up [] Examples.nothing) RPC_ENDPOINTS Examples.fresh_route
    = (Ok r, w')
    /\ match r with
       | HealthResponse currentSlot endpoint =>
           exists connection t before,
             cachedConnection (mem w') = Some connection
             /\ cachedEndpoint (mem w') = endpoint
             /\ endpoint = Some (rpcEndpoint connection)
             /\ trace w' = before ++ [Rpc t (rpcEndpoint connection) getSlot]
             /\ net_getSlot (Examples.net_up [] Examples.nothing) t
                  (rpcEndpoint connection) = inr currentSlot
       | ErrorResponse status error _ =>
           status = 503 /\ error = "Cannot connect to Solana network"
       | _ => False
       end.
Proof.
  apply (health_check_reports_live_endpoint (Examples.net_up [] Examples.nothing)
           RPC_ENDPOINTS Examples.fresh_route).
  exact I.
Defined.

(* ===================================================================== *)
(** ** The resolver: what it answers and what it touches *)
(* ===================================================================== *)

Section Post.

Context {St : Type}.

Lemma post_ret {A} (Q : A -> Prop) E (a : A) : Q a -> post (St := St) Q E (ret a).
Proof. intros H w. exact H. Qed.

Lemma post_throw {A} (Q : A -> Prop) (E : jsError -> Prop) e :
  E e -> post (St := St) Q E (throw e).
Proof. intros H w. exact H. Qed.

Lemma post_weaken {A} (Q Q' : A -> Prop) (E E' : jsError -> Prop) (m : M St A) :
  (forall a, Q a -> Q' a) -> (forall e, E e -> E' e) -> post Q E m -> post Q' E' m.
Proof.
  intros HQ HE Hm w. specialize (Hm w). destruct (fst (m w)); auto.
Qed.

Lemma post_bind {A B} (Q1 : A -> Prop) (Q : B -> Prop) E
    (m : M St A) (f : A -> M St B) :
  post Q1 E m -> (forall a, Q1 a -> post Q E (f a)) -> post Q E (bind m f).
Proof.
  intros Hm Hf w. unfold bind. specialize (Hm w).
  destruct (m w) as [[a | e] w1]; simpl in *; [apply Hf; exact Hm | exact Hm].
Qed.

Lemma post_try_catch {A} (Q : A -> Prop) (E1 E : jsError -> Prop)
    (m : M St A) (h : jsError -> M St A) :
  post Q E1 m -> (forall e, E1 e -> post Q E (h e)) -> post Q E (try_catch m h).
Proof.
  intros Hm Hh w. unfold try_catch. specialize (Hm w).
  destruct (m w) as [[a | e] w1]; simpl in *; [exact Hm | apply Hh; exact Hm].
Qed.

(** A step whose result is not looked at, inside a [try]. *)
Lemma post_any {A} (m : M St A) : post anything anything m.
Proof. intros w. destruct (fst (m w)); exact I. Qed.

Lemma post_console_log text E : post (St := St) anything E (console_log text).
Proof. intros w. exact I. Qed.

End Post.

Section ResolverAnswer.

Context {St : Type}.
Variable sdk : solana_sdk.
Variable net : network.
Variable connection : Connection.
Variable owner : PublicKey.

Lemma well_formed_positive held amount m :
  Page.positive held = Some amount ->
  well_formed (Page.mkDetected amount (Some m)).
Proof.
  intros H. right. exists m. split; [reflexivity |].
  exact (positive_is_positive _ _ H).
Qed.

Ltac in_try :=
  repeat first
    [ apply post_ret
    | apply (post_bind anything); [apply post_any | intros ? _]
    | apply (post_try_catch _ anything); [| intros ? _]
    | match goal with
      | |- post _ _ (match ?x with _ => _ end) => destruct x eqn:?
      | |- post _ _ (let (_, _) := ?x in _) => destruct x eqn:?
      end ];
  try exact I.

Lemma checkMint_answer m :
  post (St := St) well_formed_option nothing_thrown
       (Page.checkMint sdk net connection owner m).
Proof.
  unfold Page.checkMint. in_try. simpl. eapply well_formed_positive; eassumption.
Qed.

Lemma checkKnownMints_answer mints :
  post (St := St) well_formed_option nothing_thrown
       (Page.checkKnownMints sdk net connection owner mints).
Proof.
  induction mints as [| m rest IH]; cbn [Page.checkKnownMints].
  - apply post_ret. exact I.
  - apply (post_bind well_formed_option); [apply checkMint_answer |].
    intros [found |] H; [apply post_ret; exact H | exact IH].
Qed.

Lemma scanAllTokenAccounts_answer :
  post (St := St) well_formed_option nothing_thrown
       (Page.scanAllTokenAccounts sdk net connection owner).
Proof.
  unfold Page.scanAllTokenAccounts.
  apply (post_bind anything).
  - intros w.
    destruct (debugWalletTokens_never_throws sdk net connection (toBase58 owner) w)
      as (r & w' & H).
    rewrite H. exact I.
  - intros debugResult _.
    destruct (Page.positive (Some (Page.debug_balance debugResult))) as [q |] eqn:Hpos;
      [| apply post_ret; exact I].
    destruct (Page.debug_mint debugResult) as [m |]; [| apply post_ret; exact I].
    destruct (String.eqb m EmptyString); apply post_ret; [exact I |].
    simpl. right. exists m. split; [reflexivity |]. simpl.
    unfold Page.positive in Hpos.
    destruct (Qle_bool (Page.debug_balance debugResult) 0) eqn:Hle; [discriminate |].
    apply Qnot_le_lt. intros Hq. apply Qle_bool_iff in Hq. congruence.
Qed.

Lemma checkProgramAccount_answer entry :
  post (St := St) well_formed_option nothing_thrown
       (Page.checkProgramAccount sdk net connection entry).
Proof.
  unfold Page.checkProgramAccount. destruct entry as [pubkey account].
  apply (post_try_catch _ anything); [| intros e _; in_try].
  apply (post_bind anything); [apply post_any | intros held _].
  destruct (Page.positive (uiAmount held)) as [amount |] eqn:Hpos;
    [| apply post_ret; exact I].
  unfold settle.
  destruct (PublicKey_of_bytes sdk (firstn 32 (data account))) as [e | mintKey].
  - intros w. exact I.
  - unfold bind, ret. intros w. simpl. eapply well_formed_positive; eassumption.
Qed.

Lemma checkProgramAccounts_answer accounts :
  post (St := St) well_formed_option nothing_thrown
       (Page.checkProgramAccounts sdk net connection accounts).
Proof.
  induction accounts as [| entry rest IH]; cbn [Page.checkProgramAccounts].
  - apply post_ret. exact I.
  - apply (post_bind well_formed_option); [apply checkProgramAccount_answer |].
    intros [found |] H; [apply post_ret; exact H | exact IH].
Qed.

Lemma queryProgramAccounts_answer :
  post (St := St) well_formed_option nothing_thrown
       (Page.queryProgramAccounts sdk net connection owner).
Proof.
  unfold Page.queryProgramAccounts.
  apply (post_try_catch _ anything); [| intros e _; in_try].
  apply (post_bind anything); [apply post_any | intros ? _].
  apply (post_bind anything); [apply post_any | intros accounts _].
  eapply post_weaken; [| | apply checkProgramAccounts_answer]; [auto | intros e []].
Qed.

Lemma detect_with_answer mints :
  post (St := St) well_formed nothing_thrown
       (Page.detect_with sdk net connection owner mints).
Proof.
  unfold Page.detect_with, Page.detect_try.
  apply (post_try_catch _ nothing_thrown); [| intros e []].
  apply (post_bind anything); [apply post_console_log | intros _ _].
  apply (post_bind well_formed_option); [apply checkKnownMints_answer |].
  intros [found |] H; [apply post_ret; exact H |].
  apply (post_bind anything); [apply post_console_log | intros _ _].
  apply (post_bind well_formed_option); [apply scanAllTokenAccounts_answer |].
  intros [found |] H2; [apply post_ret; exact H2 |].
  apply (post_bind anything); [apply post_console_log | intros _ _].
  apply (post_bind well_formed_option); [apply queryProgramAccounts_answer |].
  intros [found |] H3; apply post_ret; [exact H3 | left; reflexivity].
Qed.

End ResolverAnswer.

(** X16.  Whatever the network answers, the resolver returns without
    throwing, and what it returns is either "not found" (balance 0, no mint)
    or a mint together with a balance strictly above zero: it never reports
    a mint with a zero or negative balance, and never a balance without a
    mint. *)
Theorem resolver_answer_is_well_formed (St : Type) sdk net connection owner
    (w : world St) :
  exists found w',
    Page.detectUsdcBalanceAndMint sdk net connection owner w = (Ok found, w')
    /\ (found = Page.NotFound
        \/ exists m, Page.mint found = Some m /\ (0 < Page.balance found)%Q).
Proof.
  pose proof (detect_with_answer sdk net connection owner POTENTIAL_USDC_MINTS w) as H.
  unfold Page.detectUsdcBalanceAndMint.
  destruct (Page.detect_with sdk net connection owner POTENTIAL_USDC_MINTS w)
    as [[found | e] w']; simpl in H; [| destruct H].
  exists found, w'. split; [reflexivity | exact H].
Qed.

Section ResolverReads.

Context {St : Type}.
Variable sdk : solana_sdk.
Variable net : network.
Variable connection : Connection.
Variable owner : PublicKey.

Let P := reads_from (rpcEndpoint connection).

Ltac reads extra :=
  trace_steps P ltac:(first [exact I | reflexivity]) extra.

Ltac keeps extra :=
  steps_with (same_mem_refl (St := St)) (same_mem_trans (St := St))
             (same_mem_emit (St := St)) (same_mem_tick (St := St)) extra.

Lemma reads_debugAccounts accounts :
  steps (St := St) (emits_only P) (Page.debugAccounts sdk net connection accounts).
Proof.
  induction accounts as [| [pubkey info] rest IH]; cbn [Page.debugAccounts].
  - reads fail.
  - unfold Page.debugAccount. reads ltac:(exact IH).
Qed.

Lemma reads_checkKnownMints mints :
  steps (St := St) (emits_only P) (Page.checkKnownMints sdk net connection owner mints).
Proof.
  induction mints as [| m rest IH]; cbn [Page.checkKnownMints].
  - reads fail.
  - unfold Page.checkMint. reads ltac:(exact IH).
Qed.

Lemma reads_checkProgramAccounts accounts :
  steps (St := St) (emits_only P) (Page.checkProgramAccounts sdk net connection accounts).
Proof.
  induction accounts as [| [pubkey info] rest IH]; cbn [Page.checkProgramAccounts].
  - reads fail.
  - unfold Page.checkProgramAccount. reads ltac:(exact IH).
Qed.

Lemma reads_detect_with mints :
  steps (St := St) (emits_only P) (Page.detect_with sdk net connection owner mints).
Proof.
  unfold Page.detect_with, Page.detect_try, Page.scanAllTokenAccounts,
    Page.debugWalletTokens, Page.queryProgramAccounts.
  reads ltac:(first [ apply reads_checkKnownMints
                    | apply reads_debugAccounts
                    | apply reads_checkProgramAccounts ]).
Qed.

Lemma keeps_debugAccounts accounts :
  steps (St := St) same_mem (Page.debugAccounts sdk net connection accounts).
Proof.
  induction accounts as [| [pubkey info] rest IH]; cbn [Page.debugAccounts].
  - keeps fail.
  - unfold Page.debugAccount, console_log. keeps ltac:(exact IH).
Qed.

Lemma keeps_checkKnownMints mints :
  steps (St := St) same_mem (Page.checkKnownMints sdk net connection owner mints).
Proof.
  induction mints as [| m rest IH]; cbn [Page.checkKnownMints].
  - keeps fail.
  - unfold Page.checkMint, console_log. keeps ltac:(exact IH).
Qed.

Lemma keeps_checkProgramAccounts accounts :
  steps (St := St) same_mem (Page.checkProgramAccounts sdk net connection accounts).
Proof.
  induction accounts as [| [pubkey info] rest IH]; cbn [Page.checkProgramAccounts].
  - keeps fail.
  - unfold Page.checkProgramAccount, console_log. keeps ltac:(exact IH).
Qed.

Lemma keeps_detect_with mints :
  steps (St := St) same_mem (Page.detect_with sdk net connection owner mints).
Proof.
  unfold Page.detect_with, Page.detect_try, Page.scanAllTokenAccounts,
    Page.debugWalletTokens, Page.queryProgramAccounts, console_log.
  keeps ltac:(first [ apply keeps_checkKnownMints
                    | apply keeps_debugAccounts
                    | apply keeps_checkProgramAccounts ]).
Qed.

End ResolverReads.

(** X17.  The resolver only reads.  Every call it sends goes to the
    connection it was handed; it builds no connection of its own; the only
    other thing it does is write log lines; and the state of the page is the
    same after it as before. *)
Theorem resolver_only_reads (St : Type) sdk net connection owner (w : world St) :
  mem (snd (Page.detectUsdcBalanceAndMint sdk net connection owner w)) = mem w
  /\ exists events,
       trace (snd (Page.detectUsdcBalanceAndMint sdk net connection owner w))
       = trace w ++ events
       /\ Forall (reads_from (rpcEndpoint connection)) events.
Proof.
  split.
  - apply (keeps_detect_with sdk net connection owner POTENTIAL_USDC_MINTS w).
  - apply (reads_detect_with sdk net connection owner POTENTIAL_USDC_MINTS w).
Qed.

(* ===================================================================== *)
(** ** The selector of the page *)
(* ===================================================================== *)

Lemma Page_tryEndpoints_some net l w connection w1 :
  Page.tryEndpoints net l w = (Ok (Some connection), w1) ->
  Page.workingRpc (mem w1) = Some (rpcEndpoint connection)
  /\ assertEndpointUrl (rpcEndpoint connection) = true.
Proof.
  revert w. induction l as [| e rest IH]; intros w; cbn [Page.tryEndpoints].
  - discriminate.
  - unfold try_catch. unfold bind at 1. unfold bind at 1. unfold bind at 1.
    rewrite new_Connection_run. unfold constructed.
    destruct (assertEndpointUrl e) eqn:Hurl; [| apply IH].
    unfold bind at 1. rewrite await_rpc_run.
    destruct (net_getVersion net _ _); [apply IH |].
    unfold bind, set_mem, ret. simpl.
    intros H. inversion H. subst. simpl. auto.
Qed.

(** X18.  When the selector of the page has returned a connection, the
    page remembers that connection's endpoint, and a later call that sees
    this state returns a connection to the same endpoint, whatever the
    network and the candidate list are by then: it builds the connection and
    sends nothing, so a remembered endpoint that has died is not noticed and
    no other candidate is tried. *)
Theorem page_selector_sticks net endpoints w connection w1 :
  Page.getWorkingConnection net endpoints w = (Ok (Some connection), w1) ->
  Page.remembered (mem w1) = Some (rpcEndpoint connection)
  /\ forall net' endpoints' w2,
       mem w2 = mem w1 ->
       Page.getWorkingConnection net' endpoints' w2
       = (Ok (Some connection),
          mkWorld (clock w2) (trace w2 ++ [NewConnection (rpcEndpoint connection)])
                  (mem w2)).
Proof.
  intros Hrun.
  assert (Hrem : Page.remembered (mem w1) = Some (rpcEndpoint connection)
                 /\ assertEndpointUrl (rpcEndpoint connection) = true).
  { revert Hrun. unfold Page.getWorkingConnection. unfold bind at 1. unfold get_mem at 1.
    destruct (Page.remembered (mem w)) as [e |] eqn:Hr.
    - unfold bind. rewrite new_Connection_run. unfold constructed.
      destruct (assertEndpointUrl e) eqn:Hurl; [| discriminate].
      unfold ret. intros H. inversion H. subst. simpl. auto.
    - intros H. destruct (Page_tryEndpoints_some _ _ _ _ _ H) as [Hw Hurl].
      unfold Page.remembered. rewrite Hw.
      rewrite (assertEndpointUrl_nonempty _ Hurl). auto. }
  destruct Hrem as [Hrem Hurl]. split; [exact Hrem |].
  intros net' endpoints' w2 Hmem. rewrite <- Hmem in Hrem.
  unfold Page.getWorkingConnection. unfold bind at 1. unfold get_mem at 1.
  rewrite Hrem. unfold bind. rewrite new_Connection_run, Hurl. unfold constructed.
  destruct connection. reflexivity.
Qed.

(** Witness: a first call on a network that is up, a second one when it is
    down. *)
Lemma page_selector_sticks_witness :
  Page.getWorkingConnection Examples.net_down []
    (snd (Page.getWorkingConnection (Examples.net_up [] Examples.nothing)
            RPC_ENDPOINTS Examples.fresh_page))
  = (Ok (Some (mkConnection Examples.devnet)),
     mkWorld 1 [NewConnection Examples.devnet;
                Rpc 0 Examples.devnet getVersion;
                NewConnection Examples.devnet]
             (Page.mkPage (Some Examples.devnet))).
Proof.
  refine (proj2 (page_selector_sticks (Examples.net_up [] Examples.nothing)
                   RPC_ENDPOINTS Examples.fresh_page (mkConnection Examples.devnet)
                   (snd (Page.getWorkingConnection (Examples.net_up [] Examples.nothing)
                           RPC_ENDPOINTS Examples.fresh_page)) _)
                Examples.net_down []
                (snd (Page.getWorkingConnection (Examples.net_up [] Examples.nothing)
                        RPC_ENDPOINTS Examples.fresh_page)) _).
  - vm_compute. reflexivity.
  - reflexivity.
Defined.

(* ===================================================================== *)
(** ** Key derivation on the page *)
(* ===================================================================== *)

Lemma hex_bytes_length_pairs n : forall s,
  String.length s <= 2 * n ->
  List.length (Home.hex_bytes s) = (String.length s + 1) / 2.
Proof.
  induction n as [| n IH]; intros s Hlen.
  - destruct s; [reflexivity | simpl in Hlen; lia].
  - destruct s as [| a [| b rest]]; try reflexivity.
    cbn [Home.hex_bytes List.length String.length] in *.
    rewrite IH by lia.
    replace (S (S (String.length rest)) + 1) with (String.length rest + 1 + 1 * 2) by lia.
    rewrite Nat.div_add by lia. lia.
Qed.

Lemma hex_bytes_length s :
  List.length (Home.hex_bytes s) = (String.length s + 1) / 2.
Proof. apply (hex_bytes_length_pairs (String.length s)). lia. Qed.

Lemma half_is_32 n : 64 <= n -> ((n + 1) / 2 =? 32) = (n =? 64).
Proof.
  intros Hn.
  pose proof (Nat.div_mod_eq (n + 1) 2) as Hdiv.
  pose proof (Nat.mod_upper_bound (n + 1) 2 ltac:(lia)) as Hmod.
  destruct (Nat.eqb_spec ((n + 1) / 2) 32), (Nat.eqb_spec n 64); try reflexivity; lia.
Qed.

Lemma half_is_64 n : ((n + 1) / 2 =? 64) = ((n =? 127) || (n =? 128)).
Proof.
  pose proof (Nat.div_mod_eq (n + 1) 2) as Hdiv.
  pose proof (Nat.mod_upper_bound (n + 1) 2 ltac:(lia)) as Hmod.
  destruct (Nat.eqb_spec ((n + 1) / 2) 64), (Nat.eqb_spec n 127), (Nat.eqb_spec n 128);
    try reflexivity; lia.
Qed.

(** X19.  A private key written in hexadecimal (64 digits or more) is read
    two digits to a byte, a last single digit standing for a byte of its
    own.  It yields a key exactly in these cases: 64 digits, handed to
    [Keypair.fromSeed] as 32 bytes, and 127 or 128 digits, handed to
    [Keypair.fromSecretKey] as 64 bytes.  For every other number of digits,
    and when the key pair function rejects the bytes, the result is the
    empty string with one line logged; nothing is thrown and the base58
    decoder is not consulted. *)
Theorem hex_private_key_lengths (St : Type) ksdk privateKey (w : world St) :
  Home.is_hex_key privateKey = true ->
  List.length (Home.hex_bytes privateKey) = (String.length privateKey + 1) / 2
  /\ Home.derivePublicKeyFromPrivateKey ksdk privateKey w
     = match
         (if String.length privateKey =? 64
          then Home.Keypair_fromSeed ksdk (Home.hex_bytes privateKey)
          else if (String.length privateKey =? 127) || (String.length privateKey =? 128)
          then Home.Keypair_fromSecretKey ksdk (Home.hex_bytes privateKey)
          else inl (mkError "Error" "Unexpected private key length"))
       with
       | inr keypair => (Ok (toBase58 keypair), w)
       | inl _ => (Ok EmptyString, logged w "Failed to derive Solana keypair:")
       end.
Proof.
  intros Hhex. split; [apply hex_bytes_length |].
  assert (Hlen : 64 <= String.length privateKey).
  { unfold Home.is_hex_key in Hhex. apply andb_true_iff in Hhex.
    destruct Hhex as [_ H]. apply Nat.leb_le in H. exact H. }
  unfold Home.derivePublicKeyFromPrivateKey, try_catch. rewrite Hhex.
  unfold bind at 1. unfold ret at 1. unfold bind at 1.
  rewrite hex_bytes_length, (half_is_32 _ Hlen), half_is_64.
  destruct (String.length privateKey =? 64).
  - unfold settle.
    destruct (Home.Keypair_fromSeed ksdk (Home.hex_bytes privateKey)); reflexivity.
  - destruct ((String.length privateKey =? 127) || (String.length privateKey =? 128)).
    + unfold settle.
      destruct (Home.Keypair_fromSecretKey ksdk (Home.hex_bytes privateKey)); reflexivity.
    + reflexivity.
Qed.

(** Witness: sixty-four zeros. *)
Lemma hex_private_key_lengths_witness :
  List.length (Home.hex_bytes
    "0000000000000000000000000000000000000000000000000000000000000000") = 32.
Proof.
  exact (proj1 (hex_private_key_lengths unit
    (Home.mkKeypairSdk (fun _ => inl Examples.offline)
                       (fun _ => inr Examples.shopper)
                       (fun _ => inr Examples.merchant))
    "0000000000000000000000000000000000000000000000000000000000000000"
    (mkWorld 0 [] tt) eq_refl)).
Defined.

(* ===================================================================== *)
(** ** The balance effect of the page *)
(* ===================================================================== *)

Lemma on_page_fields {A} (m : M Page.page_state A) w o w1 :
  Home.on_page m w = (o, w1) ->
  Home.solanaAddress (mem w1) = Home.solanaAddress (mem w).
Proof.
  unfold Home.on_page. destruct (m _) as [o' w']. intros H. inversion H. reflexivity.
Qed.

(** How the effect ends after its [try] block threw [e] in world [w1]. *)
Lemma fetchUsdcBalance_failed e (w1 : world Home.home_state) :
  (r <- (Home.setUsdcBalance (Some 0%Q) ;;;
         Home.setDetectedUsdcMint None ;;;
         Home.setStatusMessage ("Error loading balance: " ++ err_message e)) ;;
   Home.setIsBalanceLoading false ;;; ret r) w1
  = (Ok tt,
     mkWorld (clock w1) (trace w1)
       (Home.mkHome (Home.solanaAddress (mem w1)) (Some 0%Q) None false
                    ("Error loading balance: " ++ err_message e)
                    (Home.rpc (mem w1)))).
Proof. reflexivity. Qed.

(** X20.  However the network behaves, the balance effect of the page
    ends without throwing, with the loading flag off and the address
    untouched, and leaves the page in one of two states: balance 0 with no
    mint, or a balance strictly above zero together with the mint it was
    found under.  The balance is never left unset. *)
Theorem balance_effect_settles sdk net endpoints (w : world Home.home_state) :
  exists w',
    Home.fetchUsdcBalance sdk net endpoints w = (Ok tt, w')
    /\ Home.isBalanceLoading (mem w') = false
    /\ Home.solanaAddress (mem w') = Home.solanaAddress (mem w)
    /\ ((Home.usdcBalance (mem w') = Some 0%Q /\ Home.detectedUsdcMint (mem w') = None)
        \/ exists q m,
             Home.usdcBalance (mem w') = Some q
             /\ Home.detectedUsdcMint (mem w') = Some m
             /\ (0 < q)%Q).
Proof.
  unfold Home.fetchUsdcBalance. unfold bind at 1. unfold get_mem at 1.
  destruct (String.eqb (Home.solanaAddress (mem w)) EmptyString
            || negb (Home.isValidSolanaAddress sdk (Home.solanaAddress (mem w)))).
  { eexists. split; [reflexivity |]. simpl. auto. }
  unfold bind at 1.
  change (Home.setIsBalanceLoading true w)
    with (Ok tt, mkWorld (clock w) (trace w)
                   (Home.mkHome (Home.solanaAddress (mem w)) (Home.usdcBalance (mem w))
                      (Home.detectedUsdcMint (mem w)) true (Home.statusMessage (mem w))
                      (Home.rpc (mem w)))).
  cbv beta iota. unfold bind at 1.
  match goal with
  | |- context [Home.setStatusMessage ?t ?w0] =>
      change (Home.setStatusMessage t w0)
        with (Ok tt, mkWorld (clock w0) (trace w0)
                       (Home.mkHome (Home.solanaAddress (mem w0))
                          (Home.usdcBalance (mem w0)) (Home.detectedUsdcMint (mem w0))
                          (Home.isBalanceLoading (mem w0)) t (Home.rpc (mem w0))))
  end.
  cbv beta iota. cbn [mem clock trace Home.solanaAddress Home.usdcBalance
                      Home.detectedUsdcMint Home.isBalanceLoading Home.rpc].
  set (w0 := mkWorld (clock w) (trace w) _).
  assert (Haddr0 : Home.solanaAddress (mem w0) = Home.solanaAddress (mem w))
    by reflexivity.
  clearbody w0.
  unfold Home.try_catch_finally, try_catch. unfold bind at 1. unfold bind at 1.
  destruct (Home.on_page (Page.getWorkingConnection net endpoints) w0)
    as [[[connection |] | e] w1] eqn:Hpage;
    pose proof (on_page_fields _ _ _ _ Hpage) as Haddr1.
  - (* a connection *)
    unfold bind at 1. unfold settle at 1.
    destruct (new_PublicKey sdk (JString (Home.solanaAddress (mem w))))
      as [e | userPublicKey].
    + unfold throw at 1.
      eexists. split; [apply (fetchUsdcBalance_failed e w1) |].
      simpl. rewrite Haddr1, Haddr0. auto.
    + unfold ret at 1. unfold bind at 1.
      pose proof (detect_with_answer sdk net connection userPublicKey
                    POTENTIAL_USDC_MINTS w1) as Hgood.
      pose proof (keeps_detect_with sdk net connection userPublicKey
                    POTENTIAL_USDC_MINTS w1) as Hmem.
      unfold Page.detectUsdcBalanceAndMint.
      destruct (Page.detect_with sdk net connection userPublicKey
                  POTENTIAL_USDC_MINTS w1) as [[found | e] w2];
        simpl in Hgood; [| destruct Hgood].
      unfold same_mem in Hmem. simpl in Hmem.
      eexists. split; [reflexivity |]. simpl. rewrite Hmem, Haddr1, Haddr0.
      split; [reflexivity |]. split; [reflexivity |].
      destruct Hgood as [-> | (m & Hm & Hq)].
      * left. split; reflexivity.
      * right. exists (Page.balance found), m. auto.
  - (* no endpoint answers *)
    unfold throw at 1.
    eexists. split; [apply (fetchUsdcBalance_failed _ w1) |].
    simpl. rewrite Haddr1, Haddr0. auto.
  - (* the selector threw *)
    eexists. split; [apply (fetchUsdcBalance_failed e w1) |].
    simpl. rewrite Haddr1, Haddr0. auto.
Qed.

(* ===================================================================== *)
(** ** The image route, and confirmations sent twice *)
(* ===================================================================== *)

(** X21.  The image route never throws and leaves cache and ledger alone.
    It asks the image service at most once, and only when the API key is
    configured and the body names a product; it then answers with the image
    the service returned, or 500 when the service failed.  In every other
    case it answers 400 or 500 without asking the service. *)
Theorem image_route_asks_at_most_once net configured req w :
  exists r w',
    GenerateNftImage.POST net configured req w = (Ok r, w')
    /\ mem w' = mem w
    /\ ((w' = w /\ (status_of r = 400 \/ status_of r = 500))
        \/ exists body,
             configured = true
             /\ req = BodyJson body
             /\ truthy (get_prop body "productName") = true
             /\ trace w' = trace w ++ [GenerateImage (clock w) (get_prop body "productName")]
             /\ r = match net_generateImage net (clock w)
                            (get_prop body "productName") with
                    | inr generatedImage => ImageResponse generatedImage
                    | inl e => ErrorResponse 500 "Failed to generate image" (err_message e)
                    end).
Proof.
  unfold GenerateNftImage.POST, try_catch.
  destruct configured; cbn [negb];
    [| eexists; eexists; split; [reflexivity |]; split; [reflexivity |];
       left; split; [reflexivity | right; reflexivity]].
  destruct req as [| | body];
    try (eexists; eexists; split; [reflexivity |]; split; [reflexivity |];
         left; split; [reflexivity | right; reflexivity]).
  unfold bind at 1.
  destruct (destructure body w) as [[[] | e] wb] eqn:Hbody.
  - assert (wb = w)
      by (unfold destructure, ret, throw in Hbody; destruct body; congruence).
    subst wb.
    destruct (truthy (get_prop body "productName")) eqn:Hname; cbn [negb].
    + unfold bind, now, emit, tick, settle. cbn [fst snd clock trace mem].
      destruct (net_generateImage net (clock w) (get_prop body "productName"))
        as [e | generatedImage] eqn:Himage;
        (eexists; eexists; split; [reflexivity |]; split; [reflexivity |];
         right; exists body; rewrite ?Himage;
         repeat split; first [assumption | reflexivity]).
    + eexists; eexists. split; [reflexivity |]. split; [reflexivity |].
      left. split; [reflexivity | left; reflexivity].
  - assert (wb = w)
      by (unfold destructure, ret, throw in Hbody; destruct body; congruence).
    subst wb.
    eexists; eexists. split; [reflexivity |]. split; [reflexivity |].
    left. split; [reflexivity | right; reflexivity].
Qed.

(** X22.  Confirm-payment keeps no record of the signatures it has seen:
    when the same request is confirmed a second time and succeeds again, the
    ledger holds two records with that signature at its end, the receipt
    count has gone up by two, and [totalSales += price] has been done
    twice, in double arithmetic. *)
Theorem repeated_confirmation_is_recorded_twice
    net endpoints MERCHANT_WALLET req flag1 endpoint1 flag2 endpoint2 w w1 w2 :
  ConfirmPayment.POST net endpoints MERCHANT_WALLET req w
    = (Ok (Some (ConfirmResponse flag1 endpoint1)), w1) ->
  ConfirmPayment.POST net endpoints MERCHANT_WALLET req w1
    = (Ok (Some (ConfirmResponse flag2 endpoint2)), w2) ->
  exists sig first second,
    price_of req = amount first
    /\ transactions (db (mem w2)) = transactions (db (mem w)) ++ [first; second]
    /\ signature first = sig
    /\ signature second = sig
    /\ amount second = amount first
    /\ totalSales (db (mem w2))
       = js_plus (js_plus (totalSales (db (mem w))) (amount first)) (amount first)
    /\ nftReceiptsIssued (db (mem w2)) = 2 + nftReceiptsIssued (db (mem w)).
Proof.
  intros H1 H2.
  destruct (POST_success_backed _ _ _ _ _ _ _ _ H1)
    as (body & sig & tx & t & tq & c & Hreq & Hsig & _ & _ & Hdb1 & _).
  destruct (POST_success_backed _ _ _ _ _ _ _ _ H2)
    as (body' & sig' & tx' & t' & tq' & c' & Hreq' & Hsig' & _ & _ & Hdb2 & _).
  rewrite Hreq in Hreq'. injection Hreq' as <-.
  rewrite Hsig in Hsig'. injection Hsig' as <-.
  exists sig, (receipt_of net tx sig (get_prop body "product") t),
    (receipt_of net tx' sig (get_prop body "product") t').
  rewrite Hdb2, Hdb1, Hreq. unfold pushed. simpl.
  rewrite <- app_assoc. repeat split.
Qed.

(** Witness: the widget sale confirmed twice on a network that is up. *)
Lemma repeated_confirmation_is_recorded_twice_witness :
  nftReceiptsIssued
    (db (mem (snd (ConfirmPayment.POST
                     (Examples.net_up [Examples.shopper; Examples.merchant]
                                      Examples.nothing)
                     RPC_ENDPOINTS Examples.merchant
                     (Examples.confirm_request (JNumber 12))
                     (snd (ConfirmPayment.POST
                             (Examples.net_up [Examples.shopper; Examples.merchant]
                                              Examples.nothing)
                             RPC_ENDPOINTS Examples.merchant
                             (Examples.confirm_request (JNumber 12))
                             Examples.fresh_route))))))
  = 2.
Proof.
  pose (net := Examples.net_up [Examples.shopper; Examples.merchant] Examples.nothing).
  pose (w1 := snd (ConfirmPayment.POST net RPC_ENDPOINTS Examples.merchant
                     (Examples.confirm_request (JNumber 12)) Examples.fresh_route)).
  pose (w2 := snd (ConfirmPayment.POST net RPC_ENDPOINTS Examples.merchant
                     (Examples.confirm_request (JNumber 12)) w1)).
  destruct (repeated_confirmation_is_recorded_twice net RPC_ENDPOINTS Examples.merchant
              (Examples.confirm_request (JNumber 12))
              true (Some Examples.devnet) true (Some Examples.devnet)
              Examples.fresh_route w1 w2)
    as (sig & first & second & _ & _ & _ & _ & _ & _ & Hcount).
  - vm_compute. reflexivity.
  - vm_compute. reflexivity.
  - exact Hcount.
Defined.
